(** * pdf_extractor: a model of the resumable page pipeline

    A shallow embedding of [pdf_extractor.py]: the page worker
    ([process_page_task]), the scheduler and its tally ([process_pdf]),
    the resume query ([get_last_processed_page]), the three aggregation
    passes ([combine_text_files], [generate_word_count_csv],
    [generate_proper_names_csv]), the batch coordinator
    ([process_single_pdf], [process_directory]) and the exit status of
    the command line ([setup_and_run]).

    Conventions of the model.
    - A Python [str] is a Rocq [string]; a character stands for the code
      point of the same number, so the model covers text whose code
      points are below 256.
    - A Python [int] is a [Z].
    - An output directory is the set of names in [png_images] and the
      map from names to files in [text_files]; a file of [text_files]
      can be read or not.
    - The rasterizer, the recognizer and the opening of a document
      either succeed or raise; what they do is given by an environment.
      The named-entity recognizer is a function, when it is there.
    - The tasks of the worker pool run one after the other, in the order
      in which [as_completed] yields them; the environment chooses that
      order.
    - The files the program writes itself are written: the branches that
      only print a warning when such a write fails are left out.
    - Printing to the terminal is not modelled; a CSV report is the list
      of the rows given to the writer. *)

From Stdlib Require Import ZArith Ascii String List Bool Lia.
From Stdlib Require Import Decimal DecimalString DecimalN DecimalZ.
From Stdlib Require Import Permutation Sorted.
From stdpp Require Import base option list gmap strings sorting.

Local Open Scope Z_scope.

(** ** Python values *)

(** An exception: [type(e).__name__] and [str(e)]. *)
Record py_exception := PyExc { exc_type : string; exc_str : string }.

(** The outcome of a call that may raise. *)
Inductive result (A : Type) : Type :=
| Ok (a : A)
| Raise (e : py_exception).
Arguments Ok {A} a.
Arguments Raise {A} e.

(** [f"{type(e).__name__}: {str(e)}"] *)
Definition exc_repr (e : py_exception) : string :=
  exc_type e +:+ ": " +:+ exc_str e.

(** ** Characters and strings *)

Definition code (c : ascii) : Z := Z.of_N (N_of_ascii c).

Definition between (lo hi : Z) (c : ascii) : bool :=
  (lo <=? code c) && (code c <=? hi).

(** [str.isspace] on one character. *)
Definition py_isspace (c : ascii) : bool :=
  between 9 13 c || between 28 32 c || (code c =? 133) || (code c =? 160).

(** The ASCII decimal digits. *)
Definition ascii_digit (c : ascii) : bool := between 48 57 c.

(** [str.isdigit] on one character: the ASCII digits and the three
    superscript digits of the Latin-1 block. *)
Definition py_isdigit_char (c : ascii) : bool :=
  ascii_digit c || (code c =? 178) || (code c =? 179) || (code c =? 185).

(** The character class [[a-zA-Z0-9]]. *)
Definition alnum_class (c : ascii) : bool :=
  between 97 122 c || between 65 90 c || between 48 57 c.

(** The characters [\w] matches in a [str] pattern: the alphanumeric
    characters and the underscore. *)
Definition word_char (c : ascii) : bool :=
  alnum_class c || (code c =? 95)
  || (code c =? 170) || (code c =? 178) || (code c =? 179) || (code c =? 181)
  || (code c =? 185) || (code c =? 186) || between 188 190 c
  || between 192 214 c || between 216 246 c || between 248 255 c.

(** [str.lower] on one character. *)
Definition py_lower_char (c : ascii) : ascii :=
  if between 65 90 c || (between 192 222 c && negb (code c =? 215))
  then ascii_of_N (N_of_ascii c + 32)
  else c.

Definition chars (s : string) : list ascii := list_ascii_of_string s.
Definition str (l : list ascii) : string := string_of_list_ascii l.

(** [s.lower()] *)
Definition py_lower (s : string) : string := str (map py_lower_char (chars s)).

Fixpoint lstrip (l : list ascii) : list ascii :=
  match l with
  | c :: l' => if py_isspace c then lstrip l' else l
  | [] => []
  end.

(** [s.strip()] *)
Definition py_strip (s : string) : string :=
  str (rev (lstrip (rev (lstrip (chars s))))).

(** [needle in hay] *)
Fixpoint py_in (needle hay : string) : bool :=
  String.prefix needle hay ||
  match hay with
  | String _ hay' => py_in needle hay'
  | EmptyString => false
  end.

(** [s.replace(' ', '_')] *)
Fixpoint replace_spaces (s : string) : string :=
  match s with
  | String c s' =>
      String (if Ascii.eqb c " " then "_"%char else c) (replace_spaces s')
  | EmptyString => EmptyString
  end.

(** [s.endswith(suffix)] *)
Definition endswith (s suffix : string) : bool :=
  String.prefix (str (rev (chars suffix))) (str (rev (chars s))).

(** ** Integers as text *)

(** [str(n)] *)
Definition py_str_int (n : Z) : string := NilZero.string_of_int (Z.to_int n).

Fixpoint zero_fill (k : nat) (d : uint) : uint :=
  match k with
  | O => d
  | S k' => D0 (zero_fill k' d)
  end.

(** Zero padding of a digit string up to a width. *)
Definition pad_uint (width : nat) (d : uint) : uint :=
  zero_fill (width - Decimal.nb_digits d) d.

(** [f"{n:04d}"]: at least four characters, the sign included. *)
Definition fmt04d (n : Z) : string :=
  match n with
  | Zneg p => String "-" (NilEmpty.string_of_uint (pad_uint 3 (Pos.to_uint p)))
  | _ => NilEmpty.string_of_uint (pad_uint 4 (N.to_uint (Z.to_N n)))
  end.

(** [s.isdigit()] *)
Definition py_isdigit (s : string) : bool :=
  negb (String.eqb s EmptyString) && forallb py_isdigit_char (chars s).

(** The white space [int] skips around a number. *)
Definition int_space (c : ascii) : bool :=
  between 9 13 c || (code c =? 32) || (code c =? 133) || (code c =? 160).

Fixpoint lstrip_int (l : list ascii) : list ascii :=
  match l with
  | c :: l' => if int_space c then lstrip_int l' else l
  | [] => []
  end.

(** The digits of an [int] literal: decimal digits, single underscores
    between them only. *)
Fixpoint digits_ok (after_digit : bool) (l : list ascii) : bool :=
  match l with
  | [] => after_digit
  | c :: l' =>
      if ascii_digit c then digits_ok true l'
      else if Ascii.eqb c "_" then after_digit && digits_ok false l'
      else false
  end.

(** [s.isprintable()] on one character. *)
Definition py_isprintable (c : ascii) : bool :=
  (between 32 126 c || between 161 255 c) && negb (code c =? 173).

Definition hex_digit (n : N) : ascii :=
  ascii_of_N (if (n <? 10)%N then 48 + n else 87 + n).

(** What [repr] writes for one character of a string quoted with
    [quote]. *)
Definition repr_char (quote c : ascii) : string :=
  if Ascii.eqb c quote || Ascii.eqb c "092" then String "092" (String c EmptyString)
  else if Ascii.eqb c "009" then String "092" "t"
  else if Ascii.eqb c "010" then String "092" "n"
  else if Ascii.eqb c "013" then String "092" "r"
  else if py_isprintable c then String c EmptyString
  else String "092" (String "x"
         (String (hex_digit (N_of_ascii c / 16))
            (String (hex_digit (N_of_ascii c mod 16)) EmptyString))).

(** [repr(s)]: in single quotes, unless [s] holds a single quote and no
    double quote. *)
Definition py_repr (s : string) : string :=
  let quote :=
    if existsb (Ascii.eqb "039") (chars s) && negb (existsb (Ascii.eqb "034") (chars s))
    then "034"%char else "039"%char in
  String quote
    (fold_right (λ c acc, repr_char quote c +:+ acc) (String quote EmptyString)
                (chars s)).

(** The [ValueError] of [int(s)]: the message ends with the first 200
    characters of [repr(s)]. *)
Definition value_error (s : string) : py_exception :=
  PyExc "ValueError"
        ("invalid literal for int() with base 10: "
         +:+ String.substring 0 200 (py_repr s)).

Definition digits_value (s : string) (digits : list ascii) : result Z :=
  if digits_ok false digits then
    match NilEmpty.uint_of_string (str (List.filter ascii_digit digits)) with
    | Some d => Ok (Z.of_N (N.of_uint d))
    | None => Raise (value_error s)
    end
  else Raise (value_error s).

(** [int(s)] *)
Definition py_int (s : string) : result Z :=
  match rev (lstrip_int (rev (lstrip_int (chars s)))) with
  | c :: digits =>
      if Ascii.eqb c "-" then
        match digits_value s digits with
        | Ok n => Ok (- n)
        | Raise e => Raise e
        end
      else if Ascii.eqb c "+" then digits_value s digits
      else digits_value s (c :: digits)
  | [] => Raise (value_error s)
  end.

(** ** Path names *)

Fixpoint rfind_dot (l : list ascii) (i : nat) (found : option nat) : option nat :=
  match l with
  | [] => found
  | c :: l' => rfind_dot l' (S i) (if Ascii.eqb c "." then Some i else found)
  end.

(** Where [PurePath] cuts a name into stem and suffix: at its last dot,
    when that is neither the first nor the last character. *)
Definition suffix_at (name : string) : option nat :=
  match rfind_dot (chars name) O None with
  | Some i =>
      if (0 <? Z.of_nat i) && (Z.of_nat i <? Z.of_nat (String.length name) - 1)
      then Some i else None
  | None => None
  end.

(** [path.suffix] *)
Definition py_suffix (name : string) : string :=
  match suffix_at name with
  | Some i => String.substring i (String.length name - i) name
  | None => EmptyString
  end.

(** [path.stem] *)
Definition py_stem (name : string) : string :=
  match suffix_at name with
  | Some i => String.substring 0 i name
  | None => name
  end.

(** ** The output directory of one document *)

(** What is at the path of a text artifact that exists: a file that
    cannot be read, or its text. *)
Inductive txt_file : Type :=
| Unreadable
| Text (content : string).

(** The two subdirectories once [process_pdf] has created them: the
    names in [png_images], and the files in [text_files] by name. *)
Record store := Store {
  png_images : gset string;
  text_files : gmap string txt_file
}.

(** The output directory as found on disk: either subdirectory may be
    missing. *)
Record out_dir := OutDir {
  png_dir : option (gset string);
  txt_dir : option (gmap string txt_file)
}.

(** [mkdir(parents=True, exist_ok=True)] on both subdirectories. *)
Definition mkdirs (o : out_dir) : store :=
  Store (default ∅ (png_dir o)) (default ∅ (txt_dir o)).

Definition on_disk (st : store) : out_dir :=
  OutDir (Some (png_images st)) (Some (text_files st)).

Definition png_name (page_index : Z) : string := fmt04d page_index +:+ ".png".
Definition txt_name (page_index : Z) : string := fmt04d page_index +:+ ".txt".

Definition png_exists (st : store) (name : string) : bool :=
  bool_decide (name ∈ png_images st).
Definition txt_exists (st : store) (name : string) : bool :=
  bool_decide (is_Some (text_files st !! name)).

Definition save_png (name : string) (st : store) : store :=
  Store ({[ name ]} ∪ png_images st) (text_files st).
Definition write_txt (name content : string) (st : store) : store :=
  Store (png_images st) (<[ name := Text content ]> (text_files st)).

(** ** The page worker *)

(** What the engines do for one page: [render] stands for opening the
    document, loading the page, rasterizing it and saving the image;
    [ocr] for the recognition of the saved image. *)
Record page_env := PageEnv {
  render : result unit;
  ocr : result string
}.

(** What [future.result()] gives: the worker's triple
    [(success, page_index, error_msg)], or an exception. *)
Inductive future_result : Type :=
| Returned (success : bool) (page_index : Z) (error_msg : option string)
| Raised (e : py_exception).

Definition failure_marker : string := "OCR FAILED FOR THIS PAGE: ".

(** The [except] branch of the worker. *)
Definition page_failed (page_index : Z) (e : py_exception) (st : store)
  : store * future_result :=
  let error_msg := "OCR failed: " +:+ exc_repr e in
  (write_txt (txt_name page_index) (failure_marker +:+ error_msg) st,
   Returned false page_index (Some error_msg)).

Definition process_page_task (env : page_env) (page_num : Z) (st : store)
  : store * future_result :=
  let page_index := page_num + 1 in
  if png_exists st (png_name page_index) && txt_exists st (txt_name page_index)
  then (st, Returned true page_index None)
  else
    match render env with
    | Raise e => page_failed page_index e st
    | Ok _ =>
        let st1 := save_png (png_name page_index) st in
        match ocr env with
        | Raise e => page_failed page_index e st1
        | Ok text =>
            (write_txt (txt_name page_index) (py_strip text) st1,
             Returned true page_index None)
        end
    end.

(** ** The resume query *)

(** The body of the loop over [png_dir.iterdir()]. *)
Definition scan_png (txt : gmap string txt_file) (f : string)
    (processed_pages : result (gset Z)) : result (gset Z) :=
  match processed_pages with
  | Raise e => Raise e
  | Ok pages =>
      if String.eqb (py_suffix f) ".png" && py_isdigit (py_stem f) then
        let page_num_str := py_stem f in
        if bool_decide (is_Some (txt !! (page_num_str +:+ ".txt"))) then
          match py_int page_num_str with
          | Ok n => Ok ({[ n ]} ∪ pages)
          | Raise e => Raise e
          end
        else Ok pages
      else Ok pages
  end.

(** [max(processed_pages)] of a non-empty set of page numbers. *)
Definition max_page (pages : list Z) : Z :=
  match pages with
  | [] => 0
  | p :: ps => fold_left Z.max ps p
  end.

Definition get_last_processed_page (o : out_dir) : result Z :=
  match png_dir o, txt_dir o with
  | Some png, Some txt =>
      match fold_left (λ acc f, scan_png txt f acc) (elements png) (Ok ∅) with
      | Raise e => Raise e
      | Ok processed_pages =>
          if bool_decide (processed_pages = ∅) then Ok 0
          else Ok (max_page (elements processed_pages))
      end
  | _, _ => Ok 0
  end.

(** ** The tally of the scheduler *)

Record run_tally := Tally {
  success_count : Z;
  failure_count : Z;
  failure_messages : list string
}.

Definition empty_tally : run_tally := Tally 0 0 [].

(** [f"{error_msg}"] *)
Definition fmt_msg (error_msg : option string) : string :=
  default "None" error_msg.

(** The body of the loop over [as_completed(futures)]. *)
Definition tally_result (t : run_tally) (r : future_result) : run_tally :=
  match r with
  | Returned success page_index error_msg =>
      if success then
        match error_msg with
        | None => Tally (success_count t + 1) (failure_count t) (failure_messages t)
        | Some _ => t
        end
      else
        Tally (success_count t) (failure_count t + 1)
              (failure_messages t
                 ++ ["Page " +:+ fmt04d page_index +:+ ": " +:+ fmt_msg error_msg])
  | Raised _ => Tally (success_count t) (failure_count t + 1) (failure_messages t)
  end.

Definition tally_all (results : list future_result) : run_tally :=
  fold_left tally_result results empty_tally.

(** ** The worker pool

    The pool runs one task per page number; [as_completed] hands their
    results over in the order the tasks complete.  A task reads and
    writes the two files of its own page only, so a run of the pool is
    modelled as the tasks run one after the other in completion order. *)

Definition run_task (pages : Z → page_env) (acc : store * list future_result)
    (page_num : Z) : store * list future_result :=
  let (st', r) := process_page_task (pages page_num) page_num (fst acc) in
  (st', snd acc ++ [r]).

Definition run_pool (pages : Z → page_env) (completion : list Z) (st : store)
  : store * list future_result :=
  fold_left (run_task pages) completion (st, []).

(** [range(a, b)] *)
Definition py_range (a b : Z) : list Z := seqZ a (b - a).

(** ** Dictionaries

    A [dict] keeps its keys in insertion order. *)

Section dict.
Context {K V : Type} `{EqDecision K}.

Fixpoint dict_get (d : list (K * V)) (k : K) : option V :=
  match d with
  | [] => None
  | (k', v) :: d' => if decide (k' = k) then Some v else dict_get d' k
  end.

(** [d[k] = f(d[k])], where a missing key stands for [dflt]. *)
Fixpoint dict_update (dflt : V) (f : V → V) (k : K) (d : list (K * V))
  : list (K * V) :=
  match d with
  | [] => [(k, f dflt)]
  | (k', v) :: d' =>
      if decide (k' = k) then (k', f v) :: d'
      else (k', v) :: dict_update dflt f k d'
  end.

(** [d[k] = v] *)
Definition dict_set (k : K) (v : V) (d : list (K * V)) : list (K * V) :=
  dict_update v (λ _, v) k d.

End dict.

(** A [WordStat] or [EntityStat] entry: [{'count': int, 'pages': set}]. *)
Record occurrence := Occ { count : Z; pages : gset Z }.

Definition record_occurrence (page_index : Z) (d : list (string * occurrence))
    (w : string) : list (string * occurrence) :=
  dict_update (Occ 0 ∅) (λ o, Occ (count o + 1) ({[ page_index ]} ∪ pages o)) w d.

(** [sorted(d.items(), key=lambda x: x[1]['count'], reverse=True)]: a
    stable sort, so entries of equal count keep their order. *)
Fixpoint insert_by_count (x : string * occurrence)
    (l : list (string * occurrence)) : list (string * occurrence) :=
  match l with
  | [] => [x]
  | y :: l' =>
      if count (snd y) <? count (snd x) then x :: y :: l'
      else y :: insert_by_count x l'
  end.

Definition sorted_by_count (d : list (string * occurrence))
  : list (string * occurrence) :=
  fold_left (λ acc x, insert_by_count x acc) d [].

(** [sorted(s)] for a set or a list of integers. *)
Definition sorted_ints (l : list Z) : list Z := merge_sort Z.le l.

Fixpoint join (sep : string) (l : list string) : string :=
  match l with
  | [] => EmptyString
  | [s] => s
  | s :: l' => s +:+ sep +:+ join sep l'
  end.

(** [', '.join(map(str, sorted(data['pages'])))] *)
Definition pages_str (o : occurrence) : string :=
  join ", " (map py_str_int (sorted_ints (elements (pages o)))).

Definition occurrence_row (x : string * occurrence) : list string :=
  [fst x; py_str_int (count (snd x)); pages_str (snd x)].

Definition nl : string := String "010"%char EmptyString.

(** ** The aggregation passes *)

(** What reading a file in text mode makes of its line ends: the
    passes open the artifacts with [open(filepath, 'r')], which reads
    a carriage return, with the line feed that follows it if one does,
    as one line feed. *)
Fixpoint universal_newlines (s : string) : string :=
  match s with
  | EmptyString => EmptyString
  | String c s' =>
      if Ascii.eqb c "013" then
        String "010"
          match s' with
          | String c' s'' =>
              if Ascii.eqb c' "010" then universal_newlines s''
              else universal_newlines s'
          | EmptyString => EmptyString
          end
      else String c (universal_newlines s')
  end.

(** The three passes open the text artifact of a page the same way:
    the path may not exist, the read may raise, or it gives the text of
    the file with its line ends read as line feeds. *)
Definition read_page (st : store) (page_index : Z) : option txt_file :=
  match text_files st !! txt_name page_index with
  | Some (Text content) => Some (Text (universal_newlines content))
  | Some Unreadable => Some Unreadable
  | None => None
  end.

(** *** Combine *)

Definition page_header (page_index : Z) : string :=
  "--- Page " +:+ py_str_int page_index +:+ " ---" +:+ nl.

(** The body of the loop of [combine_text_files], on the pair
    [(combined_content, skipped_pages)]. *)
Definition combine_page (st : store) (acc : list string * list Z)
    (page_index : Z) : list string * list Z :=
  match read_page st page_index with
  | None => (fst acc, snd acc ++ [page_index])
  | Some Unreadable => (fst acc, snd acc ++ [page_index])
  | Some (Text content) =>
      if py_in "OCR FAILED" content then (fst acc, snd acc ++ [page_index])
      else (fst acc ++ [page_header page_index; content; nl +:+ nl], snd acc)
  end.

Definition combine_loop (st : store) (start_page end_page : Z)
  : list string * list Z :=
  fold_left (combine_page st) (py_range start_page (end_page + 1)) ([], []).

(** [f.writelines(combined_content)] *)
Definition writelines (l : list string) : string := join EmptyString l.

(** What [combine_text_files] writes to [combined_output.txt], if it
    writes it. *)
Definition combine_text_files (st : store) (start_page end_page : Z)
  : option string :=
  match fst (combine_loop st start_page end_page) with
  | [] => None
  | combined_content => Some (writelines combined_content)
  end.

(** *** Word statistics *)

Definition is_word (c : option ascii) : bool :=
  match c with
  | Some c => word_char c
  | None => false
  end.

(** [\b] at a position, given the characters before and after it
    ([None] at either end of the text). *)
Definition word_boundary (before after : option ascii) : bool :=
  xorb (is_word before) (is_word after).

Fixpoint class_run (s : list ascii) : nat :=
  match s with
  | c :: s' => if alnum_class c then S (class_run s') else O
  | [] => O
  end.

(** [[a-zA-Z0-9]+\b] on [s]: the longest of the first [k] lengths
    that ends at a word boundary. *)
Fixpoint longest_match (s : list ascii) (k : nat) : option (list ascii) :=
  match k with
  | O => None
  | S k' =>
      if word_boundary (s !! k') (s !! k) then Some (take k s)
      else longest_match s k'
  end.

(** A match of the whole pattern that starts at the head of [s],
    [prev] being the character before it. *)
Definition match_here (prev : option ascii) (s : list ascii)
  : option (list ascii) :=
  if word_boundary prev (head s) then longest_match s (class_run s) else None.

(** The scan of [re.findall]: a match is looked for at each position
    in turn, and after a match the scan resumes where the match ended
    ([skip] counts the characters of a match still to pass over). *)
Fixpoint findall_from (prev : option ascii) (skip : nat) (s : list ascii)
  : list (list ascii) :=
  match s with
  | [] => []
  | c :: s' =>
      match skip with
      | S k => findall_from (Some c) k s'
      | O =>
          match match_here prev s with
          | Some tok => tok :: findall_from (Some c) (length tok - 1)%nat s'
          | None => findall_from (Some c) O s'
          end
      end
  end.

(** [re.findall(r'\b[a-zA-Z0-9]+\b', text)] *)
Definition findall_words (text : string) : list string :=
  map str (findall_from None O (chars text)).

(** The words of a page: the tokens of the lower-cased text that are
    longer than two characters. *)
Definition page_words (content : string) : list string :=
  List.filter (λ w, 2 <? Z.of_nat (String.length w))
              (findall_words (py_lower content)).

Record word_stats := WordStats {
  total_words : Z;
  page_word_counts : list (Z * Z);
  word_occurrences : list (string * occurrence)
}.

(** The body of the loop of [generate_word_count_csv]. *)
Definition count_page (st : store) (acc : word_stats) (page_index : Z)
  : word_stats :=
  match read_page st page_index with
  | None => acc
  | Some Unreadable => acc
  | Some (Text content) =>
      if py_in "OCR FAILED" content then acc
      else
        let words := page_words content in
        let page_word_count := Z.of_nat (length words) in
        WordStats (total_words acc + page_word_count)
                  (dict_set page_index page_word_count (page_word_counts acc))
                  (fold_left (record_occurrence page_index) words
                             (word_occurrences acc))
  end.

Definition count_loop (st : store) (start_page end_page : Z) : word_stats :=
  fold_left (count_page st) (py_range start_page (end_page + 1))
            (WordStats 0 [] []).

(** The rows handed to [writer.writerow], in order. *)
Definition word_report (s : word_stats) : list (list string) :=
  [ ["=== DOCUMENT SUMMARY ==="];
    ["Type"; "Value"];
    ["Total Words"; py_str_int (total_words s)];
    ["Total Pages Analyzed"; py_str_int (Z.of_nat (length (page_word_counts s)))];
    ["Unique Words"; py_str_int (Z.of_nat (length (word_occurrences s)))];
    [];
    ["=== PER-PAGE WORD COUNTS ==="];
    ["Page Number"; "Word Count"] ]
  ++ map (λ page_num,
            [py_str_int page_num;
             py_str_int (default 0 (dict_get (page_word_counts s) page_num))])
         (sorted_ints (map fst (page_word_counts s)))
  ++ [ [];
       ["=== WORD OCCURRENCE DETAILS ==="];
       ["Word"; "Total Occurrences"; "Pages"] ]
  ++ map occurrence_row (sorted_by_count (word_occurrences s)).

(** The rows of [word_count_report.csv], if it is written. *)
Definition generate_word_count_csv (st : store) (start_page end_page : Z)
  : option (list (list string)) :=
  let s := count_loop st start_page end_page in
  if total_words s =? 0 then None else Some (word_report s).

(** *** Entity statistics *)

(** An entity span of the recognizer: [ent.text] and [ent.label_]. *)
Record entity := Entity { ent_text : string; ent_label : string }.

(** The loaded spaCy model: [nlp.max_length] and the entities [nlp]
    finds in a text. *)
Record nlp_model := Nlp {
  max_length : positive;
  ents : string → list entity
}.

(** [[content[i:i+n] for i in range(0, len(content), n)]]; the text
    has at most [fuel] characters. *)
Fixpoint chunks_of (fuel : nat) (n : nat) (l : list ascii) : list (list ascii) :=
  match fuel, l with
  | S fuel', _ :: _ => take n l :: chunks_of fuel' n (drop n l)
  | _, _ => []
  end.

Definition chunks (n : positive) (content : string) : list string :=
  map str (chunks_of (String.length content) (Pos.to_nat n) (chars content)).

(** The loop over [doc.ents]. *)
Definition record_persons (page_index : Z) (d : list (string * occurrence))
    (es : list entity) : list (string * occurrence) :=
  fold_left
    (λ d ent,
       if String.eqb (ent_label ent) "PERSON" then
         let name := py_strip (ent_text ent) in
         if String.eqb name EmptyString then d
         else record_occurrence page_index d name
       else d)
    es d.

(** The body of the loop of [generate_proper_names_csv]. *)
Definition names_page (nlp : nlp_model) (st : store)
    (person_names : list (string * occurrence)) (page_index : Z)
  : list (string * occurrence) :=
  match read_page st page_index with
  | None => person_names
  | Some Unreadable => person_names
  | Some (Text content) =>
      if py_in "OCR FAILED" content then person_names
      else if Z.pos (max_length nlp) <? Z.of_nat (String.length content) then
        fold_left (λ d chunk, record_persons page_index d (ents nlp chunk))
                  (chunks (max_length nlp) content) person_names
      else record_persons page_index person_names (ents nlp content)
  end.

Definition names_loop (nlp : nlp_model) (st : store) (start_page end_page : Z)
  : list (string * occurrence) :=
  fold_left (names_page nlp st) (py_range start_page (end_page + 1)) [].

Definition names_report (person_names : list (string * occurrence))
  : list (list string) :=
  [ ["=== PROPER NAMES REPORT (AI-Detected) ==="];
    ["Name"; "Total Occurrences"; "Pages"] ]
  ++ map occurrence_row (sorted_by_count person_names).

(** How the entity pass ends. *)
Inductive names_outcome : Type :=
| NamesSkipped                          (* spaCy or its model is missing *)
| NoNames                               (* no person name detected *)
| NamesWritten (rows : list (list string)).

(** [spacy] is [None] when spaCy is not installed or its model cannot
    be loaded. *)
Definition generate_proper_names_csv (spacy : option nlp_model) (st : store)
    (start_page end_page : Z) : names_outcome :=
  match spacy with
  | None => NamesSkipped
  | Some nlp =>
      match names_loop nlp st start_page end_page with
      | [] => NoNames
      | person_names => NamesWritten (names_report person_names)
      end
  end.

(** ** The scheduler *)

(** [as_completed(futures)]: the futures in the order their tasks
    complete.  Each choice names the pending future that completes
    next (the last one, if fewer are pending); when the choices run out
    the pending futures complete in the order they were submitted. *)
Fixpoint as_completed (choices : list nat) (pending : list Z) : list Z :=
  match choices with
  | [] => pending
  | c :: choices' =>
      let i := Nat.min c (length pending - 1) in
      match pending !! i with
      | Some p => p :: as_completed choices' (delete i pending)
      | None => []
      end
  end.

(** What a run of the pipeline meets: an error that escapes the main
    [try] block (here: the pool cannot be started), the engines' outcome
    for each page number, the choices that order the completion of the
    tasks, and the entity recognizer. *)
Record run_env := RunEnv {
  pool_error : option py_exception;
  page_envs : Z → page_env;
  completion : list nat;
  spacy : option nlp_model
}.

(** What the aggregation passes of a run wrote. *)
Record reports := Reports {
  combined_output : option string;
  word_count_report : option (list (list string));
  proper_names_report : names_outcome
}.

Record run_summary := RunSummary {
  tally : run_tally;
  aggregated : option reports
}.

(** [process_pdf]: the output directory after the run, and the summary
    of the run or the exception it raises again. *)
Definition process_pdf (env : run_env) (start_page end_page : Z) (o : out_dir)
  : store * result run_summary :=
  let st := mkdirs o in
  match pool_error env with
  | Some e => (st, Raise e)
  | None =>
      let pages_to_process_indices := py_range (start_page - 1) end_page in
      let (st', results) :=
        run_pool (page_envs env)
                 (as_completed (completion env) pages_to_process_indices) st in
      let t := tally_all results in
      (st',
       Ok (RunSummary t
             (if 0 <? success_count t then
                Some (Reports
                        (combine_text_files st' start_page end_page)
                        (generate_word_count_csv st' start_page end_page)
                        (generate_proper_names_csv (spacy env) st'
                                                   start_page end_page))
              else None)))
  end.

(** ** The batch coordinator *)

(** A file of the source directory: its name, what opening it as a
    document gives ([len(doc)] or an exception), what a run of the
    pipeline on it meets, and the clock reading if its failure is logged. *)
Record document := Doc {
  doc_name : string;
  open_doc : result Z;
  run : run_env;
  logged_at : string
}.

(** The output directories under the base output directory, by name,
    and the text of [error_log.txt] in the source directory. *)
Record batch_state := BatchState {
  outputs : gmap string out_dir;
  error_log : string
}.

Definition output_dir_name (name : string) : string :=
  replace_spaces (py_stem name) +:+ "_processed".

(** [output_dir.mkdir(parents=True, exist_ok=True)] *)
Definition mkdir_output (dir : string) (outs : gmap string out_dir)
  : gmap string out_dir :=
  match outs !! dir with
  | Some _ => outs
  | None => <[ dir := OutDir None None ]> outs
  end.

Definition read_output (dir : string) (outs : gmap string out_dir) : out_dir :=
  default (OutDir None None) (outs !! dir).

Definition process_single_pdf (d : document) (outs : gmap string out_dir)
  : gmap string out_dir * (bool * option string) :=
  let dir := output_dir_name (doc_name d) in
  let outs1 := mkdir_output dir outs in
  match open_doc d with
  | Raise e => (outs1, (false, Some (exc_repr e)))
  | Ok total_pages =>
      if total_pages =? 0 then (outs1, (false, Some "PDF contains 0 pages"))
      else
        let (st, r) := process_pdf (run d) 1 total_pages (read_output dir outs1) in
        let outs2 := <[ dir := on_disk st ]> outs1 in
        match r with
        | Ok _ => (outs2, (true, None))
        | Raise e => (outs2, (false, Some (exc_repr e)))
        end
  end.

Fixpoint repeat_char (c : ascii) (n : nat) : string :=
  match n with
  | O => EmptyString
  | S n' => String c (repeat_char c n')
  end.

(** The block [log_error_to_file] appends to [error_log.txt]. *)
Definition log_block (timestamp name : string) (error_message : option string)
  : string :=
  nl +:+ repeat_char "=" 70 +:+ nl
  +:+ "[" +:+ timestamp +:+ "] ERROR processing: " +:+ name +:+ nl
  +:+ repeat_char "-" 70 +:+ nl
  +:+ fmt_msg error_message +:+ nl
  +:+ repeat_char "=" 70 +:+ nl +:+ nl.

Definition log_error_to_file (d : document) (error_message : option string)
    (log : string) : string :=
  log +:+ log_block (logged_at d) (doc_name d) error_message.

(** [results = {'successful': [...], 'failed': [...]}] *)
Record batch_results := BatchResults {
  successful : list string;
  failed : list (string * option string)
}.

(** The body of the loop over [pdf_files]. *)
Definition process_document (acc : batch_state * batch_results) (d : document)
  : batch_state * batch_results :=
  let (s, results) := acc in
  let (outs, r) := process_single_pdf d (outputs s) in
  let (success, error_msg) := r in
  if success then
    (BatchState outs (error_log s),
     BatchResults (successful results ++ [doc_name d]) (failed results))
  else
    (BatchState outs (log_error_to_file d error_msg (error_log s)),
     BatchResults (successful results) (failed results ++ [(doc_name d, error_msg)])).

Fixpoint insert_by_name (d : document) (l : list document) : list document :=
  match l with
  | [] => [d]
  | d' :: l' =>
      if String.leb (doc_name d') (doc_name d) then d' :: insert_by_name d l'
      else d :: d' :: l'
  end.

(** [sorted(paths)] for files of one directory. *)
Definition sorted_by_name (l : list document) : list document :=
  fold_left (λ acc d, insert_by_name d acc) l [].

(** [directory_path.glob(pattern)] for the patterns ["*.pdf"] and
    ["*.PDF"]. *)
Definition glob (ext : string) (files : list document) : list document :=
  List.filter (λ d, endswith (doc_name d) ext) files.

Definition pdf_files (files : list document) : list document :=
  sorted_by_name (glob ".pdf" files ++ glob ".PDF" files).

(** [process_directory]: the state it leaves, and the results it
    reports unless the directory holds no PDF. *)
Definition process_directory (files : list document) (s : batch_state)
  : batch_state * option batch_results :=
  match pdf_files files with
  | [] => (s, None)
  | docs =>
      let (s', results) :=
        fold_left process_document docs (s, BatchResults [] []) in
      (s', Some results)
  end.

(** ** The command line *)

(** What is at the input path. *)
Inductive input_path : Type :=
| NoSuchPath
| Directory (files : list document)
| RegularFile (d : document)
| OtherPath.

Fixpoint split_dash (cur : list ascii) (l : list ascii) : list string :=
  match l with
  | [] => [str (rev cur)]
  | c :: l' =>
      if Ascii.eqb c "-" then str (rev cur) :: split_dash [] l'
      else split_dash (c :: cur) l'
  end.

(** The range an input line asks for; [None] when the loop goes round
    again (a [ValueError], or a range outside the document). *)
Definition parse_range (total_pages : Z) (range_input : string)
  : option (Z * Z) :=
  match split_dash [] (chars range_input) with
  | [start_str; end_str] =>
      match py_int start_str with
      | Raise _ => None
      | Ok start_page_input =>
          match py_int end_str with
          | Raise _ => None
          | Ok end_page_input =>
              if (1 <=? start_page_input)
                 && (start_page_input <=? end_page_input)
                 && (end_page_input <=? total_pages)
              then Some (start_page_input, end_page_input)
              else None
          end
      end
  | _ => None
  end.

(** How the interactive menu ends. *)
Inductive selection : Type :=
| Exit (status : Z)
| Selected (start_page end_page : Z).

(** The menu loop over the lines typed at the prompt; at the end of the
    input [input()] raises [EOFError]. *)
Fixpoint select_pages (total_pages last_page : Z) (stdin : list string)
  : selection :=
  match stdin with
  | [] => Exit 1
  | line :: rest =>
      let mode := py_lower (py_strip line) in
      if String.eqb mode "q" then Exit 0
      else if String.eqb mode "r" then
        if 0 <? last_page then
          if total_pages <? last_page + 1 then Exit 0
          else Selected (last_page + 1) total_pages
        else select_pages total_pages last_page rest
      else if String.eqb mode "a" then Selected 1 total_pages
      else if String.eqb mode "n" then
        match rest with
        | [] => Exit 1
        | line' :: rest' =>
            match parse_range total_pages (py_strip line') with
            | Some (s, e) => Selected s e
            | None => select_pages total_pages last_page rest'
            end
        end
      else if py_in "-" mode then
        match parse_range total_pages mode with
        | Some (s, e) => Selected s e
        | None => select_pages total_pages last_page rest
        end
      else select_pages total_pages last_page rest
  end.

Record cli_env := CliEnv {
  path : input_path;
  stdin : list string;
  disk : batch_state
}.

(** The exit status of the process: the argument of [sys.exit], 1 for
    an exception nobody catches, 0 at the end of the script. *)
Definition setup_and_run (w : cli_env) : Z * batch_state :=
  match path w with
  | NoSuchPath => (1, disk w)
  | Directory files => (0, fst (process_directory files (disk w)))
  | RegularFile d =>
      if negb (String.eqb (py_lower (py_suffix (doc_name d))) ".pdf")
      then (1, disk w)
      else
        let dir := output_dir_name (doc_name d) in
        let outs := mkdir_output dir (outputs (disk w)) in
        let s := BatchState outs (error_log (disk w)) in
        match open_doc d with
        | Raise _ => (1, s)
        | Ok total_pages =>
            match get_last_processed_page (read_output dir outs) with
            | Raise _ => (1, s)
            | Ok last_page =>
                match select_pages total_pages last_page (stdin w) with
                | Exit status => (status, s)
                | Selected start_page end_page =>
                    let (st, r) :=
                      process_pdf (run d) start_page end_page
                                  (read_output dir outs) in
                    (match r with Ok _ => 0 | Raise _ => 1 end,
                     BatchState (<[ dir := on_disk st ]> outs)
                                (error_log (disk w)))
                end
            end
        end
  | OtherPath => (1, disk w)
  end.

(** ** Notions used in the statements *)

(** Reading a page name back. *)
Definition unfmt (s : string) : option Z :=
  match NilEmpty.uint_of_string s with
  | Some d => Some (Z.of_N (N.of_uint d))
  | None =>
      match s with
      | String "-" r =>
          match NilEmpty.uint_of_string r with
          | Some d => Some (- Z.of_N (N.of_uint d))
          | None => None
          end
      | _ => None
      end
  end.

(** The completion test of the worker: both artifacts of the page exist. *)
Definition already_done (st : store) (page_index : Z) : bool :=
  png_exists st (png_name page_index) && txt_exists st (txt_name page_index).

(** What a task that is not skipped does, whatever the directory holds:
    the image it saves, the text it writes and the result it returns. *)
Definition fresh_outcome (env : page_env) (page_index : Z)
  : gset string * string * future_result :=
  match render env with
  | Raise e =>
      (∅, failure_marker +:+ "OCR failed: " +:+ exc_repr e,
       Returned false page_index (Some ("OCR failed: " +:+ exc_repr e)))
  | Ok _ =>
      match ocr env with
      | Raise e =>
          ({[ png_name page_index ]},
           failure_marker +:+ "OCR failed: " +:+ exc_repr e,
           Returned false page_index (Some ("OCR failed: " +:+ exc_repr e)))
      | Ok text =>
          ({[ png_name page_index ]}, py_strip text,
           Returned true page_index None)
      end
  end.

Definition apply_outcome (page_index : Z)
    (out : gset string * string * future_result) (st : store) : store :=
  Store (out.1.1 ∪ png_images st)
        (<[ txt_name page_index := Text out.1.2 ]> (text_files st)).


(** The directory and the result of the task of one page number, run on
    a given directory. *)
Definition task_store (pages : Z → page_env) (st : store) (page_num : Z) : store :=
  (process_page_task (pages page_num) page_num st).1.
Definition task_result (pages : Z → page_env) (st : store) (page_num : Z)
  : future_result :=
  (process_page_task (pages page_num) page_num st).2.

(** The page is skipped: both its artifacts exist when its task starts. *)
Definition is_skipped (st : store) (page_num : Z) : bool :=
  already_done st (page_num + 1).

(** The page is newly processed: it is not skipped, and rendering and
    recognition succeed. *)
Definition is_newly_processed (pages : Z → page_env) (st : store)
    (page_num : Z) : bool :=
  negb (already_done st (page_num + 1))
  && match render (pages page_num), ocr (pages page_num) with
     | Ok _, Ok _ => true
     | _, _ => false
     end.

(** The page fails: it is not skipped, and rendering or recognition raises. *)
Definition is_failed (pages : Z → page_env) (st : store) (page_num : Z) : bool :=
  negb (already_done st (page_num + 1))
  && match render (pages page_num), ocr (pages page_num) with
     | Ok _, Ok _ => false
     | _, _ => true
     end.

(** The results the loop of the scheduler adds to each counter. *)
Definition counts_success (r : future_result) : bool :=
  match r with
  | Returned true _ None => true
  | _ => false
  end.
Definition counts_failure (r : future_result) : bool :=
  match r with
  | Returned false _ _ | Raised _ => true
  | _ => false
  end.

(** The number of elements of a list that pass a test. *)
Definition count_if {A : Type} (f : A → bool) (l : list A) : Z :=
  Z.of_nat (length (List.filter f l)).

(** The tally a run of [process_pdf] reports, when it returns. *)
Definition tally_of (r : store * result run_summary) : option run_tally :=
  match r.2 with
  | Ok summary => Some (tally summary)
  | Raise _ => None
  end.

(** The page numbers a run submits to the pool. *)
Definition submitted (start_page end_page : Z) : list Z :=
  py_range (start_page - 1) end_page.

(** *** Sample inputs *)

(** A directory in which page 1 is complete. *)
Definition page1_done : out_dir :=
  OutDir (Some {[ "0001.png" ]}) (Some {[ "0001.txt" := Text "First page" ]}).

(** Engines that succeed on every page; the task submitted last
    completes first. *)
Definition good_engines : Z → page_env :=
  λ _, PageEnv (Ok tt) (Ok "Some text ").
Definition good_run : run_env :=
  RunEnv None good_engines [9; 9; 9; 9]%nat None.

(** A recognizer that fails on every page. *)
Definition bad_ocr : Z → page_env :=
  λ _, PageEnv (Ok tt) (Raise (PyExc "TesseractError" "no text layer")).

(** Page 1 complete, page 2 not started. *)
Definition page2_pending : store := mkdirs page1_done.

(** The directory after the task of page 2 ran with a recognizer that
    fails: the image of page 2 is saved, its text is the failure marker. *)
Definition page2_failed : store :=
  (process_page_task (bad_ocr 1) 1 page2_pending).1.

(** The page number an entry of [png_images] adds to the pages the
    resume query collects, if it adds one. *)
Definition png_page (txt : gmap string txt_file) (f : string) : result (option Z) :=
  if String.eqb (py_suffix f) ".png" && py_isdigit (py_stem f) then
    if bool_decide (is_Some (txt !! (py_stem f +:+ ".txt"))) then
      match py_int (py_stem f) with
      | Ok n => Ok (Some n)
      | Raise e => Raise e
      end
    else Ok None
  else Ok None.

(** The text an aggregation pass takes from a page, if it takes the page. *)
Definition page_text (st : store) (page_index : Z) : option string :=
  match read_page st page_index with
  | Some (Text content) =>
      if py_in "OCR FAILED" content then None else Some content
  | _ => None
  end.

Definition is_excluded (st : store) (page_index : Z) : bool :=
  match page_text st page_index with
  | Some _ => false
  | None => true
  end.

(** A page is excluded: its text artifact is missing, cannot be read,
    or holds ["OCR FAILED"] somewhere. *)
Definition excluded (st : store) (page_index : Z) : Prop :=
  read_page st page_index = None
  ∨ read_page st page_index = Some Unreadable
  ∨ ∃ content, read_page st page_index = Some (Text content)
               ∧ py_in "OCR FAILED" content = true.

(** The pages of a range the passes take, in the order of the range. *)
Definition included_pages (st : store) (start_page end_page : Z) : list Z :=
  List.filter (λ p, negb (is_excluded st p)) (py_range start_page (end_page + 1)).

(** What the combine pass adds for a page. *)
Definition page_block (st : store) (page_index : Z) : list string :=
  match page_text st page_index with
  | Some content => [page_header page_index; content; nl +:+ nl]
  | None => []
  end.

(** What the word pass does with the text of a page. *)
Definition count_text (page_index : Z) (content : string) (acc : word_stats)
  : word_stats :=
  WordStats (total_words acc + Z.of_nat (length (page_words content)))
            (dict_set page_index (Z.of_nat (length (page_words content)))
                      (page_word_counts acc))
            (fold_left (record_occurrence page_index) (page_words content)
                       (word_occurrences acc)).

(** What the entity pass does with the text of a page. *)
Definition names_text (nlp : nlp_model) (page_index : Z) (content : string)
    (person_names : list (string * occurrence)) : list (string * occurrence) :=
  if Z.pos (max_length nlp) <? Z.of_nat (String.length content) then
    fold_left (λ d chunk, record_persons page_index d (ents nlp chunk))
              (chunks (max_length nlp) content) person_names
  else record_persons page_index person_names (ents nlp content).

(** The section of the combined artifact for one page, in the words of
    the specification: a delimiter line that names the page, the text
    read from the artifact of the page, an empty line. *)
Definition page_section (page_index : Z) (content : string) : string :=
  "--- Page " +:+ py_str_int page_index +:+ " ---"
  +:+ String "010" EmptyString
  +:+ content
  +:+ String "010" (String "010" EmptyString).

(** The text read from the artifact of a page, if it can be read. *)
Definition kept_text (st : store) (page_index : Z) : string :=
  match text_files st !! txt_name page_index with
  | Some (Text stored) => universal_newlines stored
  | _ => EmptyString
  end.

(** The combined artifact for a list of pages: the sections of the
    pages, one after the other. *)
Definition combined_sections (st : store) (pages : list Z) : string :=
  fold_right (λ p rest, page_section p (kept_text st p) +:+ rest)
             EmptyString pages.

(** Two run environments that differ in the order of completion only. *)
Definition same_engines (env env' : run_env) : Prop :=
  pool_error env = pool_error env'
  ∧ page_envs env = page_envs env'
  ∧ spacy env = spacy env'.

(** What the aggregation passes of a run wrote, when they ran. *)
Definition reports_of (r : store * result run_summary) : option reports :=
  match r.2 with
  | Ok summary => aggregated summary
  | Raise _ => None
  end.

(** The same engines as [good_run], tasks completing in page order. *)
Definition good_run_in_order : run_env :=
  RunEnv None good_engines [] None.

(** The reading of the claim on exclusion: a failure marker is told by
    the text beginning with the marker string. *)
Definition excluded_by_prefix (st : store) (page_index : Z) : Prop :=
  read_page st page_index = None
  ∨ read_page st page_index = Some Unreadable
  ∨ ∃ content, read_page st page_index = Some (Text content)
               ∧ String.prefix failure_marker content = true.

(** A page whose recognized text quotes the words of the marker. *)
Definition quoting_page : page_env :=
  PageEnv (Ok tt) (Ok "Scanner log: OCR FAILED twice, then passed.").
Definition quoting_store : store :=
  (process_page_task quoting_page 0 (Store ∅ ∅)).1.

(** A recognizer that finds one person on every page. *)
Definition sample_nlp : nlp_model :=
  Nlp 1000000 (λ _, [Entity " Ada Lovelace" "PERSON"; Entity "London" "GPE"]).










(** The error a document ends with in a batch, if it fails: it cannot
    be opened, it has no page, or its run raises. *)
Definition doc_error (d : document) : option string :=
  match open_doc d with
  | Raise e => Some (exc_repr e)
  | Ok total_pages =>
      if total_pages =? 0 then Some "PDF contains 0 pages"
      else match pool_error (run d) with
           | Some e => Some (exc_repr e)
           | None => None
           end
  end.

Definition doc_ok (d : document) : bool :=
  match doc_error d with
  | None => true
  | Some _ => false
  end.

(** The blocks written to the log, one after the other. *)
Definition concat_str (l : list string) : string :=
  fold_right String.append EmptyString l.

Definition doc_block (d : document) : string :=
  log_block (logged_at d) (doc_name d) (doc_error d).

(** The name is that of a PDF for the batch: one of the two patterns
    of [process_directory] matches it. *)
Definition is_pdf_name (d : document) : bool :=
  endswith (doc_name d) ".pdf" || endswith (doc_name d) ".PDF".

(** The output directory [dir] holds the text artifact [name]. *)
Definition has_text (outs : gmap string out_dir) (dir name : string) : Prop :=
  ∃ o m, outs !! dir = Some o ∧ txt_dir o = Some m ∧ is_Some (m !! name).

(** *** A sample batch *)

Definition report_pdf : document :=
  Doc "a report.pdf" (Ok 2) good_run "2024-01-01 10:00:00".
Definition broken_pdf : document :=
  Doc "broken.pdf" (Raise (PyExc "FileDataError" "cannot open broken document"))
      good_run "2024-01-01 10:01:00".
Definition notes_pdf : document :=
  Doc "notes.PDF" (Ok 1) good_run_in_order "2024-01-01 10:02:00".
Definition readme_txt : document :=
  Doc "README.txt" (Raise (PyExc "FileDataError" "not a PDF")) good_run EmptyString.

(** A document without pages, and one whose recognition fails on every page. *)
Definition empty_pdf : document :=
  Doc "empty.pdf" (Ok 0) good_run "2024-01-01 10:03:00".
Definition unreadable_scan : document :=
  Doc "scan.pdf" (Ok 2) (RunEnv None bad_ocr [1]%nat None) "2024-01-01 10:04:00".

Definition nothing_yet : batch_state := BatchState ∅ EmptyString.

(** *** Sample command lines *)

(** One PDF without pages; the user asks for all pages. *)
Definition empty_file_run : cli_env :=
  CliEnv (RegularFile empty_pdf) ["a"] nothing_yet.

(** A directory that holds one PDF without pages. *)
Definition empty_batch_run : cli_env :=
  CliEnv (Directory [empty_pdf]) [] nothing_yet.

(** One PDF whose recognition fails on every page; the user asks for a
    range out of bounds, then for all pages. *)
Definition failing_pages_run : cli_env :=
  CliEnv (RegularFile unreadable_scan) ["5-9"; " A "] nothing_yet.

(** ** Notions used in the further properties *)

(** The character is white space for [strip]; none at the end of a text. *)
Definition space_at (c : option ascii) : bool :=
  match c with
  | Some c => py_isspace c
  | None => false
  end.

(** The rasterizer succeeds for the page. *)
Definition renders (env : page_env) : bool :=
  match render env with
  | Ok _ => true
  | Raise _ => false
  end.

(** The exception a task that is not skipped ends with, if it fails. *)
Definition page_error (env : page_env) : option py_exception :=
  match render env with
  | Raise e => Some e
  | Ok _ =>
      match ocr env with
      | Raise e => Some e
      | Ok _ => None
      end
  end.

(** The line of the failure report a result adds, if it adds one. *)
Definition reported (r : future_result) : option string :=
  match r with
  | Returned false page_index error_msg =>
      Some ("Page " +:+ fmt04d page_index +:+ ": " +:+ fmt_msg error_msg)
  | _ => None
  end.

(** The line of the failure report for the task of a page number run on
    a given directory, if the page fails. *)
Definition failure_line (pages : Z → page_env) (st : store) (page_num : Z)
  : option string :=
  if already_done st (page_num + 1) then None
  else
    match page_error (pages page_num) with
    | Some e =>
        Some ("Page " +:+ fmt04d (page_num + 1) +:+ ": OCR failed: " +:+ exc_repr e)
    | None => None
    end.

(** A result the loop of the scheduler counts nowhere: a success that
    carries a message. *)
Definition counts_nowhere (r : future_result) : bool :=
  match r with
  | Returned true _ (Some _) => true
  | _ => false
  end.

Definition is_raised (r : future_result) : bool :=
  match r with
  | Raised _ => true
  | Returned _ _ _ => false
  end.

(** The sum of a list of numbers. *)
Definition sum_Z (l : list Z) : Z := fold_right Z.add 0 l.

(** The entry of [page_word_counts] the word pass adds for a page, if
    it takes the page. *)
Definition page_count (st : store) (page_index : Z) : option (Z * Z) :=
  match page_text st page_index with
  | Some content => Some (page_index, Z.of_nat (length (page_words content)))
  | None => None
  end.

(** An entry of the occurrence statistics is well formed for the pages
    that satisfy [P]: it counts at least one occurrence, on pages that
    satisfy [P], and not more pages than occurrences. *)
Definition entry_ok (P : Z → Prop) (o : occurrence) : Prop :=
  1 ≤ count o ∧ pages o ≠ ∅ ∧ (∀ p, p ∈ pages o → P p)
  ∧ Z.of_nat (size (pages o)) ≤ count o.



(** A table of occurrences is well formed: no key twice, every key
    satisfies [Q] and every entry is well formed for the pages that
    satisfy [P]. *)
Definition table_ok (P : Z → Prop) (Q : string → Prop)
    (d : list (string * occurrence)) : Prop :=
  NoDup (map fst d) ∧ Forall (λ x, Q x.1 ∧ entry_ok P x.2) d.

(** What the user types for the pages [a] to [b]. *)
Definition range_text (a b : Z) : string :=
  py_str_int a +:+ "-" +:+ py_str_int b.

(** The image of a page is in the directory after a run whose task for
    the page meets [env]: it was there before, or the rasterizer
    succeeds. *)
Definition imaged (st : store) (pages : Z → page_env) (page_index : Z) : bool :=
  png_exists st (png_name page_index) || renders (pages (page_index - 1)).

(** A second file whose name differs from that of [report_pdf] by an
    underscore and its extension, and whose recognition would fail. *)
Definition report_copy : document :=
  Doc "a_report.PDF" (Ok 2) (RunEnv None bad_ocr [] None) "2024-01-01 10:05:00".

(** The order in which a batch takes its documents. *)
Definition name_le (a b : string) : Prop := String.leb a b = true.
Definition name_order (a b : document) : Prop := name_le (doc_name a) (doc_name b).



(** A directory with one image whose stem is a superscript two
    followed by digits, and the text artifact that goes with it:
    [isdigit] accepts the stem, [int] does not. *)
Definition superscript_stem : string := String "178"%char "001".
Definition superscript_store : store :=
  Store {[ superscript_stem +:+ ".png" ]}
        {[ superscript_stem +:+ ".txt" := Text "scan" ]}.

(** ** Notions used for the batch *)

(** The block the error log gets for a failing document, in the words
    of the specification, character by character: an empty line, a rule
    of 70 equals signs, the time stamp in brackets with the name of the
    document, a rule of 70 dashes, the error, a rule of 70 equals
    signs, an empty line. *)
Definition spec_log_block (timestamp name error : string) : string :=
  String "010" EmptyString
  +:+ "======================================================================"
  +:+ String "010" EmptyString
  +:+ "[" +:+ timestamp +:+ "] ERROR processing: " +:+ name
  +:+ String "010" EmptyString
  +:+ "----------------------------------------------------------------------"
  +:+ String "010" EmptyString
  +:+ error
  +:+ String "010" EmptyString
  +:+ "======================================================================"
  +:+ String "010" EmptyString
  +:+ String "010" EmptyString.

(** The text a task that is not skipped writes for its page. *)
Definition task_text (env : page_env) : string :=
  match render env with
  | Raise e => failure_marker +:+ "OCR failed: " +:+ exc_repr e
  | Ok _ =>
      match ocr env with
      | Raise e => failure_marker +:+ "OCR failed: " +:+ exc_repr e
      | Ok text => py_strip text
      end
  end.

(** A page has been processed by a run that led from the directory
    [before] to the directory [after]: a page that was complete is as
    it was; any other page holds the text its task writes, and its
    image if the rasterizer succeeds. *)
Definition page_processed (env : page_env) (p : Z) (before after : store) : Prop :=
  if already_done before p
  then text_files after !! txt_name p = text_files before !! txt_name p
       ∧ png_name p ∈ png_images after
  else text_files after !! txt_name p = Some (Text (task_text env))
       ∧ (renders env = true → png_name p ∈ png_images after).

(** A document of [n] pages has been fully processed into [after],
    its output directory being [before] when its turn came: [after] is
    what the run of the pipeline over pages 1 to [n] leaves, every page
    has been processed by that run, the run accounts for every page,
    and it writes the reports from what it leaves unless every page
    failed. *)
Definition fully_processed (d : document) (n : Z) (before : out_dir)
    (after : option out_dir) : Prop :=
  after = Some (on_disk (process_pdf (run d) 1 n before).1)
  ∧ (∀ p, 1 ≤ p ≤ n →
          page_processed (page_envs (run d) (p - 1)) p (mkdirs before)
                         (process_pdf (run d) 1 n before).1)
  ∧ ∃ t, tally_of (process_pdf (run d) 1 n before) = Some t
         ∧ success_count t + failure_count t = Z.max 0 n
         ∧ reports_of (process_pdf (run d) 1 n before)
           = if 0 <? success_count t
             then Some (Reports
                          (combine_text_files (process_pdf (run d) 1 n before).1 1 n)
                          (generate_word_count_csv (process_pdf (run d) 1 n before).1 1 n)
                          (generate_proper_names_csv (spacy (run d))
                             (process_pdf (run d) 1 n before).1 1 n))
             else None.

(** Three documents of one directory, the second of which cannot be
    opened; the names of the first and the third give the same output
    directory. *)
Definition first_doc : document :=
  Doc "a b.pdf" (Ok 1)
      (RunEnv None (λ _, PageEnv (Ok tt) (Ok "First document")) [] None)
      "2024-02-01 09:00:00".
Definition corrupt_doc : document :=
  Doc "a c.pdf" (Raise (PyExc "FileDataError" "cannot open broken document"))
      good_run "2024-02-01 09:01:00".
Definition third_doc : document :=
  Doc "a_b.pdf" (Ok 1)
      (RunEnv None (λ _, PageEnv (Ok tt) (Ok "Third document")) [] None)
      "2024-02-01 09:02:00".

(** A directory that holds the two artifacts of a page 9 and nothing
    else, left by an earlier run. *)
Definition leftover_page9 : out_dir :=
  OutDir (Some {[ "0009.png" ]}) (Some {[ "0009.txt" := Text "Old page" ]}).

(** A directory whose page 1 holds carriage returns: one before a line
    feed, one alone. *)
Definition carriage_store : store :=
  Store {[ "0001.png" ]}
        {[ "0001.txt" :=
             Text ("one" +:+ String "013" (String "010" "two")
                   +:+ String "013" "three") ]}.
(** * Properties *)

(** ** Strings and page names *)

Example fmt04d_examples :
  fmt04d 5 = "0005" ∧ fmt04d 12345 = "12345" ∧ fmt04d 0 = "0000"
  ∧ fmt04d (-5) = "-005" ∧ py_str_int 12 = "12" ∧ py_int "0012" = Ok 12
  ∧ py_int " 1_0 " = Ok 10 ∧ py_int "-5" = Ok (-5)
  ∧ py_int "1__2" = Raise (value_error "1__2")
  ∧ py_stem "a b.tar.pdf" = "a b.tar" ∧ py_suffix "a b.tar.pdf" = ".pdf"
  ∧ py_stem ".pdf" = ".pdf" ∧ py_suffix "x.pdf." = EmptyString.
Proof. repeat split; reflexivity. Qed.

Example strip_lower_examples :
  py_strip "  Hello World
 " = "Hello World" ∧ py_lower "The Cat" = "the cat"
  ∧ py_in "OCR FAILED" "note: OCR FAILED here" = true
  ∧ py_in "OCR FAILED" "ocr failed" = false
  ∧ endswith "a.pdf" ".pdf" = true ∧ endswith "a.PDF" ".pdf" = false.
Proof. repeat split; reflexivity. Qed.

Lemma str_chars (s : string) : str (chars s) = s.
Proof. apply string_of_list_ascii_of_string. Qed.

Lemma chars_str (l : list ascii) : chars (str l) = l.
Proof. apply list_ascii_of_string_of_list_ascii. Qed.

Lemma chars_app (s t : string) : chars (s +:+ t) = chars s ++ chars t.
Proof. induction s as [|c s IH]; simpl; [done | by rewrite IH]. Qed.

Lemma append_cons (c : ascii) (s t : string) :
  String c s +:+ t = String c (s +:+ t).
Proof. reflexivity. Qed.

Lemma append_nil (t : string) : EmptyString +:+ t = t.
Proof. reflexivity. Qed.

Lemma string_length_chars (s : string) : String.length s = length (chars s).
Proof. induction s as [|c s IH]; simpl; [done | by rewrite IH]. Qed.

Lemma chars_inj (s t : string) : chars s = chars t → s = t.
Proof. intros H. by rewrite <- (str_chars s), <- (str_chars t), H. Qed.

Lemma append_inv_tail (s1 s2 t : string) : s1 +:+ t = s2 +:+ t → s1 = s2.
Proof.
  intros H. apply chars_inj. apply (f_equal chars) in H.
  rewrite !chars_app in H. by apply app_inv_tail in H.
Qed.

Lemma append_assoc' (a b c : string) : (a +:+ b) +:+ c = a +:+ (b +:+ c).
Proof. apply chars_inj. by rewrite !chars_app, app_assoc. Qed.

Lemma append_empty_r (a : string) : a +:+ EmptyString = a.
Proof. apply chars_inj. by rewrite chars_app, app_nil_r. Qed.

Lemma of_uint_zero_fill (k : nat) (d : uint) :
  N.of_uint (zero_fill k d) = N.of_uint d.
Proof. induction k as [|k IH]; simpl; [done | exact IH]. Qed.

Lemma unfmt_fmt04d (n : Z) : unfmt (fmt04d n) = Some n.
Proof.
  unfold unfmt, fmt04d. destruct n as [|p|p].
  - reflexivity.
  - rewrite NilEmpty.usu. unfold pad_uint. rewrite of_uint_zero_fill.
    rewrite DecimalN.Unsigned.of_to. reflexivity.
  - cbn [NilEmpty.uint_of_string uint_of_char]. 
    rewrite NilEmpty.usu. unfold pad_uint. rewrite of_uint_zero_fill.
    change (N.of_uint (Pos.to_uint p)) with (Pos.of_uint (Pos.to_uint p)).
    rewrite DecimalPos.Unsigned.of_to. reflexivity.
Qed.

Lemma fmt04d_inj (a b : Z) : fmt04d a = fmt04d b → a = b.
Proof.
  intros H. apply (f_equal unfmt) in H. rewrite !unfmt_fmt04d in H. congruence.
Qed.

Lemma txt_name_inj (a b : Z) : txt_name a = txt_name b → a = b.
Proof. intros H. by apply fmt04d_inj, (append_inv_tail _ _ ".txt"). Qed.

Lemma png_name_inj (a b : Z) : png_name a = png_name b → a = b.
Proof. intros H. by apply fmt04d_inj, (append_inv_tail _ _ ".png"). Qed.

(** ** The page worker *)

Lemma process_page_task_unfold (env : page_env) (page_num : Z) (st : store) :
  process_page_task env page_num st =
    if already_done st (page_num + 1)
    then (st, Returned true (page_num + 1) None)
    else (apply_outcome (page_num + 1) (fresh_outcome env (page_num + 1)) st,
          (fresh_outcome env (page_num + 1)).2).
Proof.
  unfold process_page_task, already_done, fresh_outcome, apply_outcome, page_failed.
  destruct (png_exists st _ && txt_exists st _); [done|].
  destruct (render env) as [[]|e]; [destruct (ocr env) as [text|e]|];
    simpl; unfold write_txt, save_png; simpl; try done.
  by rewrite (left_id_L ∅ (∪)).
Qed.

Lemma fresh_outcome_png (env : page_env) (page_index : Z) (name : string) :
  name ∈ (fresh_outcome env page_index).1.1 → name = png_name page_index.
Proof.
  unfold fresh_outcome.
  destruct (render env) as [[]|e]; [destruct (ocr env) as [text|e]|];
    simpl; set_solver.
Qed.

(** A task leaves the artifacts of every other page alone. *)
Lemma task_frame_txt (env : page_env) (q p : Z) (st : store) :
  p ≠ q →
  text_files (process_page_task env q st).1 !! txt_name (p + 1)
  = text_files st !! txt_name (p + 1).
Proof.
  intros Hne. rewrite process_page_task_unfold.
  destruct (already_done st (q + 1)); [done|]. simpl.
  apply lookup_insert_ne. intros H%txt_name_inj. lia.
Qed.

Lemma task_frame_png (env : page_env) (q p : Z) (st : store) :
  p ≠ q →
  png_name (p + 1) ∈ png_images (process_page_task env q st).1
  ↔ png_name (p + 1) ∈ png_images st.
Proof.
  intros Hne. rewrite process_page_task_unfold.
  destruct (already_done st (q + 1)); [done|]. simpl.
  rewrite elem_of_union. split; [|by right].
  intros [H%fresh_outcome_png%png_name_inj|H]; [lia | done].
Qed.

Lemma task_frame_done (env : page_env) (q p : Z) (st : store) :
  p ≠ q →
  already_done (process_page_task env q st).1 (p + 1) = already_done st (p + 1).
Proof.
  intros Hne. unfold already_done, png_exists, txt_exists.
  rewrite task_frame_txt by done. f_equal.
  apply bool_decide_ext, task_frame_png; done.
Qed.

Lemma task_frame_result (env env' : page_env) (q p : Z) (st : store) :
  p ≠ q →
  (process_page_task env p (process_page_task env' q st).1).2
  = (process_page_task env p st).2.
Proof.
  intros Hne. rewrite !(process_page_task_unfold env p).
  rewrite task_frame_done by done.
  by destruct (already_done st (p + 1)).
Qed.

(** Tasks of different pages commute on the directory. *)
Lemma task_commute (env env' : page_env) (p q : Z) (st : store) :
  p ≠ q →
  (process_page_task env p (process_page_task env' q st).1).1
  = (process_page_task env' q (process_page_task env p st).1).1.
Proof.
  intros Hne.
  rewrite (process_page_task_unfold env p (process_page_task env' q st).1).
  rewrite (process_page_task_unfold env' q (process_page_task env p st).1).
  rewrite !task_frame_done by done.
  rewrite (process_page_task_unfold env p st), (process_page_task_unfold env' q st).
  destruct (already_done st (p + 1)), (already_done st (q + 1)); simpl; try done.
  unfold apply_outcome; simpl. f_equal.
  - by rewrite !(assoc_L (∪)), (comm_L (∪) (fresh_outcome env (p + 1)).1.1).
  - apply insert_insert_ne. intros H%txt_name_inj. lia.
Qed.

(** ** The worker pool *)

Lemma run_task_eq (pages : Z → page_env) (st : store)
    (acc : list future_result) (p : Z) :
  run_task pages (st, acc) p = (task_store pages st p, acc ++ [task_result pages st p]).
Proof.
  unfold run_task, task_store, task_result. simpl.
  by destruct (process_page_task (pages p) p st).
Qed.

(** In a pool whose page numbers are distinct, the result of each task
    is the one it gives on the directory the pool started with. *)
Lemma run_pool_fold (pages : Z → page_env) (l : list Z) :
  NoDup l → ∀ st acc,
  fold_left (run_task pages) l (st, acc)
  = (fold_left (task_store pages) l st, acc ++ map (task_result pages st) l).
Proof.
  induction 1 as [|p l Hp Hl IH]; intros st acc; simpl.
  - by rewrite app_nil_r.
  - rewrite run_task_eq, IH, <- app_assoc. simpl. do 3 f_equal.
    apply map_ext_in. intros q Hq%list_elem_of_In.
    unfold task_result, task_store. apply task_frame_result. set_solver.
Qed.

Lemma run_pool_eq (pages : Z → page_env) (l : list Z) (st : store) :
  NoDup l →
  run_pool pages l st
  = (fold_left (task_store pages) l st, map (task_result pages st) l).
Proof. intros Hl. unfold run_pool. by rewrite run_pool_fold. Qed.

(** The directory a pool leaves does not depend on the order of completion. *)
Lemma pool_store_permutation (pages : Z → page_env) (l1 l2 : list Z) :
  l1 ≡ₚ l2 → NoDup l1 → ∀ st,
  fold_left (task_store pages) l1 st = fold_left (task_store pages) l2 st.
Proof.
  induction 1 as [|p l1 l2 Hperm IH|p q l|l1 l2 l3 H12 IH12 H23 IH23];
    intros Hnd st; simpl.
  - done.
  - apply IH. by apply NoDup_cons_1_2 in Hnd.
  - f_equal. unfold task_store. apply task_commute.
    apply NoDup_cons_1_1 in Hnd. set_solver.
  - rewrite IH12 by done. apply IH23. by rewrite <- H12.
Qed.

(** ** The tally *)

Lemma count_if_cons {A : Type} (f : A → bool) (x : A) (l : list A) :
  count_if f (x :: l) = (if f x then 1 else 0) + count_if f l.
Proof. unfold count_if. simpl. destruct (f x); simpl; lia. Qed.

Lemma count_if_nonneg {A : Type} (f : A → bool) (l : list A) : 0 ≤ count_if f l.
Proof. unfold count_if. lia. Qed.

Lemma count_if_permutation {A : Type} (f : A → bool) (l1 l2 : list A) :
  l1 ≡ₚ l2 → count_if f l1 = count_if f l2.
Proof.
  induction 1 as [|x l1 l2 _ IH|x y l|l1 l2 l3 _ IH12 _ IH23];
    rewrite ?count_if_cons; try lia.
Qed.

Lemma count_if_map {A B : Type} (f : B → bool) (g : A → B) (l : list A) :
  count_if f (map g l) = count_if (λ x, f (g x)) l.
Proof.
  induction l as [|x l IH]; [done|]. simpl. rewrite !count_if_cons. lia.
Qed.

Lemma count_if_ext {A : Type} (f g : A → bool) (l : list A) :
  (∀ x, x ∈ l → f x = g x) → count_if f l = count_if g l.
Proof.
  induction l as [|x l IH]; intros H; [done|]. rewrite !count_if_cons.
  rewrite (H x) by set_solver. rewrite IH; [done|]. intros y Hy. apply H. set_solver.
Qed.

Lemma count_if_all {A : Type} (l : list A) :
  count_if (λ _, true) l = Z.of_nat (length l).
Proof.
  induction l as [|x l IH]; [done|]. rewrite count_if_cons, IH. simpl length. lia.
Qed.

Lemma tally_fold_counts (rs : list future_result) (t : run_tally) :
  success_count (fold_left tally_result rs t)
  = success_count t + count_if counts_success rs
  ∧ failure_count (fold_left tally_result rs t)
  = failure_count t + count_if counts_failure rs.
Proof.
  revert t. induction rs as [|r rs IH]; intros t; simpl.
  - unfold count_if; simpl. lia.
  - destruct (IH (tally_result t r)) as [-> ->]. rewrite !count_if_cons.
    destruct r as [[] page_index [msg|]|e]; simpl; lia.
Qed.

Lemma tally_all_counts (rs : list future_result) :
  success_count (tally_all rs) = count_if counts_success rs
  ∧ failure_count (tally_all rs) = count_if counts_failure rs.
Proof. unfold tally_all. destruct (tally_fold_counts rs empty_tally). simpl in *. lia. Qed.

(** What the task of a page returns, by the state of the page. *)
Lemma task_result_cases (pages : Z → page_env) (st : store) (p : Z) :
  counts_success (task_result pages st p)
  = is_skipped st p || is_newly_processed pages st p
  ∧ counts_failure (task_result pages st p) = is_failed pages st p.
Proof.
  unfold task_result, is_skipped, is_newly_processed, is_failed.
  rewrite process_page_task_unfold. unfold fresh_outcome.
  destruct (already_done st (p + 1)); simpl; [done|].
  destruct (render (pages p)) as [[]|e]; [destruct (ocr (pages p)) as [text|e]|];
    done.
Qed.

(** ** The scheduler *)

Lemma submitted_NoDup (s e : Z) : NoDup (submitted s e).
Proof. apply NoDup_seqZ. Qed.

(** Whatever the choices, the futures complete once each. *)
Lemma as_completed_Permutation (choices : list nat) (pending : list Z) :
  as_completed choices pending ≡ₚ pending.
Proof.
  revert pending. induction choices as [|c choices IH]; intros pending; simpl.
  - done.
  - destruct (pending !! _) as [p|] eqn:Hp.
    + rewrite IH. symmetry. by apply delete_Permutation.
    + apply lookup_ge_None in Hp. destruct pending as [|q pending]; [done|].
      simpl in Hp. lia.
Qed.

(** Every order of the futures is the order of completion for some
    choices. *)
Lemma as_completed_any_order (order : list Z) :
  ∀ pending, order ≡ₚ pending →
  ∃ choices, as_completed choices pending = order.
Proof.
  induction order as [|p order IH]; intros pending Hperm.
  - apply Permutation_nil_l in Hperm as ->. by exists [].
  - assert (p ∈ pending) as Hp by (rewrite <- Hperm; apply elem_of_cons; auto).
    apply list_elem_of_lookup in Hp as [i Hi].
    destruct (IH (delete i pending)) as [choices Hchoices].
    { apply (Permutation_cons_inv (a := p)).
      by rewrite Hperm, <- (delete_Permutation pending i p). }
    exists (i :: choices). simpl.
    assert (i < length pending)%nat as Hlt by (by eapply lookup_lt_Some).
    replace (Nat.min i (length pending - 1)) with i by lia.
    by rewrite Hi, Hchoices.
Qed.

Example completion_orders :
  as_completed [9; 9; 9; 9]%nat [0; 1; 2] = [2; 1; 0]
  ∧ as_completed [1; 1]%nat [0; 1; 2] = [1; 2; 0]
  ∧ as_completed [] [0; 1; 2] = [0; 1; 2].
Proof. repeat split; reflexivity. Qed.

(** A run that starts its pool returns, with the tally of the results
    of its tasks and the directory its tasks leave. *)
Lemma process_pdf_returns (env : run_env) (s e : Z) (o : out_dir) :
  pool_error env = None →
  ∃ summary,
    process_pdf env s e o
    = (fold_left (task_store (page_envs env)) (submitted s e) (mkdirs o),
       Ok summary)
    ∧ tally summary
      = tally_all (map (task_result (page_envs env) (mkdirs o))
                       (as_completed (completion env) (submitted s e))).
Proof.
  intros Hpool. unfold process_pdf. rewrite Hpool.
  fold (submitted s e).
  assert (NoDup (as_completed (completion env) (submitted s e))) as Hnd.
  { rewrite as_completed_Permutation. apply submitted_NoDup. }
  rewrite run_pool_eq by done.
  rewrite (pool_store_permutation _ _ _ (as_completed_Permutation _ _) Hnd).
  eexists. split; [reflexivity | done].
Qed.

(** The counters of a run, by the state of the pages at its start. *)
Lemma process_pdf_counts (env : run_env) (s e : Z) (o : out_dir) :
  pool_error env = None →
  ∃ t, tally_of (process_pdf env s e o) = Some t
    ∧ success_count t
      = count_if (is_skipped (mkdirs o)) (submitted s e)
        + count_if (is_newly_processed (page_envs env) (mkdirs o)) (submitted s e)
    ∧ failure_count t
      = count_if (is_failed (page_envs env) (mkdirs o)) (submitted s e).
Proof.
  intros Hpool.
  destruct (process_pdf_returns env s e o Hpool) as (summary & Hrun & Ht).
  exists (tally summary). unfold tally_of. rewrite Hrun. simpl. split; [done|].
  rewrite Ht. destruct (tally_all_counts
    (map (task_result (page_envs env) (mkdirs o)) (as_completed (completion env) (submitted s e))))
    as [-> ->].
  rewrite !count_if_map.
  rewrite !(count_if_permutation _ _ _ (as_completed_Permutation _ (submitted s e))).
  generalize (submitted s e) as l. intros l.
  induction l as [|p l [IH1 IH2]]; [done|].
  rewrite !count_if_cons, IH1, IH2.
  destruct (task_result_cases (page_envs env) (mkdirs o) p) as [-> ->].
  unfold is_skipped, is_newly_processed, is_failed.
  destruct (already_done (mkdirs o) (p + 1)); simpl; [lia|].
  destruct (render (page_envs env p)), (ocr (page_envs env p)); lia.
Qed.

(** The three states of a page are exclusive and cover every page. *)
Lemma page_states_partition (pages : Z → page_env) (st : store) (l : list Z) :
  count_if (is_skipped st) l + count_if (is_newly_processed pages st) l
  + count_if (is_failed pages st) l = Z.of_nat (length l).
Proof.
  induction l as [|p l IH]; [done|]. rewrite !count_if_cons. simpl length.
  unfold is_skipped, is_newly_processed, is_failed in *.
  destruct (already_done st (p + 1)); simpl;
    [|destruct (render (pages p)), (ocr (pages p))]; lia.
Qed.

(** C1 (the code departs from the claim).  In every run of the
    scheduler the success counter ends as the number of pages skipped
    because both artifacts existed plus the number of pages newly
    processed: each page skipped as already done adds one to the success
    counter, where the claim has it add to neither counter. *)
Theorem skipped_pages_count_as_successes (env : run_env) (s e : Z) (o : out_dir) :
  pool_error env = None →
  ∃ t, tally_of (process_pdf env s e o) = Some t
    ∧ success_count t
      = count_if (is_skipped (mkdirs o)) (submitted s e)
        + count_if (is_newly_processed (page_envs env) (mkdirs o)) (submitted s e).
Proof.
  intros Hpool.
  destruct (process_pdf_counts env s e o Hpool) as (t & Ht & Hs & _).
  by exists t.
Qed.

(** A resumed run over pages 1 to 2 with page 1 complete: one page is
    skipped, one is newly processed, and the success counter is 2. *)
Lemma skipped_pages_count_as_successes_witness :
  pool_error good_run = None
  ∧ count_if (is_skipped (mkdirs page1_done)) (submitted 1 2) = 1
  ∧ count_if (is_newly_processed good_engines (mkdirs page1_done)) (submitted 1 2) = 1
  ∧ ∃ t, tally_of (process_pdf good_run 1 2 page1_done) = Some t
       ∧ success_count t
         = count_if (is_skipped (mkdirs page1_done)) (submitted 1 2)
           + count_if (is_newly_processed (page_envs good_run) (mkdirs page1_done))
                      (submitted 1 2).
Proof.
  split; [reflexivity|]. split; [vm_compute; reflexivity|].
  split; [vm_compute; reflexivity|].
  apply (skipped_pages_count_as_successes good_run 1 2 page1_done).
  reflexivity.
Defined.

(** C3 (the code departs from the claim).  In every run the two
    counters of the tally add up to the number N of pages submitted,
    pages skipped as already done being among the successes; so as soon
    as one page is skipped, successes plus failures plus skips exceed N. *)
Theorem tally_sum_counts_skips_twice (env : run_env) (s e : Z) (o : out_dir) :
  pool_error env = None →
  ∃ t, tally_of (process_pdf env s e o) = Some t
    ∧ success_count t + failure_count t = Z.of_nat (length (submitted s e))
    ∧ (0 < count_if (is_skipped (mkdirs o)) (submitted s e) →
       success_count t + failure_count t
       + count_if (is_skipped (mkdirs o)) (submitted s e)
       ≠ Z.of_nat (length (submitted s e))).
Proof.
  intros Hpool.
  destruct (process_pdf_counts env s e o Hpool) as (t & Ht & Hs & Hf).
  exists t. split; [done|].
  pose proof (page_states_partition (page_envs env) (mkdirs o) (submitted s e)).
  split; lia.
Qed.

(** Pages 1 to 2 with page 1 complete: N is 2, one page is skipped,
    and successes, failures and skips add up to 3. *)
Lemma tally_sum_counts_skips_twice_witness :
  pool_error good_run = None
  ∧ count_if (is_skipped (mkdirs page1_done)) (submitted 1 2) = 1
  ∧ ∃ t, tally_of (process_pdf good_run 1 2 page1_done) = Some t
       ∧ success_count t + failure_count t = Z.of_nat (length (submitted 1 2))
       ∧ success_count t + failure_count t
         + count_if (is_skipped (mkdirs page1_done)) (submitted 1 2)
         ≠ Z.of_nat (length (submitted 1 2)).
Proof.
  assert (count_if (is_skipped (mkdirs page1_done)) (submitted 1 2) = 1) as Hskip
    by (vm_compute; reflexivity).
  split; [reflexivity|]. split; [exact Hskip|].
  destruct (tally_sum_counts_skips_twice good_run 1 2 page1_done eq_refl)
    as (t & Ht & Hsum & Hne).
  exists t. split; [exact Ht|]. split; [exact Hsum|].
  apply Hne. rewrite Hskip. reflexivity.
Defined.

(** The worker returns a success without a message or a failure with
    one: two kinds of result. *)
Lemma process_page_task_returns (env : page_env) (page_num : Z) (st : store) :
  (process_page_task env page_num st).2 = Returned true (page_num + 1) None
  ∨ ∃ msg, (process_page_task env page_num st).2
           = Returned false (page_num + 1) (Some msg).
Proof.
  rewrite process_page_task_unfold. unfold fresh_outcome.
  destruct (already_done st (page_num + 1)); [by left|].
  destruct (render env) as [[]|e]; [destruct (ocr env) as [text|e]|]; simpl; eauto.
Qed.

(** C4 (the code departs from the claim).  When both artifacts of a
    page exist the worker returns at once, leaving the directory as it
    is whatever the engines would do; but what it returns is the very
    triple a newly and successfully processed page returns, so that the
    skip cannot be told from a success. *)
Theorem skip_returns_the_success_value (env env' : page_env) (page_num : Z)
    (st st' : store) (text : string) :
  already_done st (page_num + 1) = true →
  already_done st' (page_num + 1) = false →
  render env' = Ok tt → ocr env' = Ok text →
  process_page_task env page_num st = (st, Returned true (page_num + 1) None)
  ∧ (process_page_task env' page_num st').2 = Returned true (page_num + 1) None.
Proof.
  intros Hdone Hfresh Hrender Hocr. rewrite !process_page_task_unfold.
  rewrite Hdone, Hfresh. unfold fresh_outcome. by rewrite Hrender, Hocr.
Qed.

Lemma skip_returns_the_success_value_witness :
  already_done page2_pending (0 + 1) = true
  ∧ already_done (Store ∅ ∅) (0 + 1) = false
  ∧ process_page_task (bad_ocr 0) 0 page2_pending
    = (page2_pending, Returned true (0 + 1) None)
  ∧ (process_page_task (good_engines 0) 0 (Store ∅ ∅)).2
    = Returned true (0 + 1) None.
Proof.
  assert (already_done page2_pending (0 + 1) = true) as Hdone
    by (vm_compute; reflexivity).
  assert (already_done (Store ∅ ∅) (0 + 1) = false) as Hfresh
    by (vm_compute; reflexivity).
  split; [exact Hdone|]. split; [exact Hfresh|].
  exact (skip_returns_the_success_value (bad_ocr 0) (good_engines 0) 0
           page2_pending (Store ∅ ∅) "Some text " Hdone Hfresh eq_refl eq_refl).
Defined.

(** ** The resume query *)

(** *** Page names as file names *)

Lemma digit_is_isdigit (c : ascii) : ascii_digit c = true → py_isdigit_char c = true.
Proof. unfold py_isdigit_char. by intros ->. Qed.

Lemma digit_facts (c : ascii) :
  ascii_digit c = true →
  int_space c = false ∧ Ascii.eqb c "-" = false ∧ Ascii.eqb c "+" = false
  ∧ Ascii.eqb c "." = false ∧ Ascii.eqb c "_" = false.
Proof. destruct c as [[] [] [] [] [] [] [] []]; vm_compute; intros H; try discriminate H; done. Qed.

Lemma chars_string_of_uint (d : uint) :
  Forall (λ c, ascii_digit c = true) (chars (NilEmpty.string_of_uint d))
  ∧ length (chars (NilEmpty.string_of_uint d)) = Decimal.nb_digits d.
Proof.
  induction d as [|d [IH1 IH2]|d [IH1 IH2]|d [IH1 IH2]|d [IH1 IH2]|d [IH1 IH2]
                  |d [IH1 IH2]|d [IH1 IH2]|d [IH1 IH2]|d [IH1 IH2]|d [IH1 IH2]];
    simpl; (split; [try constructor; done | try done; by rewrite IH2]).
Qed.

Lemma nb_digits_zero_fill (k : nat) (d : uint) :
  Decimal.nb_digits (zero_fill k d) = (k + Decimal.nb_digits d)%nat.
Proof. induction k as [|k IH]; simpl; [done | by rewrite IH]. Qed.

(** The name of a page that is not negative: four digits or more. *)
Lemma fmt04d_digits (p : Z) :
  0 ≤ p →
  Forall (λ c, ascii_digit c = true) (chars (fmt04d p))
  ∧ (4 ≤ length (chars (fmt04d p)))%nat.
Proof.
  intros Hp.
  assert (fmt04d p
          = NilEmpty.string_of_uint (pad_uint 4 (N.to_uint (Z.to_N p)))) as ->.
  { by destruct p. }
  destruct (chars_string_of_uint (pad_uint 4 (N.to_uint (Z.to_N p)))) as [H1 H2].
  split; [done|]. rewrite H2. unfold pad_uint. rewrite nb_digits_zero_fill. lia.
Qed.

Lemma rfind_dot_none (l : list ascii) (i : nat) (found : option nat) :
  Forall (λ c, Ascii.eqb c "." = false) l → rfind_dot l i found = found.
Proof.
  intros H. revert i found. induction H as [|c l Hc Hl IH]; intros i found; simpl.
  - done.
  - by rewrite Hc, IH.
Qed.

Lemma rfind_dot_last (l1 l2 : list ascii) (i : nat) (found : option nat) :
  Forall (λ c, Ascii.eqb c "." = false) l2 →
  rfind_dot (l1 ++ "."%char :: l2) i found = Some (i + length l1)%nat.
Proof.
  intros H2. revert i found. induction l1 as [|c l1 IH]; intros i found; simpl.
  - rewrite rfind_dot_none by done. f_equal. lia.
  - rewrite IH. f_equal. lia.
Qed.

Lemma substring_append_l (s t : string) :
  String.substring 0 (String.length s) (s +:+ t) = s.
Proof.
  induction s as [|c s IH].
  - rewrite append_nil. by destruct t.
  - rewrite append_cons. simpl. by rewrite IH.
Qed.

Lemma substring_all (t : string) : String.substring 0 (String.length t) t = t.
Proof. induction t as [|c t IH]; simpl; [done | by rewrite IH]. Qed.

Lemma substring_append_r (s t : string) :
  String.substring (String.length s) (String.length t) (s +:+ t) = t.
Proof.
  induction s as [|c s IH].
  - rewrite append_nil. apply substring_all.
  - rewrite append_cons. simpl. exact IH.
Qed.

Lemma substring_split (s : string) (i : nat) :
  (i ≤ String.length s)%nat →
  String.substring 0 i s +:+ String.substring i (String.length s - i) s = s.
Proof.
  revert i. induction s as [|c s IH]; intros i Hi; simpl in *.
  - by destruct i.
  - destruct i as [|i]; simpl.
    + rewrite append_nil. f_equal. apply substring_all.
    + rewrite append_cons. f_equal. apply IH. lia.
Qed.

Lemma string_length_append (s t : string) :
  String.length (s +:+ t) = (String.length s + String.length t)%nat.
Proof. by rewrite !string_length_chars, chars_app, length_app. Qed.

(** Cutting the name of an image at its last dot. *)
Lemma suffix_at_png (s : string) :
  Forall (λ c, Ascii.eqb c "." = false) (chars s) → s ≠ EmptyString →
  suffix_at (s +:+ ".png") = Some (String.length s).
Proof.
  intros Hs Hne. unfold suffix_at. rewrite chars_app.
  change (chars ".png") with ("."%char :: chars "png").
  rewrite rfind_dot_last by (repeat constructor). simpl.
  rewrite string_length_append, <- string_length_chars. simpl.
  destruct s as [|c s]; [done|]. simpl.
  destruct (_ <? _) eqn:H; [done|]. apply Z.ltb_ge in H. lia.
Qed.

Lemma png_name_parts (s : string) :
  Forall (λ c, Ascii.eqb c "." = false) (chars s) → s ≠ EmptyString →
  py_suffix (s +:+ ".png") = ".png" ∧ py_stem (s +:+ ".png") = s.
Proof.
  intros Hs Hne. unfold py_suffix, py_stem. rewrite suffix_at_png by done.
  split; [|apply substring_append_l].
  rewrite string_length_append.
  replace (String.length s + String.length ".png" - String.length s)%nat
    with (String.length ".png") by lia.
  apply substring_append_r.
Qed.

(** A name ends in [.png] only if it is its stem followed by [.png]. *)
Lemma png_suffix_stem (f : string) :
  String.eqb (py_suffix f) ".png" = true → f = py_stem f +:+ ".png".
Proof.
  intros H%String.eqb_eq. unfold py_suffix, py_stem in *.
  destruct (suffix_at f) as [i|] eqn:Hi; [|done].
  rewrite <- H. symmetry. apply substring_split.
  unfold suffix_at in Hi. destruct (rfind_dot _ _ _) as [j|]; [|done].
  destruct (_ && _) eqn:Hj; [|done]. injection Hi as ->.
  apply andb_true_iff in Hj as [_ Hj%Z.ltb_lt]. lia.
Qed.

Lemma lstrip_int_digit (c : ascii) (l : list ascii) :
  ascii_digit c = true → lstrip_int (c :: l) = c :: l.
Proof. intros Hc. simpl. by destruct (digit_facts c Hc) as (-> & _). Qed.

Lemma digits_ok_all (l : list ascii) (b : bool) :
  Forall (λ c, ascii_digit c = true) l → (l ≠ [] ∨ b = true) →
  digits_ok b l = true.
Proof.
  intros H. revert b. induction H as [|c l Hc Hl IH]; intros b Hb; simpl.
  - by destruct Hb.
  - rewrite Hc. apply IH. by right.
Qed.

Lemma filter_digits_all (l : list ascii) :
  Forall (λ c, ascii_digit c = true) l → List.filter ascii_digit l = l.
Proof.
  induction 1 as [|c l Hc Hl IH]; simpl; [done|]. by rewrite Hc, IH.
Qed.

(** Reading the name of a page back as a number. *)
Lemma py_int_fmt04d (p : Z) : 0 ≤ p → py_int (fmt04d p) = Ok p.
Proof.
  intros Hp. destruct (fmt04d_digits p Hp) as [Hall Hlen].
  unfold py_int.
  destruct (chars (fmt04d p)) as [|c l] eqn:Hchars; [simpl in Hlen; lia|].
  assert (ascii_digit c = true) as Hc by (by apply Forall_cons in Hall as [? _]).
  rewrite lstrip_int_digit by done.
  assert (rev (lstrip_int (rev (c :: l))) = c :: l) as ->.
  { destruct (rev (c :: l)) as [|c' l'] eqn:Hrev.
    - apply (f_equal (@length ascii)) in Hrev. rewrite length_rev in Hrev. done.
    - rewrite lstrip_int_digit; [by rewrite <- Hrev, rev_involutive|].
      rewrite Forall_forall in Hall. apply Hall.
      apply list_elem_of_In, in_rev. rewrite Hrev. by left. }
  destruct (digit_facts c Hc) as (_ & -> & -> & _).
  unfold digits_value. rewrite digits_ok_all by (done || by left).
  rewrite filter_digits_all by done. rewrite <- Hchars, str_chars.
  assert (fmt04d p
          = NilEmpty.string_of_uint (pad_uint 4 (N.to_uint (Z.to_N p)))) as ->.
  { by destruct p. }
  rewrite NilEmpty.usu. unfold pad_uint.
  rewrite of_uint_zero_fill, DecimalN.Unsigned.of_to. f_equal. lia.
Qed.

Lemma py_isdigit_fmt04d (p : Z) : 0 ≤ p → py_isdigit (fmt04d p) = true.
Proof.
  intros Hp. destruct (fmt04d_digits p Hp) as [Hall Hlen].
  unfold py_isdigit. apply andb_true_iff. split.
  - destruct (fmt04d p); [simpl in Hlen; lia | done].
  - apply forallb_forall. intros c Hc%list_elem_of_In.
    rewrite Forall_forall in Hall. by apply digit_is_isdigit, Hall.
Qed.

Lemma fmt04d_no_dot (p : Z) :
  0 ≤ p →
  Forall (λ c, Ascii.eqb c "." = false) (chars (fmt04d p)) ∧ fmt04d p ≠ EmptyString.
Proof.
  intros Hp. destruct (fmt04d_digits p Hp) as [Hall Hlen]. split.
  - eapply Forall_impl; [exact Hall|]. intros c Hc. by destruct (digit_facts c Hc) as (_ & _ & _ & -> & _).
  - intros H. rewrite H in Hlen. simpl in Hlen. lia.
Qed.


(** *** What the query collects *)

Lemma scan_png_eq (txt : gmap string txt_file) (f : string)
    (acc : result (gset Z)) :
  scan_png txt f acc
  = match acc with
    | Raise e => Raise e
    | Ok pages =>
        match png_page txt f with
        | Ok (Some n) => Ok ({[ n ]} ∪ pages)
        | Ok None => Ok pages
        | Raise e => Raise e
        end
    end.
Proof.
  unfold scan_png, png_page. destruct acc as [pages|e]; [|done].
  destruct (_ && _); [|done]. destruct (bool_decide _); [|done].
  by destruct (py_int _).
Qed.

Lemma scan_fold_Raise (txt : gmap string txt_file) (l : list string)
    (e : py_exception) :
  fold_left (λ acc f, scan_png txt f acc) l (Raise e) = Raise e.
Proof. induction l as [|f l IH]; simpl; [done | exact IH]. Qed.

Lemma scan_fold_spec (txt : gmap string txt_file) (l : list string) :
  ∀ S0 S, fold_left (λ acc f, scan_png txt f acc) l (Ok S0) = Ok S →
  (∀ f, f ∈ l → ∃ o, png_page txt f = Ok o)
  ∧ (∀ n, n ∈ S ↔ n ∈ S0 ∨ ∃ f, f ∈ l ∧ png_page txt f = Ok (Some n)).
Proof.
  induction l as [|f l IH]; intros S0 S; cbn [fold_left].
  - intros [= <-]. split.
    + intros f Hf. by apply elem_of_nil in Hf.
    + intros n. split; [by left|]. intros [H|(f & Hf & _)]; [done|].
      by apply elem_of_nil in Hf.
  - rewrite scan_png_eq. destruct (png_page txt f) as [[m|]|e] eqn:Hf.
    + intros [Hok Hin]%IH. split.
      * intros g [->|Hg]%elem_of_cons; eauto.
      * intros n. rewrite Hin, elem_of_union, elem_of_singleton. split.
        -- intros [[->|H]|(g & Hg & Hn)]; [right; exists f | by left | right; exists g];
             (split; [apply elem_of_cons; auto | done]).
        -- intros [H|(g & [->|Hg]%elem_of_cons & Hn)];
             [by left; right | left; left; congruence | right; by exists g].
    + intros [Hok Hin]%IH. split.
      * intros g [->|Hg]%elem_of_cons; eauto.
      * intros n. rewrite Hin. split.
        -- intros [H|(g & Hg & Hn)]; [by left | right; exists g].
           split; [apply elem_of_cons; auto | done].
        -- intros [H|(g & [->|Hg]%elem_of_cons & Hn)];
             [by left | congruence | right; by exists g].
    + by rewrite scan_fold_Raise.
Qed.

Lemma scan_fold_ok (txt : gmap string txt_file) (l : list string) :
  ∀ S0, (∀ f, f ∈ l → ∃ o, png_page txt f = Ok o) →
  ∃ S, fold_left (λ acc f, scan_png txt f acc) l (Ok S0) = Ok S.
Proof.
  induction l as [|f l IH]; intros S0 Hok; cbn [fold_left]; [by eexists|].
  rewrite scan_png_eq. destruct (Hok f) as [[m|] ->]; [set_solver| |];
    apply IH; intros g Hg; apply Hok; set_solver.
Qed.

Lemma fold_left_ext_in {A B : Type} (f g : A → B → A) (l : list B) (a : A) :
  (∀ a b, b ∈ l → f a b = g a b) → fold_left f l a = fold_left g l a.
Proof.
  revert a. induction l as [|b l IH]; intros a H; simpl; [done|].
  rewrite H by set_solver. apply IH. intros a' b' Hb. apply H. set_solver.
Qed.

Lemma fold_max_spec (ps : list Z) (p : Z) :
  fold_left Z.max ps p ∈ p :: ps ∧ ∀ x, x ∈ p :: ps → x ≤ fold_left Z.max ps p.
Proof.
  revert p. induction ps as [|q ps IH]; intros p; simpl.
  - split; [set_solver|]. intros x [->|H]%elem_of_cons; [lia|].
    by apply elem_of_nil in H.
  - destruct (IH (Z.max p q)) as [Hin Hle]. split.
    + apply elem_of_cons in Hin as [Hin|Hin]; [|rewrite !elem_of_cons; auto].
      rewrite Hin.
      destruct (Z.max_spec p q) as [[_ ->]|[_ ->]]; rewrite !elem_of_cons; auto.
    + intros x Hx.
      assert (Z.max p q ≤ fold_left Z.max ps (Z.max p q))
        by (apply Hle, elem_of_cons; auto).
      apply elem_of_cons in Hx as [->|[->|Hx]%elem_of_cons]; [lia | lia |].
      apply Hle, elem_of_cons. auto.
Qed.

(** When the query answers, every entry of [png_images] reads well, the
    answer bounds every page collected, and is one of them or 0. *)
Lemma get_last_processed_page_ok (st : store) (k : Z) :
  get_last_processed_page (on_disk st) = Ok k →
  (∀ f, f ∈ png_images st → ∃ o, png_page (text_files st) f = Ok o)
  ∧ (∀ f n, f ∈ png_images st → png_page (text_files st) f = Ok (Some n) → n ≤ k)
  ∧ (0 ≤ k → k ≠ 0 →
     ∃ f, f ∈ png_images st ∧ png_page (text_files st) f = Ok (Some k)).
Proof.
  unfold get_last_processed_page. simpl.
  destruct (fold_left _ _ _) as [S|e] eqn:Hfold; [|done].
  apply scan_fold_spec in Hfold as [Hok Hin].
  assert (∀ n, n ∈ S ↔ ∃ f, f ∈ png_images st
                            ∧ png_page (text_files st) f = Ok (Some n)) as HS.
  { intros n. rewrite Hin. split.
    - intros [H|(f & Hf%elem_of_elements & Hn)]; [set_solver | by exists f].
    - intros (f & Hf & Hn). right. exists f. by rewrite elem_of_elements. }
  case_bool_decide as Hempty.
  - intros [= <-]. split; [intros f Hf; apply Hok; by apply elem_of_elements|].
    split; [|done]. intros f n Hf Hn.
    assert (n ∈ S) as HnS by (apply HS; eauto). set_solver.
  - intros [= <-]. split; [intros f Hf; apply Hok; by apply elem_of_elements|].
    assert (elements S ≠ []) as Hne.
    { intros H. apply elements_empty_inv in H. by apply leibniz_equiv in H. }
    destruct (elements S) as [|p ps] eqn:Hel; [done|]. simpl.
    destruct (fold_max_spec ps p) as [Hmax Hle]. rewrite <- Hel in Hmax, Hle.
    split.
    + intros f n Hf Hn. apply Hle, elem_of_elements, HS. eauto.
    + intros _ _. by apply HS, elem_of_elements.
Qed.

Lemma get_last_processed_page_intro (st : store) (k : Z) :
  (∀ f, f ∈ png_images st → ∃ o, png_page (text_files st) f = Ok o) →
  (∃ f, f ∈ png_images st ∧ png_page (text_files st) f = Ok (Some k)) →
  (∀ f n, f ∈ png_images st → png_page (text_files st) f = Ok (Some n) → n ≤ k) →
  get_last_processed_page (on_disk st) = Ok k.
Proof.
  intros Hok (f & Hf & Hk) Hle. unfold get_last_processed_page. simpl.
  destruct (scan_fold_ok (text_files st) (elements (png_images st)) ∅) as [S HS].
  { intros g Hg. apply Hok. by apply elem_of_elements. }
  rewrite HS. apply scan_fold_spec in HS as [_ Hin].
  assert (k ∈ S) as HkS.
  { apply Hin. right. exists f. by rewrite elem_of_elements. }
  rewrite bool_decide_eq_false_2
    by (intros ->; by apply not_elem_of_empty in HkS).
  destruct (elements S) as [|p ps] eqn:Hel.
  { apply elem_of_elements in HkS. rewrite Hel in HkS. by apply elem_of_nil in HkS. }
  simpl. destruct (fold_max_spec ps p) as [Hmax Hmaxle]. rewrite <- Hel in Hmax, Hmaxle.
  f_equal. apply Z.le_antisymm.
  - apply elem_of_elements, Hin in Hmax as [H|(g & Hg%elem_of_elements & Hn)];
      [set_solver | by eapply Hle].
  - apply Hmaxle. by apply elem_of_elements.
Qed.

(** The image of a page whose text artifact exists adds the page. *)
Lemma png_page_own (txt : gmap string txt_file) (p : Z) :
  0 ≤ p → is_Some (txt !! txt_name p) →
  png_page txt (png_name p) = Ok (Some p).
Proof.
  intros Hp Htxt. unfold png_page, png_name.
  destruct (fmt04d_no_dot p Hp) as [Hdot Hne].
  destruct (png_name_parts (fmt04d p) Hdot Hne) as [-> ->].
  rewrite py_isdigit_fmt04d by done. simpl.
  fold (txt_name p). rewrite bool_decide_eq_true_2 by done.
  by rewrite py_int_fmt04d.
Qed.

(** Writing the text artifact of a page changes what the image of
    that page adds, and nothing else. *)
Lemma png_page_other (txt : gmap string txt_file) (p : Z) (v : txt_file)
    (f : string) :
  f ≠ png_name p →
  png_page (<[ txt_name p := v ]> txt) f = png_page txt f.
Proof.
  intros Hne. unfold png_page.
  destruct (String.eqb (py_suffix f) ".png") eqn:Hsuffix; [|done].
  destruct (py_isdigit (py_stem f)); [|done]. simpl.
  rewrite lookup_insert_ne; [done|].
  intros H%append_inv_tail. apply Hne.
  rewrite (png_suffix_stem f Hsuffix). unfold png_name. by rewrite H.
Qed.

(** C2 (the code departs from the claim).  Let the query answer [k]
    on a directory, and let the task of page [k+1] run there.  If the
    recognition raises after the image was saved, page [k+1] holds the
    failure marker and the query now answers [k+1], where the claim has
    it answer [k] still.  (Had the rendering raised, no image being
    there, the query would answer [k].) *)
Theorem last_processed_page_counts_failed_page (st : store) (k : Z)
    (env : page_env) (e : py_exception) :
  0 ≤ k →
  get_last_processed_page (on_disk st) = Ok k →
  already_done st (k + 1) = false →
  render env = Ok tt → ocr env = Raise e →
  text_files (process_page_task env k st).1 !! txt_name (k + 1)
  = Some (Text (failure_marker +:+ "OCR failed: " +:+ exc_repr e))
  ∧ get_last_processed_page (on_disk (process_page_task env k st).1) = Ok (k + 1)
  ∧ (∀ env', (∃ e', render env' = Raise e') →
       png_name (k + 1) ∉ png_images st →
       get_last_processed_page (on_disk (process_page_task env' k st).1) = Ok k).
Proof.
  intros Hk Hlast Hdone Hrender Hocr. pose proof Hlast as Hlast'.
  apply get_last_processed_page_ok in Hlast as (Hok & Hle & Hmax).
  split; [|split].
  - rewrite process_page_task_unfold, Hdone. unfold fresh_outcome.
    rewrite Hrender, Hocr. simpl. apply lookup_insert_eq.
  - rewrite process_page_task_unfold, Hdone. unfold fresh_outcome.
    rewrite Hrender, Hocr. unfold apply_outcome. simpl.
    apply get_last_processed_page_intro; simpl.
    + intros f Hf. destruct (decide (f = png_name (k + 1))) as [->|Hne].
      * exists (Some (k + 1)). apply png_page_own; [lia|].
        rewrite lookup_insert_eq. by eexists.
      * rewrite png_page_other by done. apply Hok.
        apply elem_of_union in Hf as [Hf%elem_of_singleton|Hf]; done.
    + exists (png_name (k + 1)). split; [set_solver|].
      apply png_page_own; [lia|]. rewrite lookup_insert_eq. by eexists.
    + intros f n Hf. destruct (decide (f = png_name (k + 1))) as [->|Hne].
      * rewrite png_page_own; [intros [= <-]; lia | lia |].
        rewrite lookup_insert_eq. by eexists.
      * rewrite png_page_other by done. intros Hn.
        assert (n ≤ k); [|lia]. eapply Hle; [|done].
        apply elem_of_union in Hf as [Hf%elem_of_singleton|Hf]; done.
  - intros env' [e' Hrender'] Hpng.
    rewrite process_page_task_unfold, Hdone. unfold fresh_outcome.
    rewrite Hrender'. unfold apply_outcome. simpl.
    rewrite (left_id_L ∅ (∪)). rewrite <- Hlast'.
    unfold get_last_processed_page. simpl.
    rewrite (fold_left_ext_in _ (λ acc f, scan_png (text_files st) f acc)); [done|].
    intros acc f Hf%elem_of_elements. rewrite !scan_png_eq.
    rewrite png_page_other; [done|]. by intros ->.
Qed.

(** Page 1 complete, the recognition of page 2 fails: the query answers
    1 before the task of page 2 and 2 after it. *)
Lemma last_processed_page_counts_failed_page_witness :
  get_last_processed_page (on_disk page2_pending) = Ok 1
  ∧ already_done page2_pending (1 + 1) = false
  ∧ text_files page2_failed !! txt_name (1 + 1)
    = Some (Text (failure_marker +:+ "OCR failed: "
                  +:+ exc_repr (PyExc "TesseractError" "no text layer")))
  ∧ get_last_processed_page (on_disk page2_failed) = Ok (1 + 1).
Proof.
  assert (0 ≤ 1) as Hk by lia.
  assert (get_last_processed_page (on_disk page2_pending) = Ok 1) as Hlast
    by (vm_compute; reflexivity).
  assert (already_done page2_pending (1 + 1) = false) as Hdone
    by (vm_compute; reflexivity).
  split; [exact Hlast|]. split; [exact Hdone|].
  destruct (last_processed_page_counts_failed_page page2_pending 1 (bad_ocr 1)
              (PyExc "TesseractError" "no text layer")
              Hk Hlast Hdone eq_refl eq_refl) as (Htxt & Hquery & _).
  split; [exact Htxt | exact Hquery].
Defined.


(** ** The aggregation passes *)

Lemma py_range_elem (a b p : Z) : p ∈ py_range a b ↔ a ≤ p < b.
Proof. unfold py_range. rewrite elem_of_seqZ. lia. Qed.

Lemma seqZ_sorted (n : nat) (m : Z) : StronglySorted Z.lt (seqZ m (Z.of_nat n)).
Proof.
  revert m. induction n as [|n IH]; intros m.
  - rewrite seqZ_nil by lia. constructor.
  - rewrite seqZ_cons by lia.
    replace (Z.pred (Z.of_nat (S n))) with (Z.of_nat n) by lia.
    constructor; [apply IH|].
    apply Forall_forall. intros x Hx%elem_of_seqZ. lia.
Qed.

Lemma py_range_sorted (a b : Z) : StronglySorted Z.lt (py_range a b).
Proof.
  unfold py_range. destruct (decide (0 ≤ b - a)) as [H|H].
  - rewrite <- (Z2Nat.id (b - a)) by done. apply seqZ_sorted.
  - rewrite seqZ_nil by lia. constructor.
Qed.

Lemma StronglySorted_filter (f : Z → bool) (l : list Z) :
  StronglySorted Z.lt l → StronglySorted Z.lt (List.filter f l).
Proof.
  induction 1 as [|x l Hl IH Hx]; simpl; [constructor|].
  destruct (f x); [|done]. constructor; [done|].
  apply Forall_forall. intros y Hy%list_elem_of_In%filter_In.
  rewrite Forall_forall in Hx. apply Hx. apply list_elem_of_In. tauto.
Qed.

Lemma page_text_None (st : store) (p : Z) :
  page_text st p = None ↔ excluded st p.
Proof.
  unfold page_text, excluded.
  destruct (read_page st p) as [[|content]|].
  - split; [intros _; right; by left | done].
  - destruct (py_in "OCR FAILED" content) eqn:Hin.
    + split; [intros _; right; right; by exists content | done].
    + split; [done|]. intros [H|[H|(c & H & Hc)]]; try done.
      injection H as <-. congruence.
  - split; [intros _; by left | done].
Qed.

Lemma is_excluded_true (st : store) (p : Z) :
  is_excluded st p = true ↔ excluded st p.
Proof.
  rewrite <- page_text_None. unfold is_excluded.
  by destruct (page_text st p).
Qed.

(** Each pass takes a page through [page_text]. *)
Lemma combine_page_eq (st : store) (acc : list string * list Z) (p : Z) :
  combine_page st acc p
  = (acc.1 ++ page_block st p, acc.2 ++ (if is_excluded st p then [p] else [])).
Proof.
  unfold combine_page, page_block, is_excluded, page_text.
  destruct (read_page st p) as [[|content]|]; simpl; rewrite ?app_nil_r; try done.
  destruct (py_in "OCR FAILED" content); simpl; by rewrite ?app_nil_r.
Qed.

Lemma count_page_eq (st : store) (acc : word_stats) (p : Z) :
  count_page st acc p
  = match page_text st p with
    | Some content => count_text p content acc
    | None => acc
    end.
Proof.
  unfold count_page, page_text.
  destruct (read_page st p) as [[|content]|]; try done.
  by destruct (py_in "OCR FAILED" content).
Qed.

Lemma names_page_eq (nlp : nlp_model) (st : store)
    (d : list (string * occurrence)) (p : Z) :
  names_page nlp st d p
  = match page_text st p with
    | Some content => names_text nlp p content d
    | None => d
    end.
Proof.
  unfold names_page, page_text.
  destruct (read_page st p) as [[|content]|]; try done.
  by destruct (py_in "OCR FAILED" content).
Qed.

Lemma combine_fold (st : store) (l : list Z) (acc : list string * list Z) :
  fold_left (combine_page st) l acc
  = (acc.1 ++ concat (map (page_block st) l),
     acc.2 ++ List.filter (is_excluded st) l).
Proof.
  revert acc. induction l as [|p l IH]; intros acc; simpl.
  - rewrite !app_nil_r. by destruct acc.
  - rewrite IH, combine_page_eq. simpl. rewrite <- !app_assoc.
    by destruct (is_excluded st p).
Qed.

Lemma concat_blocks_included (st : store) (l : list Z) :
  concat (map (page_block st) l)
  = concat (map (page_block st) (List.filter (λ p, negb (is_excluded st p)) l)).
Proof.
  induction l as [|p l IH]; [done|]. simpl.
  unfold is_excluded at 1, page_block at 1.
  destruct (page_text st p) eqn:Hp; simpl; [|done].
  unfold page_block at 2. rewrite Hp. simpl. by rewrite IH.
Qed.

(** A pass that goes through [page_text] passes over excluded pages. *)
Lemma fold_included {A : Type} (st : store) (f : Z → string → A → A)
    (l : list Z) (acc : A) :
  fold_left (λ a p, match page_text st p with
                    | Some content => f p content a
                    | None => a
                    end) l acc
  = fold_left (λ a p, match page_text st p with
                      | Some content => f p content a
                      | None => a
                      end) (List.filter (λ p, negb (is_excluded st p)) l) acc.
Proof.
  revert acc. induction l as [|p l IH]; intros acc; [done|]. simpl.
  unfold is_excluded at 1.
  destruct (page_text st p) eqn:Hp; simpl; [|apply IH].
  rewrite Hp. apply IH.
Qed.

Lemma combine_text_files_eq (st : store) (s e : Z) :
  combine_text_files st s e
  = match concat (map (page_block st) (included_pages st s e)) with
    | [] => None
    | combined_content => Some (writelines combined_content)
    end.
Proof.
  unfold combine_text_files, combine_loop, included_pages.
  rewrite combine_fold. simpl. by rewrite <- concat_blocks_included.
Qed.

Lemma process_pdf_store (env : run_env) (s e : Z) (o : out_dir) :
  pool_error env = None →
  (process_pdf env s e o).1
  = fold_left (task_store (page_envs env)) (submitted s e) (mkdirs o).
Proof.
  intros Hpool.
  destruct (process_pdf_returns env s e o Hpool) as (summary & -> & _).
  done.
Qed.

Lemma process_pdf_reports (env : run_env) (s e : Z) (o : out_dir) :
  pool_error env = None →
  reports_of (process_pdf env s e o)
  = let st := fold_left (task_store (page_envs env)) (submitted s e) (mkdirs o) in
    if 0 <? count_if (is_skipped (mkdirs o)) (submitted s e)
           + count_if (is_newly_processed (page_envs env) (mkdirs o)) (submitted s e)
    then Some (Reports (combine_text_files st s e)
                       (generate_word_count_csv st s e)
                       (generate_proper_names_csv (spacy env) st s e))
    else None.
Proof.
  intros Hpool.
  destruct (process_pdf_counts env s e o Hpool) as (t & Ht & Hs & _).
  pose proof (process_pdf_store env s e o Hpool) as Hst.
  unfold tally_of, reports_of in *. unfold process_pdf in *.
  rewrite Hpool in *.
  destruct (run_pool _ _ _) as [st' results]. simpl in *.
  injection Ht as <-. by rewrite Hs, Hst.
Qed.

Lemma included_pages_elem (st : store) (s e p : Z) :
  p ∈ included_pages st s e ↔ s ≤ p ≤ e ∧ ¬ excluded st p.
Proof.
  unfold included_pages.
  rewrite list_elem_of_In, filter_In, <- list_elem_of_In, py_range_elem.
  rewrite <- is_excluded_true. destruct (is_excluded st p); simpl; split.
  - intros [_ H]. done.
  - intros [_ H]. by destruct H.
  - intros [H _]. split; [lia | done].
  - intros [H _]. split; [lia | done].
Qed.

Lemma page_text_kept (st : store) (p : Z) :
  is_excluded st p = false → page_text st p = Some (kept_text st p).
Proof.
  unfold is_excluded, page_text, kept_text, read_page.
  destruct (text_files st !! txt_name p) as [[|stored]|]; try done.
  by destruct (py_in _ _).
Qed.

Lemma writelines_fold (l : list string) :
  writelines l = fold_right String.append EmptyString l.
Proof.
  unfold writelines. induction l as [|x l IH]; [done|].
  destruct l as [|y l]; simpl in *.
  - by rewrite append_empty_r.
  - by rewrite append_nil, IH.
Qed.

Lemma page_block_section (st : store) (p : Z) (rest : string) :
  is_excluded st p = false →
  fold_right String.append rest (page_block st p)
  = page_section p (kept_text st p) +:+ rest.
Proof.
  intros Hp. unfold page_block. rewrite (page_text_kept st p Hp).
  unfold page_section, page_header, nl. cbn [fold_right].
  apply chars_inj. rewrite !chars_app. by rewrite <- !app_assoc.
Qed.

Lemma blocks_sections (st : store) (l : list Z) :
  Forall (λ p, is_excluded st p = false) l →
  fold_right String.append EmptyString (concat (map (page_block st) l))
  = combined_sections st l.
Proof.
  induction 1 as [|p l Hp Hl IH]; [done|].
  cbn [map concat combined_sections fold_right].
  rewrite fold_right_app, IH. by apply page_block_section.
Qed.

Lemma included_not_excluded (st : store) (s e : Z) :
  Forall (λ p, is_excluded st p = false) (included_pages st s e).
Proof.
  apply Forall_forall. intros p Hp%list_elem_of_In%filter_In.
  destruct Hp as [_ Hp]. by destruct (is_excluded st p).
Qed.

Lemma combine_text_files_sections (st : store) (s e : Z) :
  combine_text_files st s e
  = match included_pages st s e with
    | [] => None
    | pages => Some (combined_sections st pages)
    end.
Proof.
  rewrite combine_text_files_eq.
  pose proof (included_not_excluded st s e) as Hall.
  pose proof (blocks_sections st _ Hall) as Heq.
  destruct (included_pages st s e) as [|p l] eqn:Hincl; [done|].
  apply Forall_cons in Hall as [Hp _].
  rewrite <- Heq, <- writelines_fold.
  cbn [map concat]. unfold page_block at 1 3.
  by rewrite (page_text_kept st p Hp).
Qed.

(** C7.  The combine pass writes, for the pages of the range that are
    not skipped, taken in strictly increasing page order, the line
    [--- Page N ---], the text read from the artifact of the page and
    an empty line, one page after the other, and nothing else; it
    writes no file when every page is skipped.  Two runs that differ
    only in the order in which their workers complete leave the same
    directory and write the same combined output, byte for byte (and
    the same reports). *)
Theorem combine_ordered_whatever_the_completion_order :
  (∀ (st : store) (s e : Z),
     combine_text_files st s e
     = match included_pages st s e with
       | [] => None
       | pages => Some (combined_sections st pages)
       end
     ∧ StronglySorted Z.lt (included_pages st s e)
     ∧ ∀ p, p ∈ included_pages st s e ↔ s ≤ p ≤ e ∧ ¬ excluded st p)
  ∧ (∀ (env env' : run_env) (s e : Z) (o : out_dir),
       same_engines env env' → pool_error env = None →
       (process_pdf env s e o).1 = (process_pdf env' s e o).1
       ∧ combine_text_files (process_pdf env s e o).1 s e
         = combine_text_files (process_pdf env' s e o).1 s e
       ∧ reports_of (process_pdf env s e o) = reports_of (process_pdf env' s e o)).
Proof.
  split.
  - intros st s e. split; [apply combine_text_files_sections|].
    split; [apply StronglySorted_filter, py_range_sorted|].
    intros p. apply included_pages_elem.
  - intros env env' s e o (Hpool & Hpages & Hspacy) Hnone.
    assert (pool_error env' = None) as Hnone' by congruence.
    assert ((process_pdf env s e o).1 = (process_pdf env' s e o).1) as Hst.
    { rewrite !process_pdf_store by done. by rewrite Hpages. }
    split; [done|]. split; [by rewrite Hst|].
    rewrite !process_pdf_reports by done. by rewrite Hpages, Hspacy.
Qed.

Lemma combine_ordered_whatever_the_completion_order_witness :
  same_engines good_run good_run_in_order
  ∧ pool_error good_run = None
  ∧ included_pages (process_pdf good_run 1 3 page1_done).1 1 3 = [1; 2; 3]
  ∧ combine_text_files (process_pdf good_run 1 3 page1_done).1 1 3
    = Some ("--- Page 1 ---" +:+ String "010" "First page"
            +:+ String "010" (String "010" "--- Page 2 ---")
            +:+ String "010" "Some text"
            +:+ String "010" (String "010" "--- Page 3 ---")
            +:+ String "010" "Some text"
            +:+ String "010" (String "010" EmptyString))
  ∧ (process_pdf good_run 1 3 page1_done).1
    = (process_pdf good_run_in_order 1 3 page1_done).1
  ∧ combine_text_files (process_pdf good_run 1 3 page1_done).1 1 3
    = combine_text_files (process_pdf good_run_in_order 1 3 page1_done).1 1 3
  ∧ reports_of (process_pdf good_run 1 3 page1_done)
    = reports_of (process_pdf good_run_in_order 1 3 page1_done).
Proof.
  split; [repeat split|]. split; [reflexivity|].
  split; [vm_compute; reflexivity|]. split.
  - rewrite (proj1 (proj1 combine_ordered_whatever_the_completion_order
                      (process_pdf good_run 1 3 page1_done).1 1 3)).
    vm_compute. reflexivity.
  - apply (proj2 combine_ordered_whatever_the_completion_order
             good_run good_run_in_order 1 3 page1_done).
    + repeat split.
    + reflexivity.
Defined.

Example combine_three_pages :
  combine_text_files (process_pdf good_run 1 3 page1_done).1 1 3
  = Some ("--- Page 1 ---" +:+ nl +:+ "First page" +:+ nl +:+ nl
          +:+ "--- Page 2 ---" +:+ nl +:+ "Some text" +:+ nl +:+ nl
          +:+ "--- Page 3 ---" +:+ nl +:+ "Some text" +:+ nl +:+ nl).
Proof. vm_compute. reflexivity. Qed.

(** The passes read the artifacts in text mode: a carriage return
    followed by a line feed, and a carriage return alone, both come
    back as one line feed, and so they stand in the combined output. *)
Example combine_reads_line_ends :
  read_page carriage_store 1
  = Some (Text ("one" +:+ nl +:+ "two" +:+ nl +:+ "three"))
  ∧ combine_text_files carriage_store 1 1
    = Some ("--- Page 1 ---" +:+ nl
            +:+ "one" +:+ nl +:+ "two" +:+ nl +:+ "three" +:+ nl +:+ nl).
Proof. split; vm_compute; reflexivity. Qed.

Lemma dict_get_update {K V : Type} `{EqDecision K} (dflt : V) (f : V → V)
    (k k' : K) (d : list (K * V)) :
  dict_get (dict_update dflt f k d) k'
  = if decide (k = k') then Some (f (default dflt (dict_get d k)))
    else dict_get d k'.
Proof.
  induction d as [|[k0 v] d IH]; simpl.
  - by destruct (decide (k = k')).
  - destruct (decide (k0 = k)) as [->|Hne]; simpl.
    + by destruct (decide (k = k')).
    + rewrite IH. destruct (decide (k = k')) as [->|Hne'].
      * by rewrite decide_False by done.
      * done.
Qed.

Lemma count_fold_pages (st : store) (l : list Z) (acc : word_stats) (p : Z) :
  is_Some (dict_get (page_word_counts (fold_left (count_page st) l acc)) p)
  ↔ is_Some (dict_get (page_word_counts acc) p)
    ∨ (p ∈ l ∧ is_excluded st p = false).
Proof.
  revert acc. induction l as [|q l IH]; intros acc; simpl.
  - split; [by left|]. intros [H|[H _]]; [done|]. by apply elem_of_nil in H.
  - rewrite IH, count_page_eq, elem_of_cons. unfold is_excluded at 2.
    destruct (page_text st q) as [content|] eqn:Hq; simpl.
    + unfold dict_set. rewrite dict_get_update.
      destruct (decide (q = p)) as [->|Hne].
      * unfold is_excluded. rewrite Hq. split; [|by eauto].
        intros _. right. by split; [left|].
      * split; [intros [H|[H1 H2]]; [by left | right; by split; [right|]]|].
        intros [H|[[->|H1] H2]]; [by left | done | by right].
    + split; [intros [H|[H1 H2]]; [by left | right; by split; [right|]]|].
      intros [H|[[->|H1] H2]]; [by left | | by right].
      unfold is_excluded in H2. by rewrite Hq in H2.
Qed.

Lemma fold_left_ext {A B : Type} (f g : A → B → A) (l : list B) (a : A) :
  (∀ a b, f a b = g a b) → fold_left f l a = fold_left g l a.
Proof.
  intros H. revert a. induction l as [|b l IH]; intros a; simpl; [done|].
  by rewrite H, IH.
Qed.

Lemma marker_contains_words (msg : string) :
  py_in "OCR FAILED" (failure_marker +:+ msg) = true.
Proof. reflexivity. Qed.



Lemma read_page_written (st : store) (p : Z) (t : string) :
  text_files st !! txt_name p = Some (Text t) →
  read_page st p = Some (Text (universal_newlines t)).
Proof. intros H. unfold read_page. by rewrite H. Qed.

Lemma marker_read_contains_words (msg : string) :
  py_in "OCR FAILED" (universal_newlines (failure_marker +:+ msg)) = true.
Proof. reflexivity. Qed.

(** C6 (the code departs from the claim).  Each of the three passes
    excludes a page of the range exactly when its text artifact is
    missing, cannot be read, or holds the words OCR FAILED anywhere in
    the text read from it, where the claim has the text begin with the
    marker: the combine pass lists exactly those pages as skipped, the
    word pass counts words for exactly the others, and the entity pass
    gives the recognizer the text of exactly the others.  Every failure
    marker the worker writes holds those words, so a failed page is
    excluded; a page the worker recognized holds its stripped text, and
    is excluded exactly when that text holds the words, although it did
    not fail. *)
Theorem passes_exclude_by_containment (st : store) (s e p : Z) :
  (p ∈ (combine_loop st s e).2 ↔ s ≤ p ≤ e ∧ excluded st p)
  ∧ (is_Some (dict_get (page_word_counts (count_loop st s e)) p)
     ↔ s ≤ p ≤ e ∧ ¬ excluded st p)
  ∧ (p ∈ included_pages st s e ↔ s ≤ p ≤ e ∧ ¬ excluded st p)
  ∧ (∀ nlp : nlp_model,
       names_loop nlp st s e
       = fold_left (λ d q, match page_text st q with
                           | Some content => names_text nlp q content d
                           | None => d
                           end) (included_pages st s e) [])
  ∧ (∀ msg : string, excluded (write_txt (txt_name p) (failure_marker +:+ msg) st) p)
  ∧ (∀ content : string,
       read_page st p = Some (Text content) →
       (excluded st p ↔ py_in "OCR FAILED" content = true))
  ∧ (∀ (env : page_env) (text : string),
       already_done st p = false → render env = Ok tt → ocr env = Ok text →
       read_page (process_page_task env (p - 1) st).1 p
       = Some (Text (universal_newlines (py_strip text)))).
Proof.
  assert (∀ q, is_excluded st q = false ↔ ¬ excluded st q) as Hfalse.
  { intros q. rewrite <- is_excluded_true. by destruct (is_excluded st q). }
  assert (p ∈ py_range s (e + 1) ↔ s ≤ p ≤ e) as Hrange.
  { rewrite py_range_elem. lia. }
  split; [|split; [|split; [|split; [|split; [|split]]]]].
  - unfold combine_loop. rewrite combine_fold. simpl.
    rewrite list_elem_of_In, filter_In, <- list_elem_of_In, Hrange.
    by rewrite is_excluded_true.
  - unfold count_loop. rewrite count_fold_pages. simpl.
    rewrite Hrange, Hfalse. split; [|by right].
    intros [[x Hx]|H]; done.
  - unfold included_pages.
    rewrite list_elem_of_In, filter_In, <- list_elem_of_In, Hrange.
    rewrite <- Hfalse. destruct (is_excluded st p); simpl; intuition congruence.
  - intros nlp. unfold names_loop, included_pages.
    rewrite <- (fold_included st (λ q content d, names_text nlp q content d)).
    apply fold_left_ext. intros d q. apply names_page_eq.
  - intros msg. right. right.
    exists (universal_newlines (failure_marker +:+ msg)). split.
    + apply read_page_written. unfold write_txt. simpl. apply lookup_insert_eq.
    + apply marker_read_contains_words.
  - intros content Hread. unfold excluded. rewrite Hread. split.
    + intros [H|[H|(c & [= <-] & Hc)]]; done.
    + intros Hc. right. right. by exists content.
  - intros env text Hdone Hrender Hocr.
    rewrite process_page_task_unfold. replace (p - 1 + 1) with p by lia.
    rewrite Hdone. unfold fresh_outcome. rewrite Hrender, Hocr.
    apply read_page_written. unfold apply_outcome. simpl. apply lookup_insert_eq.
Qed.

(** C6, the failing input.  The recognition of the page succeeds and
    its text is stored, readable, and does not begin with the marker;
    yet the text holds the words OCR FAILED, and the passes, whose test
    the code introduces as a check that the page failed, exclude the
    page. *)
Lemma quoting_page_is_excluded :
  (process_page_task quoting_page 0 (Store ∅ ∅)).2 = Returned true 1 None
  ∧ read_page quoting_store 1
    = Some (Text "Scanner log: OCR FAILED twice, then passed.")
  ∧ ¬ excluded_by_prefix quoting_store 1
  ∧ (combine_loop quoting_store 1 1).2 = [1]
  ∧ combine_text_files quoting_store 1 1 = None
  ∧ generate_word_count_csv quoting_store 1 1 = None
  ∧ names_loop sample_nlp quoting_store 1 1 = [].
Proof.
  split; [vm_compute; reflexivity|]. split; [vm_compute; reflexivity|].
  split.
  - intros [H|[H|(content & H & Hc)]]; vm_compute in H; try discriminate.
    injection H as <-. vm_compute in Hc. discriminate.
  - repeat split; vm_compute; reflexivity.
Qed.

(** *** The tokens of the word pass *)








Lemma page_words_elem (content w : string) :
  w ∈ page_words content ↔
  w ∈ findall_words (py_lower content) ∧ 2 < Z.of_nat (String.length w).
Proof.
  unfold page_words. rewrite list_elem_of_In, filter_In, <- list_elem_of_In.
  by rewrite Z.ltb_lt.
Qed.

(** *** The tokens, all of them *)




















(** ** The batch coordinator *)

Lemma process_pdf_raises (env : run_env) (s e : Z) (o : out_dir) :
  (process_pdf env s e o).2
  = match pool_error env with
    | Some exc => Raise exc
    | None => (process_pdf env s e o).2
    end
  ∧ (pool_error env = None → ∃ summary, (process_pdf env s e o).2 = Ok summary).
Proof.
  unfold process_pdf. destruct (pool_error env) as [exc|]; [done|].
  destruct (run_pool _ _ _) as [st' results]. simpl. split; [done|]. eauto.
Qed.

(** The verdict on a document depends on the document alone. *)
Lemma process_single_pdf_result (d : document) (outs : gmap string out_dir) :
  (process_single_pdf d outs).2
  = match doc_error d with
    | Some msg => (false, Some msg)
    | None => (true, None)
    end.
Proof.
  unfold process_single_pdf, doc_error.
  destruct (open_doc d) as [n|e]; [|done].
  destruct (n =? 0); [done|].
  destruct (process_pdf_raises (run d) 1 n
              (read_output (output_dir_name (doc_name d))
                 (mkdir_output (output_dir_name (doc_name d)) outs))) as [Hr Hok].
  destruct (process_pdf _ _ _ _) as [st r]. simpl in *.
  destruct (pool_error (run d)) as [exc|].
  - by rewrite Hr.
  - destruct Hok as [summary ->]; done.
Qed.

Lemma read_output_mkdir (dir : string) (outs : gmap string out_dir) :
  read_output dir (mkdir_output dir outs) = read_output dir outs.
Proof.
  unfold read_output, mkdir_output.
  destruct (outs !! dir) as [o|] eqn:Ho; [by rewrite Ho|].
  by rewrite lookup_insert_eq.
Qed.

Lemma mkdir_output_other (dir k : string) (outs : gmap string out_dir) :
  k ≠ dir → mkdir_output dir outs !! k = outs !! k.
Proof.
  intros Hne. unfold mkdir_output.
  destruct (outs !! dir); [done|]. by apply lookup_insert_ne.
Qed.

(** A document writes under its own output directory only. *)
Lemma process_single_pdf_other (d : document) (outs : gmap string out_dir)
    (k : string) :
  k ≠ output_dir_name (doc_name d) →
  (process_single_pdf d outs).1 !! k = outs !! k.
Proof.
  intros Hne. unfold process_single_pdf.
  destruct (open_doc d) as [n|e]; simpl; [|by apply mkdir_output_other].
  destruct (n =? 0); simpl; [by apply mkdir_output_other|].
  destruct (process_pdf _ _ _ _) as [st r].
  destruct r; simpl; (rewrite lookup_insert_ne by done); by apply mkdir_output_other.
Qed.

(** A document that opens with pages leaves, under its output
    directory, what its run of the pipeline leaves. *)
Lemma process_single_pdf_own (d : document) (outs : gmap string out_dir) (n : Z) :
  open_doc d = Ok n → n ≠ 0 →
  (process_single_pdf d outs).1 !! output_dir_name (doc_name d)
  = Some (on_disk (process_pdf (run d) 1 n
                     (read_output (output_dir_name (doc_name d)) outs)).1).
Proof.
  intros Hopen Hn. unfold process_single_pdf. rewrite Hopen.
  rewrite (proj2 (Z.eqb_neq n 0)) by done. rewrite read_output_mkdir.
  destruct (process_pdf _ _ _ _) as [st r].
  destruct r; simpl; by rewrite lookup_insert_eq.
Qed.

(** A task removes no text artifact, and leaves one for its page. *)
Lemma task_store_keeps_txt (pages : Z → page_env) (st : store) (q : Z)
    (name : string) :
  is_Some (text_files st !! name) →
  is_Some (text_files (task_store pages st q) !! name).
Proof.
  intros H. unfold task_store. rewrite process_page_task_unfold.
  destruct (already_done st (q + 1)); [done|]. simpl.
  rewrite lookup_insert_is_Some. destruct (decide (txt_name (q + 1) = name)); auto.
Qed.

Lemma task_store_writes_txt (pages : Z → page_env) (st : store) (q : Z) :
  is_Some (text_files (task_store pages st q) !! txt_name (q + 1)).
Proof.
  unfold task_store. rewrite process_page_task_unfold.
  destruct (already_done st (q + 1)) eqn:Hdone; simpl.
  - unfold already_done, txt_exists in Hdone.
    apply andb_true_iff in Hdone as [_ H]. by apply bool_decide_eq_true in H.
  - rewrite lookup_insert_eq. by eexists.
Qed.

Lemma pool_keeps_txt (pages : Z → page_env) (l : list Z) (st : store)
    (name : string) :
  is_Some (text_files st !! name) →
  is_Some (text_files (fold_left (task_store pages) l st) !! name).
Proof.
  revert st. induction l as [|q l IH]; intros st H; simpl; [done|].
  by apply IH, task_store_keeps_txt.
Qed.

Lemma pool_writes_txt (pages : Z → page_env) (l : list Z) (st : store) (p : Z) :
  p ∈ l →
  is_Some (text_files (fold_left (task_store pages) l st) !! txt_name (p + 1)).
Proof.
  revert st. induction l as [|q l IH]; intros st Hp; simpl.
  - by apply elem_of_nil in Hp.
  - apply elem_of_cons in Hp as [->|Hp]; [|by apply IH].
    apply pool_keeps_txt, task_store_writes_txt.
Qed.

Lemma process_pdf_store_any (env : run_env) (s e : Z) (o : out_dir) :
  (process_pdf env s e o).1
  = match pool_error env with
    | Some _ => mkdirs o
    | None => fold_left (task_store (page_envs env)) (submitted s e) (mkdirs o)
    end.
Proof.
  destruct (pool_error env) as [exc|] eqn:Hpool.
  - unfold process_pdf. by rewrite Hpool.
  - by apply process_pdf_store.
Qed.

(** A run of the pipeline removes no text artifact, and when its pool
    starts it leaves one for every page of its range. *)
Lemma process_pdf_keeps_txt (env : run_env) (s e : Z) (o : out_dir)
    (m : gmap string txt_file) (name : string) :
  txt_dir o = Some m → is_Some (m !! name) →
  is_Some (text_files (process_pdf env s e o).1 !! name).
Proof.
  intros Hm Hname. rewrite process_pdf_store_any.
  assert (is_Some (text_files (mkdirs o) !! name)) as H.
  { unfold mkdirs. simpl. by rewrite Hm. }
  destruct (pool_error env); [done|]. by apply pool_keeps_txt.
Qed.

Lemma process_pdf_writes_txt (env : run_env) (s e page : Z) (o : out_dir) :
  pool_error env = None → s ≤ page ≤ e →
  is_Some (text_files (process_pdf env s e o).1 !! txt_name page).
Proof.
  intros Hpool Hpage. rewrite process_pdf_store by done.
  replace page with ((page - 1) + 1) by lia. apply pool_writes_txt.
  apply py_range_elem. lia.
Qed.

Lemma process_single_pdf_keeps (d : document) (outs : gmap string out_dir)
    (dir name : string) :
  has_text outs dir name → has_text (process_single_pdf d outs).1 dir name.
Proof.
  intros (o & m & Ho & Hm & Hname).
  destruct (decide (dir = output_dir_name (doc_name d))) as [->|Hne].
  - assert (mkdir_output (output_dir_name (doc_name d)) outs
            !! output_dir_name (doc_name d) = Some o) as Hmk.
    { unfold mkdir_output. by rewrite Ho. }
    unfold process_single_pdf.
    destruct (open_doc d) as [n|exc]; simpl; [|by exists o, m].
    destruct (n =? 0); simpl; [by exists o, m|].
    rewrite read_output_mkdir. unfold read_output at 1. rewrite Ho. simpl.
    pose proof (process_pdf_keeps_txt (run d) 1 n o m name Hm Hname) as Hkeep.
    destruct (process_pdf (run d) 1 n o) as [st r]. simpl in Hkeep.
    exists (on_disk st), (text_files st).
    destruct r; simpl; by rewrite lookup_insert_eq.
  - exists o, m. by rewrite process_single_pdf_other.
Qed.

Lemma process_single_pdf_writes (d : document) (outs : gmap string out_dir)
    (n page : Z) :
  open_doc d = Ok n → n ≠ 0 → pool_error (run d) = None → 1 ≤ page ≤ n →
  has_text (process_single_pdf d outs).1 (output_dir_name (doc_name d))
           (txt_name page).
Proof.
  intros Hopen Hn Hpool Hpage.
  eexists _, _. split; [by apply process_single_pdf_own|]. simpl.
  split; [done|]. by apply process_pdf_writes_txt.
Qed.

Lemma process_document_eq (s : batch_state) (results : batch_results)
    (d : document) :
  process_document (s, results) d
  = if doc_ok d then
      (BatchState (process_single_pdf d (outputs s)).1 (error_log s),
       BatchResults (successful results ++ [doc_name d]) (failed results))
    else
      (BatchState (process_single_pdf d (outputs s)).1
                  (error_log s +:+ doc_block d),
       BatchResults (successful results)
                    (failed results ++ [(doc_name d, doc_error d)])).
Proof.
  unfold process_document, doc_ok, doc_block, log_error_to_file.
  pose proof (process_single_pdf_result d (outputs s)) as Hr.
  destruct (process_single_pdf d (outputs s)) as [outs [success error_msg]].
  simpl in *. destruct (doc_error d) as [msg|]; by injection Hr as -> ->.
Qed.

(** The results and the log after the loop over the documents. *)
Lemma batch_fold (docs : list document) (s : batch_state) (results : batch_results) :
  successful (fold_left process_document docs (s, results)).2
  = successful results ++ map doc_name (List.filter doc_ok docs)
  ∧ failed (fold_left process_document docs (s, results)).2
    = failed results
      ++ map (λ d, (doc_name d, doc_error d))
             (List.filter (λ d, negb (doc_ok d)) docs)
  ∧ error_log (fold_left process_document docs (s, results)).1
    = error_log s
      +:+ concat_str (map doc_block (List.filter (λ d, negb (doc_ok d)) docs)).
Proof.
  revert s results. induction docs as [|d docs IH]; intros s results.
  - cbn. by rewrite !app_nil_r, append_empty_r.
  - cbn [fold_left List.filter]. rewrite process_document_eq.
    destruct (doc_ok d); cbn [negb map].
    + destruct (IH (BatchState (process_single_pdf d (outputs s)).1 (error_log s))
                   (BatchResults (successful results ++ [doc_name d]) (failed results)))
        as (-> & -> & ->). cbn [successful failed error_log].
      by rewrite <- app_assoc.
    + destruct (IH (BatchState (process_single_pdf d (outputs s)).1
                               (error_log s +:+ doc_block d))
                   (BatchResults (successful results)
                                 (failed results ++ [(doc_name d, doc_error d)])))
        as (-> & -> & ->). cbn [successful failed error_log concat_str fold_right].
      by rewrite <- app_assoc, append_assoc'.
Qed.

Lemma process_directory_eq (files : list document) (s : batch_state) :
  pdf_files files ≠ [] →
  process_directory files s
  = ((fold_left process_document (pdf_files files) (s, BatchResults [] [])).1,
     Some (fold_left process_document (pdf_files files) (s, BatchResults [] [])).2).
Proof.
  intros Hne. unfold process_directory.
  destruct (pdf_files files) as [|d docs]; [done|].
  by destruct (fold_left process_document (d :: docs) (s, BatchResults [] [])).
Qed.

Lemma doc_ok_healthy (d : document) (n : Z) :
  open_doc d = Ok n → n ≠ 0 → pool_error (run d) = None →
  doc_error d = None ∧ doc_ok d = true.
Proof.
  intros Hopen Hn Hpool. unfold doc_ok, doc_error.
  by rewrite Hopen, (proj2 (Z.eqb_neq n 0)), Hpool.
Qed.

Lemma doc_ok_corrupt (d : document) (e : py_exception) :
  open_doc d = Raise e → doc_error d = Some (exc_repr e) ∧ doc_ok d = false.
Proof. intros Hopen. unfold doc_ok, doc_error. by rewrite Hopen. Qed.

(** *** The listing of the directory *)

Lemma insert_by_name_Permutation (d : document) (l : list document) :
  insert_by_name d l ≡ₚ d :: l.
Proof.
  induction l as [|d' l IH]; simpl; [done|].
  destruct (String.leb _ _); [|done]. by rewrite IH, Permutation_swap.
Qed.

Lemma sorted_by_name_Permutation (l : list document) : sorted_by_name l ≡ₚ l.
Proof.
  unfold sorted_by_name.
  assert (∀ acc, fold_left (λ acc d, insert_by_name d acc) l acc ≡ₚ acc ++ l) as H.
  { induction l as [|d l IH]; intros acc; simpl.
    - by rewrite app_nil_r.
    - rewrite IH, insert_by_name_Permutation. simpl. apply Permutation_middle. }
  by rewrite H.
Qed.

Lemma prefix_first (a b : ascii) (s t r : string) :
  String.prefix (String a s) r = true → String.prefix (String b t) r = true →
  a = b.
Proof.
  destruct r as [|c r]; simpl; [done|].
  destruct (ascii_dec a c) as [->|]; [|done].
  destruct (ascii_dec b c) as [->|]; done.
Qed.

(** No name matches both patterns. *)
Lemma glob_patterns_disjoint (name : string) :
  endswith name ".pdf" = true → endswith name ".PDF" = true → False.
Proof.
  unfold endswith. intros H1 H2.
  by pose proof (prefix_first _ _ _ _ _ H1 H2).
Qed.

Lemma glob_both (files : list document) :
  glob ".pdf" files ++ glob ".PDF" files ≡ₚ List.filter is_pdf_name files.
Proof.
  unfold glob, is_pdf_name. induction files as [|d files IH]; simpl; [done|].
  destruct (endswith (doc_name d) ".pdf") eqn:H1,
           (endswith (doc_name d) ".PDF") eqn:H2; simpl.
  - by destruct (glob_patterns_disjoint _ H1 H2).
  - by rewrite IH.
  - by rewrite <- Permutation_middle, IH.
  - done.
Qed.

(** The batch goes once through each file with the name of a PDF. *)
Lemma pdf_files_Permutation (files : list document) :
  pdf_files files ≡ₚ List.filter is_pdf_name files.
Proof. unfold pdf_files. by rewrite sorted_by_name_Permutation, glob_both. Qed.

(** The results and the log of a batch over a listing with PDFs. *)
Lemma process_directory_results (files : list document) (s : batch_state) :
  pdf_files files ≠ [] →
  ∃ s' results,
    process_directory files s = (s', Some results)
    ∧ successful results = map doc_name (List.filter doc_ok (pdf_files files))
    ∧ failed results
      = map (λ d, (doc_name d, doc_error d))
            (List.filter (λ d, negb (doc_ok d)) (pdf_files files))
    ∧ error_log s'
      = error_log s
        +:+ concat_str (map doc_block
              (List.filter (λ d, negb (doc_ok d)) (pdf_files files))).
Proof.
  intros Hne. rewrite process_directory_eq by done.
  eexists _, _. split; [reflexivity|].
  destruct (batch_fold (pdf_files files) s (BatchResults [] [])) as (H1 & H2 & H3).
  by rewrite H1, H2, H3.
Qed.

(** C10 (as amended).  A document that opens with at least one page
    and whose run of the pipeline raises nothing is recorded as
    successful, whatever becomes of its pages: also when every page
    fails, so that the run counts no success and as many failures as
    there are pages. *)
Theorem page_failures_do_not_fail_the_document (d : document)
    (outs : gmap string out_dir) (n : Z) :
  open_doc d = Ok n → n ≠ 0 → pool_error (run d) = None →
  (process_single_pdf d outs).2 = (true, None)
  ∧ (∀ (files : list document) (s : batch_state),
       pdf_files files ≠ [] → d ∈ pdf_files files →
       ∃ s' results, process_directory files s = (s', Some results)
                     ∧ doc_name d ∈ successful results)
  ∧ (∀ o : out_dir,
       (∀ p, p ∈ submitted 1 n → is_failed (page_envs (run d)) (mkdirs o) p = true) →
       ∃ t, tally_of (process_pdf (run d) 1 n o) = Some t
            ∧ success_count t = 0
            ∧ failure_count t = Z.of_nat (length (submitted 1 n))).
Proof.
  intros Hopen Hn Hpool.
  destruct (doc_ok_healthy d n Hopen Hn Hpool) as [Herr Hok].
  split; [|split].
  - by rewrite process_single_pdf_result, Herr.
  - intros files s Hne Hd.
    destruct (process_directory_results files s Hne)
      as (s' & results & Hrun & Hs & _).
    exists s', results. split; [done|]. rewrite Hs.
    apply list_elem_of_fmap. exists d. split; [done|].
    apply list_elem_of_In, filter_In. split; [by apply list_elem_of_In | done].
  - intros o Hall.
    destruct (process_pdf_counts (run d) 1 n o Hpool) as (t & Ht & Hs & Hf).
    exists t. split; [done|].
    pose proof (page_states_partition (page_envs (run d)) (mkdirs o) (submitted 1 n)).
    assert (count_if (is_failed (page_envs (run d)) (mkdirs o)) (submitted 1 n)
            = Z.of_nat (length (submitted 1 n))) as Hfailed.
    { rewrite (count_if_ext _ (λ _, true)) by done. apply count_if_all. }
    pose proof (count_if_nonneg (is_skipped (mkdirs o)) (submitted 1 n)).
    pose proof (count_if_nonneg (is_newly_processed (page_envs (run d)) (mkdirs o))
                                (submitted 1 n)).
    lia.
Qed.

Lemma page_failures_do_not_fail_the_document_witness :
  open_doc unreadable_scan = Ok 2
  ∧ pool_error (run unreadable_scan) = None
  ∧ (process_single_pdf unreadable_scan ∅).2 = (true, None)
  ∧ tally_of (process_pdf (run unreadable_scan) 1 2 (OutDir None None))
    = Some (Tally 0 2 ["Page 0002: OCR failed: TesseractError: no text layer";
                       "Page 0001: OCR failed: TesseractError: no text layer"]).
Proof.
  split; [reflexivity|]. split; [reflexivity|].
  split; [|vm_compute; reflexivity].
  assert (2 ≠ 0) as Hpages by lia.
  exact (proj1 (page_failures_do_not_fail_the_document unreadable_scan ∅ 2
                  eq_refl Hpages eq_refl)).
Defined.

(** C10, the claim as stated fails.  A document without pages is
    opened, nothing raises, and it is recorded as failed. *)
Lemma empty_document_fails_without_exception :
  open_doc empty_pdf = Ok 0
  ∧ pool_error (run empty_pdf) = None
  ∧ (process_single_pdf empty_pdf ∅).2 = (false, Some "PDF contains 0 pages")
  ∧ (process_directory [empty_pdf] nothing_yet).2
    = Some (BatchResults [] [("empty.pdf", Some "PDF contains 0 pages")]).
Proof. repeat split; vm_compute; reflexivity. Qed.

(** ** The command line *)

(** C5 (as amended).  The command line exits with status 1 when the
    input path does not exist, is neither a file nor a directory, is a
    file whose suffix is not [.pdf] in any letter case, or is a PDF that
    cannot be opened.  It exits with status 0 for every directory,
    whatever becomes of its documents, and for every single PDF of at
    least one page for which the menu selects a range and the run of the
    pipeline raises nothing, whatever becomes of its pages.  When the
    menu ends the run itself, the status is the one the menu gives. *)
Theorem exit_status_of_setup_and_run (w : cli_env) :
  (path w = NoSuchPath → (setup_and_run w).1 = 1)
  ∧ (path w = OtherPath → (setup_and_run w).1 = 1)
  ∧ (∀ d, path w = RegularFile d →
          py_lower (py_suffix (doc_name d)) ≠ ".pdf" →
          (setup_and_run w).1 = 1)
  ∧ (∀ d e, path w = RegularFile d →
            py_lower (py_suffix (doc_name d)) = ".pdf" →
            open_doc d = Raise e →
            (setup_and_run w).1 = 1)
  ∧ (∀ files, path w = Directory files → (setup_and_run w).1 = 0)
  ∧ (∀ d n last_page s e,
       path w = RegularFile d →
       py_lower (py_suffix (doc_name d)) = ".pdf" →
       open_doc d = Ok n → 0 < n →
       get_last_processed_page
         (read_output (output_dir_name (doc_name d))
            (mkdir_output (output_dir_name (doc_name d)) (outputs (disk w))))
       = Ok last_page →
       select_pages n last_page (stdin w) = Selected s e →
       pool_error (run d) = None →
       (setup_and_run w).1 = 0)
  ∧ (∀ d n last_page status,
       path w = RegularFile d →
       py_lower (py_suffix (doc_name d)) = ".pdf" →
       open_doc d = Ok n →
       get_last_processed_page
         (read_output (output_dir_name (doc_name d))
            (mkdir_output (output_dir_name (doc_name d)) (outputs (disk w))))
       = Ok last_page →
       select_pages n last_page (stdin w) = Exit status →
       (setup_and_run w).1 = status).
Proof.
  unfold setup_and_run. repeat apply conj.
  - by intros ->.
  - by intros ->.
  - intros d -> Hsuffix.
    destruct (String.eqb_spec (py_lower (py_suffix (doc_name d))) ".pdf"); done.
  - intros d e -> Hsuffix Hopen. rewrite Hsuffix, Hopen. done.
  - by intros files ->.
  - intros d n last_page s e -> Hsuffix Hopen Hn Hlast Hsel Hpool.
    rewrite Hsuffix, Hopen, Hlast, Hsel. simpl.
    destruct (proj2 (process_pdf_raises (run d) s e
      (read_output (output_dir_name (doc_name d))
         (mkdir_output (output_dir_name (doc_name d)) (outputs (disk w)))))
      Hpool) as [summary Hsum].
    destruct (process_pdf _ _ _ _) as [st r]. simpl in *. by rewrite Hsum.
  - intros d n last_page status -> Hsuffix Hopen Hlast Hsel.
    by rewrite Hsuffix, Hopen, Hlast, Hsel.
Qed.

Lemma exit_status_of_setup_and_run_witness :
  path failing_pages_run = RegularFile unreadable_scan
  ∧ open_doc unreadable_scan = Ok 2
  ∧ select_pages 2 0 (stdin failing_pages_run) = Selected 1 2
  ∧ tally_of (process_pdf (run unreadable_scan) 1 2 (OutDir None None))
    = Some (Tally 0 2 ["Page 0002: OCR failed: TesseractError: no text layer";
                       "Page 0001: OCR failed: TesseractError: no text layer"])
  ∧ (setup_and_run failing_pages_run).1 = 0.
Proof.
  split; [reflexivity|]. split; [reflexivity|].
  split; [vm_compute; reflexivity|]. split; [vm_compute; reflexivity|].
  assert (0 < 2) as Hpages by lia.
  refine (proj1 (proj2 (proj2 (proj2 (proj2 (proj2
            (exit_status_of_setup_and_run failing_pages_run))))))
            unreadable_scan 2 0 1 2 eq_refl _ eq_refl Hpages _ _ eq_refl);
    vm_compute; reflexivity.
Defined.

(** C5, the claim as stated fails.  A PDF without pages given as the
    input, the user asking for all pages, and a directory that holds
    such a PDF: the process exits with status 0 both times. *)
Lemma zero_page_document_exits_zero :
  open_doc empty_pdf = Ok 0
  ∧ (setup_and_run empty_file_run).1 = 0
  ∧ (setup_and_run empty_batch_run).1 = 0
  ∧ (process_directory [empty_pdf] nothing_yet).2
    = Some (BatchResults [] [("empty.pdf", Some "PDF contains 0 pages")]).
Proof. repeat split; vm_compute; reflexivity. Qed.

(** * Further properties *)

(** ** Artifact names *)

(** X1.  The two artifact names of a page are functions of its index
    that tell pages apart, and are at least four digits wide; for an
    index that is not negative, the resume query reads the index back
    from the image name and finds the text name from it. *)
Theorem page_names_read_back (p q : Z) :
  0 ≤ p →
  (png_name p = png_name q → p = q)
  ∧ (txt_name p = txt_name q → p = q)
  ∧ (4 ≤ String.length (fmt04d p))%nat
  ∧ py_suffix (png_name p) = ".png"
  ∧ py_isdigit (py_stem (png_name p)) = true
  ∧ py_int (py_stem (png_name p)) = Ok p
  ∧ py_stem (png_name p) +:+ ".txt" = txt_name p.
Proof.
  intros Hp. destruct (fmt04d_no_dot p Hp) as [Hdot Hne].
  destruct (png_name_parts (fmt04d p) Hdot Hne) as [Hsuffix Hstem].
  unfold png_name at 3 4 5 6. rewrite Hsuffix, Hstem.
  split; [apply png_name_inj|]. split; [apply txt_name_inj|].
  split; [rewrite string_length_chars; by destruct (fmt04d_digits p Hp)|].
  split; [done|]. split; [by apply py_isdigit_fmt04d|].
  split; [by apply py_int_fmt04d | done].
Qed.

Lemma page_names_read_back_witness :
  0 ≤ 7
  ∧ (png_name 7 = png_name 12 → 7 = 12)
  ∧ (txt_name 7 = txt_name 12 → 7 = 12)
  ∧ (4 ≤ String.length (fmt04d 7))%nat
  ∧ py_suffix (png_name 7) = ".png"
  ∧ py_isdigit (py_stem (png_name 7)) = true
  ∧ py_int (py_stem (png_name 7)) = Ok 7
  ∧ py_stem (png_name 7) +:+ ".txt" = txt_name 7.
Proof.
  assert (0 ≤ 7) as H by lia. split; [exact H|].
  exact (page_names_read_back 7 12 H).
Defined.

(** ** The page worker, once more *)

(** X2.  Whatever the engines do, the worker leaves a text artifact
    for its page.  When it reports a success both artifacts of the page
    exist; when it reports a failure the text artifact is the failure
    marker followed by the message it returns, and that message names
    the exception the rasterizer or the recognizer raised. *)
Theorem worker_leaves_page_artifacts (env : page_env) (page_num : Z) (st : store) :
  is_Some (text_files (process_page_task env page_num st).1
             !! txt_name (page_num + 1))
  ∧ ((process_page_task env page_num st).2 = Returned true (page_num + 1) None →
     already_done (process_page_task env page_num st).1 (page_num + 1) = true)
  ∧ (∀ b idx msg,
       (process_page_task env page_num st).2 = Returned b idx (Some msg) →
       b = false ∧ idx = page_num + 1
       ∧ text_files (process_page_task env page_num st).1 !! txt_name (page_num + 1)
         = Some (Text (failure_marker +:+ msg))
       ∧ ∃ e, msg = "OCR failed: " +:+ exc_repr e
              ∧ (render env = Raise e ∨ ocr env = Raise e)).
Proof.
  split; [apply (task_store_writes_txt (λ _, env) st page_num)|].
  rewrite process_page_task_unfold. unfold fresh_outcome, apply_outcome.
  destruct (already_done st (page_num + 1)) eqn:Hdone; simpl; [by split|].
  destruct (render env) as [[]|e] eqn:Hr; [destruct (ocr env) as [text|e] eqn:Ho|];
    simpl; (split; [|intros b idx msg [= <- <- <-] || (intros b idx msg; done)]).
  - intros _. unfold already_done, png_exists, txt_exists. simpl.
    rewrite lookup_insert_eq.
    rewrite !bool_decide_eq_true_2; [done | by eexists |].
    apply elem_of_union. left. by apply elem_of_singleton.
  - done.
  - rewrite lookup_insert_eq. repeat split; eauto.
  - done.
  - rewrite lookup_insert_eq. repeat split; eauto.
Qed.

Lemma process_page_task_frame (env : page_env) (q : Z) (st : store)
    (name : string) :
  (name ≠ txt_name (q + 1) →
   text_files (process_page_task env q st).1 !! name = text_files st !! name)
  ∧ (name ≠ png_name (q + 1) →
     (name ∈ png_images (process_page_task env q st).1 ↔ name ∈ png_images st))
  ∧ (name ∈ png_images st → name ∈ png_images (process_page_task env q st).1)
  ∧ (is_Some (text_files st !! name) →
     is_Some (text_files (process_page_task env q st).1 !! name)).
Proof.
  rewrite process_page_task_unfold.
  destruct (already_done st (q + 1)); [done|]. unfold apply_outcome. simpl.
  split; [|split; [|split]].
  - intros Hne. by apply lookup_insert_ne.
  - intros Hne. rewrite elem_of_union. split; [|by right].
    intros [H%fresh_outcome_png|H]; done.
  - intros H. apply elem_of_union. by right.
  - intros H. rewrite lookup_insert_is_Some.
    destruct (decide (txt_name (q + 1) = name)); auto.
Qed.

(** X3.  A task touches the two artifacts of its own page only: every
    other text file keeps its content, every other image name its
    presence, and no file is ever removed. *)
Theorem worker_touches_own_page_only (env : page_env) (q : Z) (st : store)
    (name : string) :
  (name ≠ txt_name (q + 1) →
   text_files (process_page_task env q st).1 !! name = text_files st !! name)
  ∧ (name ≠ png_name (q + 1) →
     (name ∈ png_images (process_page_task env q st).1 ↔ name ∈ png_images st))
  ∧ (name ∈ png_images st → name ∈ png_images (process_page_task env q st).1)
  ∧ (is_Some (text_files st !! name) →
     is_Some (text_files (process_page_task env q st).1 !! name)).
Proof. apply process_page_task_frame. Qed.

(** X4.  A page whose recognition raised after its image was saved is
    complete for every later task: whatever the engines would now do,
    the task returns the success triple at once and the failure marker
    stays in the text artifact. *)
Theorem failed_recognition_is_never_retried (env env' : page_env) (page_num : Z)
    (st : store) (e : py_exception) :
  already_done st (page_num + 1) = false →
  render env = Ok tt → ocr env = Raise e →
  process_page_task env' page_num (process_page_task env page_num st).1
  = ((process_page_task env page_num st).1, Returned true (page_num + 1) None)
  ∧ text_files (process_page_task env page_num st).1 !! txt_name (page_num + 1)
    = Some (Text (failure_marker +:+ "OCR failed: " +:+ exc_repr e)).
Proof.
  intros Hdone Hrender Hocr.
  assert (already_done (process_page_task env page_num st).1 (page_num + 1) = true)
    as Hnow.
  { rewrite process_page_task_unfold, Hdone. unfold fresh_outcome, apply_outcome.
    rewrite Hrender, Hocr. unfold already_done, png_exists, txt_exists. simpl.
    rewrite lookup_insert_eq.
    rewrite !bool_decide_eq_true_2; [done | by eexists |].
    apply elem_of_union. left. by apply elem_of_singleton. }
  split.
  - by rewrite (process_page_task_unfold env'), Hnow.
  - rewrite process_page_task_unfold, Hdone. unfold fresh_outcome, apply_outcome.
    rewrite Hrender, Hocr. simpl. apply lookup_insert_eq.
Qed.

Lemma failed_recognition_is_never_retried_witness :
  already_done page2_pending (1 + 1) = false
  ∧ process_page_task (good_engines 1) 1 (process_page_task (bad_ocr 1) 1 page2_pending).1
    = ((process_page_task (bad_ocr 1) 1 page2_pending).1, Returned true (1 + 1) None)
  ∧ text_files (process_page_task (bad_ocr 1) 1 page2_pending).1 !! txt_name (1 + 1)
    = Some (Text (failure_marker +:+ "OCR failed: "
                  +:+ exc_repr (PyExc "TesseractError" "no text layer"))).
Proof.
  assert (already_done page2_pending (1 + 1) = false) as H
    by (vm_compute; reflexivity).
  split; [exact H|].
  exact (failed_recognition_is_never_retried (bad_ocr 1) (good_engines 1) 1
           page2_pending (PyExc "TesseractError" "no text layer") H eq_refl eq_refl).
Defined.

(** X5.  A page whose rendering raised, no image of it being there, is
    not complete: a later task with engines that succeed processes it,
    replaces the failure marker by the stripped text and saves the image. *)
Theorem failed_rendering_is_retried (env env' : page_env) (page_num : Z)
    (st : store) (e : py_exception) (text : string) :
  png_name (page_num + 1) ∉ png_images st →
  render env = Raise e →
  render env' = Ok tt → ocr env' = Ok text →
  (process_page_task env page_num st).2
  = Returned false (page_num + 1) (Some ("OCR failed: " +:+ exc_repr e))
  ∧ already_done (process_page_task env page_num st).1 (page_num + 1) = false
  ∧ (process_page_task env' page_num (process_page_task env page_num st).1).2
    = Returned true (page_num + 1) None
  ∧ text_files (process_page_task env' page_num (process_page_task env page_num st).1).1
      !! txt_name (page_num + 1)
    = Some (Text (py_strip text))
  ∧ png_name (page_num + 1)
    ∈ png_images (process_page_task env' page_num (process_page_task env page_num st).1).1.
Proof.
  intros Hpng Hrender Hrender' Hocr'.
  assert (already_done st (page_num + 1) = false) as Hdone.
  { unfold already_done, png_exists. by rewrite bool_decide_eq_false_2. }
  assert (already_done (process_page_task env page_num st).1 (page_num + 1) = false)
    as Hstill.
  { rewrite process_page_task_unfold, Hdone. unfold fresh_outcome, apply_outcome.
    rewrite Hrender. unfold already_done, png_exists. simpl.
    rewrite (left_id_L ∅ (∪)). by rewrite bool_decide_eq_false_2. }
  split; [|split; [done|]].
  - rewrite process_page_task_unfold, Hdone. unfold fresh_outcome.
    by rewrite Hrender.
  - rewrite (process_page_task_unfold env'), Hstill. unfold fresh_outcome, apply_outcome.
    rewrite Hrender', Hocr'. simpl. split; [done|].
    split; [apply lookup_insert_eq|].
    apply elem_of_union. left. by apply elem_of_singleton.
Qed.

Lemma failed_rendering_is_retried_witness :
  (png_name (1 + 1) ∉ png_images page2_pending)
  ∧ (process_page_task (PageEnv (Raise (PyExc "RuntimeError" "bad page")) (Ok "x"))
       1 page2_pending).2
    = Returned false (1 + 1) (Some ("OCR failed: " +:+ exc_repr (PyExc "RuntimeError" "bad page")))
  ∧ text_files (process_page_task (good_engines 1) 1
        (process_page_task (PageEnv (Raise (PyExc "RuntimeError" "bad page")) (Ok "x"))
           1 page2_pending).1).1 !! txt_name (1 + 1)
    = Some (Text (py_strip "Some text ")).
Proof.
  assert (png_name (1 + 1) ∉ png_images page2_pending) as H.
  { intros H. vm_compute in H. discriminate H. }
  split; [exact H|].
  destruct (failed_rendering_is_retried
              (PageEnv (Raise (PyExc "RuntimeError" "bad page")) (Ok "x"))
              (good_engines 1) 1 page2_pending (PyExc "RuntimeError" "bad page")
              "Some text " H eq_refl eq_refl eq_refl) as (H1 & _ & _ & H2 & _).
  split; [exact H1 | exact H2].
Defined.

(** ** The loop of the scheduler *)

Lemma tally_fold_messages (rs : list future_result) (t : run_tally) :
  failure_messages (fold_left tally_result rs t)
  = failure_messages t ++ omap reported rs.
Proof.
  revert t. induction rs as [|r rs IH]; intros t; simpl.
  - by rewrite app_nil_r.
  - rewrite IH. destruct r as [[] idx [msg|]|e]; simpl; try done;
      by rewrite <- app_assoc.
Qed.

Lemma tally_all_messages (rs : list future_result) :
  failure_messages (tally_all rs) = omap reported rs.
Proof. apply (tally_fold_messages rs empty_tally). Qed.

Lemma count_classes (rs : list future_result) :
  count_if counts_success rs + count_if counts_failure rs
  + count_if counts_nowhere rs = Z.of_nat (length rs).
Proof.
  induction rs as [|r rs IH]; [done|].
  rewrite !count_if_cons. cbn [length]. rewrite Nat2Z.inj_succ.
  destruct r as [[] idx [msg|]|e]; simpl; lia.
Qed.

Lemma reported_length (rs : list future_result) :
  Z.of_nat (length (omap reported rs)) + count_if is_raised rs
  = count_if counts_failure rs.
Proof.
  induction rs as [|r rs IH]; [done|].
  rewrite !count_if_cons.
  destruct r as [[] idx [msg|]|e]; cbn [omap list_omap reported is_raised counts_failure length];
    try rewrite Nat2Z.inj_succ; simpl; lia.
Qed.

(** X6.  The loop over the completed futures, for any results: every
    result is counted as a success, counted as a failure, or (a success
    that carries a message) counted nowhere; a task that raised counts
    as a failure without a line in the failure report, every other
    failure adds its line in completion order; and the counters do not
    depend on the order of completion. *)
Theorem tally_loop_accounts_for_every_future (rs : list future_result) :
  success_count (tally_all rs) + failure_count (tally_all rs)
  + count_if counts_nowhere rs = Z.of_nat (length rs)
  ∧ failure_messages (tally_all rs) = omap reported rs
  ∧ Z.of_nat (length (failure_messages (tally_all rs))) + count_if is_raised rs
    = failure_count (tally_all rs)
  ∧ (∀ rs', rs ≡ₚ rs' →
       success_count (tally_all rs') = success_count (tally_all rs)
       ∧ failure_count (tally_all rs') = failure_count (tally_all rs)
       ∧ failure_messages (tally_all rs') ≡ₚ failure_messages (tally_all rs)).
Proof.
  destruct (tally_all_counts rs) as [Hs Hf].
  rewrite Hs, Hf, !tally_all_messages.
  split; [apply count_classes|]. split; [done|].
  split; [apply reported_length|].
  intros rs' Hperm. destruct (tally_all_counts rs') as [Hs' Hf'].
  rewrite Hs', Hf', tally_all_messages.
  split; [by apply count_if_permutation|].
  split; [by apply count_if_permutation|].
  by rewrite Hperm.
Qed.

Lemma reported_task_result (pages : Z → page_env) (st : store) (p : Z) :
  reported (task_result pages st p) = failure_line pages st p.
Proof.
  unfold task_result, failure_line. rewrite process_page_task_unfold.
  destruct (already_done st (p + 1)); [done|].
  unfold fresh_outcome, page_error.
  destruct (render (pages p)) as [[]|e]; [destruct (ocr (pages p)) as [text|e]|];
    simpl; try done; by rewrite append_assoc'.
Qed.

Lemma omap_reported_tasks (pages : Z → page_env) (st : store) (l : list Z) :
  omap reported (map (task_result pages st) l) = omap (failure_line pages st) l.
Proof.
  induction l as [|p l IH]; [done|].
  cbn [map omap list_omap]. fold (omap reported (map (task_result pages st) l)).
  fold (omap (failure_line pages st) l).
  by rewrite reported_task_result, IH.
Qed.

Lemma no_task_raises (pages : Z → page_env) (st : store) (l : list Z) :
  count_if is_raised (map (task_result pages st) l) = 0.
Proof.
  induction l as [|p l IH]; [done|].
  cbn [map]. rewrite count_if_cons, IH.
  destruct (process_page_task_returns (pages p) p st) as [H|[msg H]];
    unfold task_result; by rewrite H.
Qed.

(** X7.  The failure report of a run lists the pages that failed, in
    the order their tasks completed, each with its page number in four
    digits and the exception that the rasterizer or the recognizer
    raised; it has one line for each failure counted. *)
Theorem failure_report_lists_failed_pages (env : run_env) (s e : Z) (o : out_dir) :
  pool_error env = None →
  ∃ t, tally_of (process_pdf env s e o) = Some t
    ∧ failure_messages t
      = omap (failure_line (page_envs env) (mkdirs o))
             (as_completed (completion env) (submitted s e))
    ∧ Z.of_nat (length (failure_messages t)) = failure_count t.
Proof.
  intros Hpool.
  destruct (process_pdf_returns env s e o Hpool) as (summary & Heq & Ht).
  exists (tally summary). split; [unfold tally_of; by rewrite Heq|].
  rewrite Ht, tally_all_messages.
  split; [apply omap_reported_tasks|].
  destruct (tally_all_counts
              (map (task_result (page_envs env) (mkdirs o))
                   (as_completed (completion env) (submitted s e)))) as [_ Hf].
  rewrite Hf, <- reported_length.
  rewrite no_task_raises. lia.
Qed.

Lemma failure_report_lists_failed_pages_witness :
  pool_error (run unreadable_scan) = None
  ∧ ∃ t, tally_of (process_pdf (run unreadable_scan) 1 2 (OutDir None None)) = Some t
    ∧ failure_messages t
      = ["Page 0002: OCR failed: TesseractError: no text layer";
         "Page 0001: OCR failed: TesseractError: no text layer"]
    ∧ Z.of_nat (length (failure_messages t)) = failure_count t.
Proof.
  split; [reflexivity|].
  exact (failure_report_lists_failed_pages (run unreadable_scan) 1 2
           (OutDir None None) eq_refl).
Defined.

(** ** Runs of the pipeline *)

Lemma count_if_zero {A : Type} (f : A → bool) (l : list A) :
  count_if f l = 0 ↔ ∀ x, x ∈ l → f x = false.
Proof.
  induction l as [|x l IH].
  - split; [|done]. intros _ y Hy. by apply elem_of_nil in Hy.
  - rewrite count_if_cons. pose proof (count_if_nonneg f l) as Hn. split.
    + intros H y [Heq|Hy]%elem_of_cons.
      * subst y. destruct (f x); [lia | done].
      * apply IH; [|done]. destruct (f x); lia.
    + intros H. rewrite (H x) by apply list_elem_of_here.
      apply IH. intros y Hy. apply H. by apply list_elem_of_further.
Qed.

Lemma page_states_exclusive (pages : Z → page_env) (st : store) (p : Z) :
  is_skipped st p || is_newly_processed pages st p = negb (is_failed pages st p).
Proof.
  unfold is_skipped, is_newly_processed, is_failed.
  destruct (already_done st (p + 1)); [done|]. simpl.
  by destruct (render (pages p)), (ocr (pages p)).
Qed.

Lemma submitted_elem (s e q : Z) : q ∈ submitted s e ↔ s ≤ q + 1 ≤ e.
Proof. unfold submitted. rewrite py_range_elem. lia. Qed.

(** X8.  The aggregation passes run after the pool unless every page
    of the range failed: one page that was skipped or newly processed
    is enough, and a range without pages produces no report. *)
Theorem reports_unless_every_page_failed (env : run_env) (s e : Z) (o : out_dir) :
  pool_error env = None →
  (reports_of (process_pdf env s e o) = None
   ↔ ∀ p, s ≤ p ≤ e → is_failed (page_envs env) (mkdirs o) (p - 1) = true)
  ∧ (reports_of (process_pdf env s e o) ≠ None →
     reports_of (process_pdf env s e o)
     = Some (Reports
               (combine_text_files (process_pdf env s e o).1 s e)
               (generate_word_count_csv (process_pdf env s e o).1 s e)
               (generate_proper_names_csv (spacy env) (process_pdf env s e o).1 s e))).
Proof.
  intros Hpool. rewrite (process_pdf_reports env s e o Hpool).
  rewrite (process_pdf_store env s e o Hpool). cbv zeta.
  pose proof (count_if_nonneg (is_skipped (mkdirs o)) (submitted s e)) as Hs.
  pose proof (count_if_nonneg (is_newly_processed (page_envs env) (mkdirs o))
                (submitted s e)) as Hn.
  destruct (0 <? _) eqn:Hpos; (split; [|done]).
  - split; [done|]. intros Hall. apply Z.ltb_lt in Hpos.
    assert (count_if (is_skipped (mkdirs o)) (submitted s e) = 0) as Hs0.
    { apply count_if_zero. intros q Hq%submitted_elem.
      pose proof (page_states_exclusive (page_envs env) (mkdirs o) q) as Hx.
      specialize (Hall (q + 1) Hq). replace (q + 1 - 1) with q in Hall by lia.
      rewrite Hall in Hx. by destruct (is_skipped (mkdirs o) q). }
    assert (count_if (is_newly_processed (page_envs env) (mkdirs o))
              (submitted s e) = 0) as Hn0.
    { apply count_if_zero. intros q Hq%submitted_elem.
      pose proof (page_states_exclusive (page_envs env) (mkdirs o) q) as Hx.
      specialize (Hall (q + 1) Hq). replace (q + 1 - 1) with q in Hall by lia.
      rewrite Hall in Hx. destruct (is_skipped (mkdirs o) q); [done|].
      by destruct (is_newly_processed (page_envs env) (mkdirs o) q). }
    lia.
  - split; [|done]. intros _ p Hp. apply Z.ltb_ge in Hpos.
    assert (count_if (is_skipped (mkdirs o)) (submitted s e) = 0) as Hs0 by lia.
    assert (count_if (is_newly_processed (page_envs env) (mkdirs o))
              (submitted s e) = 0) as Hn0 by lia.
    assert (p - 1 ∈ submitted s e) as Hin by (apply submitted_elem; lia).
    pose proof (page_states_exclusive (page_envs env) (mkdirs o) (p - 1)) as Hx.
    rewrite (proj1 (count_if_zero _ _) Hs0 _ Hin) in Hx.
    rewrite (proj1 (count_if_zero _ _) Hn0 _ Hin) in Hx.
    by destruct (is_failed (page_envs env) (mkdirs o) (p - 1)).
Qed.

Lemma reports_unless_every_page_failed_witness :
  pool_error (run unreadable_scan) = None
  ∧ reports_of (process_pdf (run unreadable_scan) 1 2 (OutDir None None)) = None
  ∧ (∀ p, 1 ≤ p ≤ 2 →
       is_failed (page_envs (run unreadable_scan)) (mkdirs (OutDir None None)) (p - 1)
       = true).
Proof.
  split; [reflexivity|].
  destruct (reports_unless_every_page_failed (run unreadable_scan) 1 2
              (OutDir None None) eq_refl) as [[H _] _].
  split; [reflexivity | exact (H eq_refl)].
Defined.

Lemma task_done_own (pages : Z → page_env) (st : store) (q : Z) :
  already_done (task_store pages st q) (q + 1)
  = png_exists st (png_name (q + 1)) || renders (pages q).
Proof.
  unfold task_store. rewrite process_page_task_unfold.
  destruct (already_done st (q + 1)) eqn:Hdone.
  - simpl. rewrite Hdone. unfold already_done in Hdone.
    apply andb_true_iff in Hdone as [-> _]. done.
  - unfold fresh_outcome, apply_outcome, renders.
    unfold already_done, png_exists, txt_exists.
    destruct (render (pages q)) as [[]|e]; [destruct (ocr (pages q)) as [text|e]|];
      simpl; rewrite lookup_insert_eq;
      rewrite (bool_decide_eq_true_2 (is_Some (Some _))) by (by eexists);
      rewrite andb_true_r.
    + rewrite orb_true_r. apply bool_decide_eq_true_2.
      apply elem_of_union. left. by apply elem_of_singleton.
    + rewrite orb_true_r. apply bool_decide_eq_true_2.
      apply elem_of_union. left. by apply elem_of_singleton.
    + rewrite orb_false_r. by rewrite (left_id_L ∅ (∪)).
Qed.

Lemma task_frame_png_exists (pages : Z → page_env) (st : store) (q p : Z) :
  p ≠ q →
  png_exists (task_store pages st q) (png_name (p + 1))
  = png_exists st (png_name (p + 1)).
Proof.
  intros Hne. unfold png_exists, task_store. apply bool_decide_ext.
  by apply task_frame_png.
Qed.

Lemma pool_done (pages : Z → page_env) (l : list Z) (p : Z) :
  NoDup l → ∀ st,
  already_done (fold_left (task_store pages) l st) (p + 1)
  = if bool_decide (p ∈ l)
    then png_exists st (png_name (p + 1)) || renders (pages p)
    else already_done st (p + 1).
Proof.
  induction 1 as [|q l Hq Hnd IH]; intros st; [done|].
  cbn [fold_left]. rewrite IH.
  destruct (decide (p = q)) as [->|Hne].
  - rewrite (bool_decide_eq_false_2 (q ∈ l)) by done.
    rewrite (bool_decide_eq_true_2 (q ∈ q :: l)) by apply list_elem_of_here.
    apply task_done_own.
  - rewrite task_frame_png_exists by done.
    unfold task_store at 1. rewrite task_frame_done by done.
    apply (f_equal (λ b : bool, if b then _ else _)).
    apply bool_decide_ext. rewrite elem_of_cons. split; [by right|].
    by intros [?|?].
Qed.

Lemma process_pdf_done (env : run_env) (s e : Z) (o : out_dir) (p : Z) :
  pool_error env = None →
  already_done (process_pdf env s e o).1 p
  = if bool_decide (s ≤ p ≤ e)
    then png_exists (mkdirs o) (png_name p) || renders (page_envs env (p - 1))
    else already_done (mkdirs o) p.
Proof.
  intros Hpool. rewrite (process_pdf_store env s e o Hpool).
  pose proof (pool_done (page_envs env) (submitted s e) (p - 1)
                (submitted_NoDup s e) (mkdirs o)) as H.
  replace (p - 1 + 1) with p in H by lia. rewrite H.
  apply (f_equal (λ b : bool, if b then _ else _)).
  apply bool_decide_ext. rewrite submitted_elem. lia.
Qed.

(** X9.  After a run, a page of the range is complete exactly when its
    image was there before the run or its rendering succeeded, whatever
    the recognizer did; a page outside the range is complete exactly
    when it was before. *)
Theorem pages_complete_after_a_run (env : run_env) (s e : Z) (o : out_dir)
    (p : Z) :
  pool_error env = None →
  already_done (process_pdf env s e o).1 p
  = if bool_decide (s ≤ p ≤ e)
    then png_exists (mkdirs o) (png_name p) || renders (page_envs env (p - 1))
    else already_done (mkdirs o) p.
Proof. apply process_pdf_done. Qed.

Lemma pages_complete_after_a_run_witness :
  pool_error (run unreadable_scan) = None
  ∧ already_done (process_pdf (run unreadable_scan) 1 2 (OutDir None None)).1 2
    = (if bool_decide (1 ≤ 2 ≤ 2)
       then png_exists (mkdirs (OutDir None None)) (png_name 2)
            || renders (page_envs (run unreadable_scan) (2 - 1))
       else already_done (mkdirs (OutDir None None)) 2)
  ∧ already_done (process_pdf (run unreadable_scan) 1 2 (OutDir None None)).1 2
    = true.
Proof.
  split; [reflexivity|]. split; [|vm_compute; reflexivity].
  exact (pages_complete_after_a_run (run unreadable_scan) 1 2 (OutDir None None)
           2 eq_refl).
Defined.

Lemma pool_done_fixed (pages : Z → page_env) (l : list Z) (st : store) :
  (∀ q, q ∈ l → already_done st (q + 1) = true) →
  fold_left (task_store pages) l st = st
  ∧ map (task_result pages st) l = map (λ q, Returned true (q + 1) None) l.
Proof.
  induction l as [|q l IH]; intros Hall; [done|].
  assert (already_done st (q + 1) = true) as Hq
    by (apply Hall, list_elem_of_here).
  assert (task_store pages st q = st) as Hst.
  { unfold task_store. by rewrite process_page_task_unfold, Hq. }
  assert (task_result pages st q = Returned true (q + 1) None) as Hres.
  { unfold task_result. by rewrite process_page_task_unfold, Hq. }
  cbn [fold_left map]. rewrite Hst, Hres.
  destruct IH as [IH1 IH2].
  { intros q' Hq'. apply Hall. by apply list_elem_of_further. }
  by rewrite IH1, IH2.
Qed.

Lemma tally_of_skips (l : list Z) :
  tally_all (map (λ q, Returned true (q + 1) None) l)
  = Tally (Z.of_nat (length l)) 0 [].
Proof.
  pose proof (tally_all_counts (map (λ q, Returned true (q + 1) None) l)) as [Hs Hf].
  pose proof (tally_all_messages (map (λ q, Returned true (q + 1) None) l)) as Hm.
  rewrite count_if_map in Hs, Hf. simpl in Hs, Hf.
  rewrite count_if_all in Hs.
  assert (count_if (λ _ : Z, false) l = 0) as Hz by (by apply count_if_zero).
  rewrite Hz in Hf.
  assert (omap reported (map (λ q, Returned true (q + 1) None) l) = []) as Hnil
    by (clear; induction l; [done | simpl; done]).
  rewrite Hnil in Hm.
  destruct (tally_all _) as [a b c]. simpl in *. by subst.
Qed.

Lemma process_pdf_complete_range (env : run_env) (s e : Z)
    (o : out_dir) :
  pool_error env = None →
  (∀ p, s ≤ p ≤ e → already_done (mkdirs o) p = true) →
  (process_pdf env s e o).1 = mkdirs o
  ∧ tally_of (process_pdf env s e o) = Some (Tally (Z.max 0 (e - s + 1)) 0 [])
  ∧ reports_of (process_pdf env s e o)
    = if s <=? e
      then Some (Reports (combine_text_files (mkdirs o) s e)
                         (generate_word_count_csv (mkdirs o) s e)
                         (generate_proper_names_csv (spacy env) (mkdirs o) s e))
      else None.
Proof.
  intros Hpool Hall.
  assert (∀ l : list Z, (∀ q, q ∈ l → q ∈ submitted s e) →
               ∀ q, q ∈ l → already_done (mkdirs o) (q + 1) = true) as Hdone.
  { intros l Hl q Hq. apply Hall. by apply submitted_elem, Hl. }
  destruct (process_pdf_returns env s e o Hpool) as (summary & Heq & Ht).
  destruct (pool_done_fixed (page_envs env) (submitted s e) (mkdirs o)
              (Hdone _ (λ q H, H))) as [Hst _].
  destruct (pool_done_fixed (page_envs env)
              (as_completed (completion env) (submitted s e)) (mkdirs o)) as [_ Hres].
  { apply Hdone. intros q Hq.
    by rewrite <- (as_completed_Permutation (completion env) (submitted s e)). }
  assert (Z.of_nat (length (as_completed (completion env) (submitted s e)))
          = Z.max 0 (e - s + 1)) as Hlen.
  { rewrite (Permutation_length (as_completed_Permutation _ _)).
    unfold submitted, py_range. rewrite length_seqZ. lia. }
  rewrite Hres, tally_of_skips, Hlen in Ht.
  split; [by rewrite Heq|].
  split; [unfold tally_of; rewrite Heq; simpl; by rewrite Ht|].
  rewrite (process_pdf_reports env s e o Hpool). cbv zeta. rewrite Hst.
  assert (count_if (is_skipped (mkdirs o)) (submitted s e)
          = Z.of_nat (length (submitted s e))) as Hs.
  { rewrite <- count_if_all. apply count_if_ext. intros q Hq.
    unfold is_skipped. by apply (Hdone _ (λ q H, H)). }
  assert (count_if (is_newly_processed (page_envs env) (mkdirs o)) (submitted s e)
          = 0) as Hn.
  { apply count_if_zero. intros q Hq. unfold is_newly_processed.
    by rewrite (Hdone _ (λ q H, H) q Hq). }
  rewrite Hs, Hn. unfold submitted, py_range. rewrite length_seqZ.
  destruct (s <=? e) eqn:Hse.
  - apply Z.leb_le in Hse. rewrite (proj2 (Z.ltb_lt _ _)) by lia. done.
  - apply Z.leb_gt in Hse. rewrite (proj2 (Z.ltb_ge _ _)) by lia. done.
Qed.

(** X10.  A run over a range whose pages are all complete changes no
    image and no text artifact, whatever the engines would do: it
    counts one success for each page of the range and no failure, and
    runs the aggregation passes, which write the reports anew from the
    directory as it is, unless the range is empty. *)
Theorem run_over_complete_range_changes_nothing (env : run_env) (s e : Z)
    (o : out_dir) :
  pool_error env = None →
  (∀ p, s ≤ p ≤ e → already_done (mkdirs o) p = true) →
  (process_pdf env s e o).1 = mkdirs o
  ∧ tally_of (process_pdf env s e o) = Some (Tally (Z.max 0 (e - s + 1)) 0 [])
  ∧ reports_of (process_pdf env s e o)
    = if s <=? e
      then Some (Reports (combine_text_files (mkdirs o) s e)
                         (generate_word_count_csv (mkdirs o) s e)
                         (generate_proper_names_csv (spacy env) (mkdirs o) s e))
      else None.
Proof. apply process_pdf_complete_range. Qed.

Lemma run_over_complete_range_changes_nothing_witness :
  pool_error (run unreadable_scan) = None
  ∧ (∀ p, 1 ≤ p ≤ 1 → already_done (mkdirs page1_done) p = true)
  ∧ (process_pdf (run unreadable_scan) 1 1 page1_done).1 = mkdirs page1_done
  ∧ tally_of (process_pdf (run unreadable_scan) 1 1 page1_done)
    = Some (Tally (Z.max 0 (1 - 1 + 1)) 0 []).
Proof.
  assert (∀ p, 1 ≤ p ≤ 1 → already_done (mkdirs page1_done) p = true) as H.
  { intros p Hp. assert (p = 1) as -> by lia. vm_compute. reflexivity. }
  split; [reflexivity|]. split; [exact H|].
  destruct (run_over_complete_range_changes_nothing (run unreadable_scan) 1 1
              page1_done eq_refl H) as (H1 & H2 & _).
  split; [exact H1 | exact H2].
Defined.

(** ** The aggregation passes, once more *)

Lemma blocks_length (st : store) (l : list Z) :
  length (concat (map (page_block st) l))
  = (3 * length (List.filter (λ p, negb (is_excluded st p)) l))%nat.
Proof.
  induction l as [|p l IH]; [done|].
  cbn [map concat List.filter]. rewrite length_app, IH.
  unfold page_block, is_excluded.
  destruct (page_text st p); cbn [negb length]; lia.
Qed.

Lemma filter_split_length {A : Type} (f : A → bool) (l : list A) :
  (length (List.filter f l) + length (List.filter (λ x, negb (f x)) l)
   = length l)%nat.
Proof.
  induction l as [|x l IH]; [done|].
  cbn [List.filter]. destruct (f x); cbn [negb length]; lia.
Qed.

(** X11.  The combine pass accounts for every page of the range: a
    page is either skipped or contributes three entries (header, text,
    blank line) to the combined content; the skipped pages are listed
    in ascending order; and the combined file is written unless every
    page of the range is excluded. *)
Theorem combine_accounts_for_every_page (st : store) (s e : Z) :
  (combine_loop st s e).2 = List.filter (is_excluded st) (py_range s (e + 1))
  ∧ StronglySorted Z.lt (combine_loop st s e).2
  ∧ length (combine_loop st s e).1 = (3 * length (included_pages st s e))%nat
  ∧ Z.of_nat (length (combine_loop st s e).2)
    + Z.of_nat (length (included_pages st s e)) = Z.max 0 (e - s + 1)
  ∧ (combine_text_files st s e = None ↔ ∀ p, s ≤ p ≤ e → excluded st p).
Proof.
  unfold combine_text_files, combine_loop, included_pages.
  rewrite combine_fold. cbn [fst snd app].
  split; [done|].
  split; [apply StronglySorted_filter, py_range_sorted|].
  split; [apply blocks_length|].
  split.
  { pose proof (filter_split_length (is_excluded st) (py_range s (e + 1))) as H.
    assert (length (py_range s (e + 1)) = Z.to_nat (e + 1 - s)) as Hlen
      by apply length_seqZ.
    lia. }
  pose proof (blocks_length st (py_range s (e + 1))) as Hlen.
  destruct (concat (map (page_block st) (py_range s (e + 1)))) as [|b bs] eqn:Hb.
  - split; [|done]. intros _ p Hp. apply is_excluded_true.
    destruct (is_excluded st p) eqn:Hex; [done|].
    assert (p ∈ List.filter (λ p, negb (is_excluded st p)) (py_range s (e + 1)))
      as Hin.
    { apply list_elem_of_In, filter_In. split.
      - apply list_elem_of_In, py_range_elem. lia.
      - by rewrite Hex. }
    destruct (List.filter _ _); [by apply elem_of_nil in Hin | simpl in Hlen; lia].
  - split; [done|]. intros Hall. exfalso.
    destruct (List.filter (λ p, negb (is_excluded st p)) (py_range s (e + 1)))
      as [|p l] eqn:Hf; [simpl in Hlen; lia|].
    assert (In p (List.filter (λ p, negb (is_excluded st p)) (py_range s (e + 1))))
      as Hin by (rewrite Hf; by left).
    apply filter_In in Hin as [Hin Hex].
    apply list_elem_of_In, py_range_elem in Hin.
    assert (excluded st p) as Hp by (apply Hall; lia).
    apply is_excluded_true in Hp. by rewrite Hp in Hex.
Qed.

Lemma dict_set_fresh {K V : Type} `{EqDecision K} (k : K) (v : V)
    (d : list (K * V)) :
  dict_get d k = None → dict_set k v d = d ++ [(k, v)].
Proof.
  unfold dict_set. induction d as [|[k' v'] d IH]; simpl; [done|].
  destruct (decide (k' = k)); [done|]. intros H. by rewrite IH.
Qed.

Lemma omap_cons {A B : Type} (f : A → option B) (x : A) (l : list A) :
  omap f (x :: l)
  = match f x with
    | Some y => y :: omap f l
    | None => omap f l
    end.
Proof. done. Qed.

Lemma count_fold_counts (st : store) (l : list Z) :
  NoDup l → ∀ acc,
  (∀ p, p ∈ l → dict_get (page_word_counts acc) p = None) →
  page_word_counts (fold_left (count_page st) l acc)
  = page_word_counts acc ++ omap (page_count st) l.
Proof.
  induction 1 as [|p l Hp Hnd IH]; intros acc Hfresh.
  - simpl. by rewrite app_nil_r.
  - cbn [fold_left]. rewrite IH.
    + rewrite count_page_eq, omap_cons. unfold page_count at 2.
      destruct (page_text st p) as [content|]; [|done].
      cbn [count_text page_word_counts].
      rewrite dict_set_fresh by apply Hfresh, list_elem_of_here.
      by rewrite <- app_assoc.
    + intros q Hq. rewrite count_page_eq.
      destruct (page_text st p) as [content|].
      * cbn [count_text page_word_counts]. unfold dict_set.
        rewrite dict_get_update.
        destruct (decide (p = q)) as [->|]; [done|].
        by apply Hfresh, list_elem_of_further.
      * by apply Hfresh, list_elem_of_further.
Qed.

Lemma sum_Z_app (l1 l2 : list Z) : sum_Z (l1 ++ l2) = sum_Z l1 + sum_Z l2.
Proof. induction l1 as [|x l1 IH]; simpl; [done | rewrite IH; lia]. Qed.

Lemma page_counts_cons (st : store) (p : Z) (l : list Z) :
  sum_Z (map snd (omap (page_count st) (p :: l)))
  = match page_text st p with
    | Some content => Z.of_nat (length (page_words content))
    | None => 0
    end + sum_Z (map snd (omap (page_count st) l)).
Proof.
  rewrite omap_cons. unfold page_count at 1.
  by destruct (page_text st p).
Qed.

Lemma count_fold_total (st : store) (l : list Z) (acc : word_stats) :
  total_words (fold_left (count_page st) l acc)
  = total_words acc + sum_Z (map snd (omap (page_count st) l)).
Proof.
  revert acc. induction l as [|p l IH]; intros acc; [simpl; lia|].
  cbn [fold_left]. rewrite IH, count_page_eq, page_counts_cons.
  destruct (page_text st p) as [content|]; simpl; lia.
Qed.

Lemma sum_counts_record (p : Z) (d : list (string * occurrence)) (w : string) :
  sum_Z (map (λ x, count x.2) (record_occurrence p d w))
  = sum_Z (map (λ x, count x.2) d) + 1.
Proof.
  unfold record_occurrence. induction d as [|[k o] d IH]; simpl; [done|].
  destruct (decide (k = w)); simpl; [lia | rewrite IH; lia].
Qed.

Lemma sum_counts_records (p : Z) (ws : list string) (d : list (string * occurrence)) :
  sum_Z (map (λ x, count x.2) (fold_left (record_occurrence p) ws d))
  = sum_Z (map (λ x, count x.2) d) + Z.of_nat (length ws).
Proof.
  revert d. induction ws as [|w ws IH]; intros d; simpl; [lia|].
  rewrite IH, sum_counts_record. lia.
Qed.

Lemma count_fold_occurrences (st : store) (l : list Z) (acc : word_stats) :
  sum_Z (map (λ x, count x.2) (word_occurrences (fold_left (count_page st) l acc)))
  = sum_Z (map (λ x, count x.2) (word_occurrences acc))
    + sum_Z (map snd (omap (page_count st) l)).
Proof.
  revert acc. induction l as [|p l IH]; intros acc; [simpl; lia|].
  cbn [fold_left]. rewrite IH, count_page_eq, page_counts_cons.
  destruct (page_text st p) as [content|]; simpl; [|lia].
  rewrite sum_counts_records. lia.
Qed.

Lemma page_counts_zero (st : store) (l : list Z) :
  0 ≤ sum_Z (map snd (omap (page_count st) l))
  ∧ (sum_Z (map snd (omap (page_count st) l)) = 0
     ↔ ∀ p content, p ∈ l → page_text st p = Some content →
                    page_words content = []).
Proof.
  induction l as [|p l [IHn IH]].
  - split; [done|]. split; [|done]. intros _ p content Hp.
    by apply elem_of_nil in Hp.
  - rewrite page_counts_cons. destruct (page_text st p) as [content|] eqn:Hp.
    + split; [lia|]. split.
      * intros H q c [Heq|Hq]%elem_of_cons Hc.
        -- subst q. rewrite Hp in Hc. injection Hc as <-.
           destruct (page_words content); [done | simpl in H; lia].
        -- apply (proj1 IH) with q; [lia | done..].
      * intros H. rewrite (H p content (list_elem_of_here _ _) Hp). simpl.
        apply IH. intros q c Hq. apply H. by apply list_elem_of_further.
    + split; [lia|]. rewrite Z.add_0_l, IH. split.
      * intros H q c [Heq|Hq]%elem_of_cons Hc; [subst q; by rewrite Hp in Hc|].
        by eapply H.
      * intros H q c Hq. apply H. by apply list_elem_of_further.
Qed.

(** X12.  The totals of the word pass agree: the table of per-page
    counts has one entry for each page the pass takes, in page order,
    holding the number of words of the page; the total is the sum of
    the per-page counts and also the sum of the counts of all words;
    and no report is written exactly when no page taken has a word. *)
Theorem word_totals_agree (st : store) (s e : Z) :
  page_word_counts (count_loop st s e)
  = omap (page_count st) (py_range s (e + 1))
  ∧ total_words (count_loop st s e)
    = sum_Z (map snd (page_word_counts (count_loop st s e)))
  ∧ total_words (count_loop st s e)
    = sum_Z (map (λ x, count x.2) (word_occurrences (count_loop st s e)))
  ∧ (generate_word_count_csv st s e = None
     ↔ ∀ p content, s ≤ p ≤ e → page_text st p = Some content →
                    page_words content = []).
Proof.
  assert (page_word_counts (count_loop st s e)
          = omap (page_count st) (py_range s (e + 1))) as Hc.
  { unfold count_loop. rewrite count_fold_counts; [done | apply NoDup_seqZ | done]. }
  assert (total_words (count_loop st s e)
          = sum_Z (map snd (omap (page_count st) (py_range s (e + 1))))) as Ht.
  { unfold count_loop. rewrite count_fold_total. simpl. lia. }
  split; [done|]. split; [by rewrite Hc|].
  split.
  { unfold count_loop at 2. rewrite count_fold_occurrences. simpl. lia. }
  unfold generate_word_count_csv. cbv zeta. rewrite Ht.
  destruct (page_counts_zero st (py_range s (e + 1))) as [_ Hz].
  destruct (_ =? 0) eqn:H0.
  - apply Z.eqb_eq in H0. split; [|done]. intros _ p content Hp.
    apply (proj1 Hz H0). apply py_range_elem. lia.
  - apply Z.eqb_neq in H0. split; [done|]. intros H. exfalso. apply H0, Hz.
    intros p content Hp%py_range_elem. apply H. lia.
Qed.

Lemma record_occurrence_keys (p : Z) (d : list (string * occurrence))
    (w k : string) :
  k ∈ map fst (record_occurrence p d w) ↔ k = w ∨ k ∈ map fst d.
Proof.
  unfold record_occurrence. induction d as [|[k' o] d IH]; simpl.
  - rewrite elem_of_cons. tauto.
  - destruct (decide (k' = w)) as [->|Hne]; simpl; rewrite !elem_of_cons.
    + tauto.
    + rewrite IH. tauto.
Qed.

Lemma entry_ok_first (P : Z → Prop) (p : Z) :
  P p → entry_ok P (Occ (0 + 1) ({[ p ]} ∪ ∅)).
Proof.
  intros Hp. unfold entry_ok. cbn [count pages]. rewrite (right_id_L ∅ (∪)).
  split; [lia|]. split; [|split].
  - intros H. assert (p ∈ (∅ : gset Z)) as Hin by (rewrite <- H; by apply elem_of_singleton).
    by apply not_elem_of_empty in Hin.
  - intros q Hq%elem_of_singleton. by subst.
  - rewrite size_singleton. lia.
Qed.

Lemma entry_ok_next (P : Z → Prop) (p : Z) (o : occurrence) :
  P p → entry_ok P o → entry_ok P (Occ (count o + 1) ({[ p ]} ∪ pages o)).
Proof.
  intros Hp (Hc & Hne & Hsub & Hsize). unfold entry_ok. cbn [count pages].
  split; [lia|]. split; [|split].
  - intros H. assert (p ∈ (∅ : gset Z)) as Hin.
    { rewrite <- H. apply elem_of_union. left. by apply elem_of_singleton. }
    by apply not_elem_of_empty in Hin.
  - intros q [Hq%elem_of_singleton|Hq]%elem_of_union; [by subst | by apply Hsub].
  - rewrite size_union_alt, size_singleton.
    assert (size (pages o ∖ {[ p ]}) ≤ size (pages o))%nat as Hle.
    { apply subseteq_size. intros x Hx. by apply elem_of_difference in Hx as [? _]. }
    lia.
Qed.

Lemma record_occurrence_ok (P : Z → Prop) (Q : string → Prop) (p : Z)
    (d : list (string * occurrence)) (w : string) :
  P p → Q w → table_ok P Q d → table_ok P Q (record_occurrence p d w).
Proof.
  intros Hp Hw. unfold table_ok.
  induction d as [|[k o] d IH]; intros [Hnd Hall].
  - unfold record_occurrence. simpl. split.
    + apply NoDup_singleton.
    + apply Forall_singleton. split; [done | by apply entry_ok_first].
  - simpl in Hnd. apply NoDup_cons in Hnd as [Hk Hnd].
    apply Forall_cons in Hall as [[Hqk Ho] Hall].
    destruct (IH (conj Hnd Hall)) as [IHnd IHall].
    pose proof (record_occurrence_keys p d w k) as Hkeys.
    unfold record_occurrence in *. simpl.
    destruct (decide (k = w)) as [->|Hne]; simpl.
    + split; [by apply NoDup_cons|].
      apply Forall_cons. split; [|done]. split; [done | by apply entry_ok_next].
    + split.
      * apply NoDup_cons. split; [|done]. rewrite Hkeys. by intros [?|?].
      * apply Forall_cons. by split.
Qed.

Lemma record_occurrences_ok (P : Z → Prop) (Q : string → Prop) (p : Z)
    (ws : list string) :
  P p → Forall Q ws → ∀ d,
  table_ok P Q d → table_ok P Q (fold_left (record_occurrence p) ws d).
Proof.
  intros Hp. induction 1 as [|w ws Hw Hws IH]; intros d Hd; [done|].
  cbn [fold_left]. apply IH. by apply record_occurrence_ok.
Qed.

Lemma record_persons_ok (P : Z → Prop) (p : Z) (es : list entity) :
  P p → ∀ d,
  table_ok P (λ name, name ≠ EmptyString) d →
  table_ok P (λ name, name ≠ EmptyString) (record_persons p d es).
Proof.
  intros Hp. unfold record_persons.
  induction es as [|ent es IH]; intros d Hd; [done|].
  cbn [fold_left]. apply IH.
  destruct (String.eqb (ent_label ent) "PERSON"); [|done].
  destruct (String.eqb (py_strip (ent_text ent)) EmptyString) eqn:He; [done|].
  apply record_occurrence_ok; [done | | done].
  by apply String.eqb_neq.
Qed.

Lemma names_text_ok (P : Z → Prop) (nlp : nlp_model) (p : Z) (content : string)
    (d : list (string * occurrence)) :
  P p →
  table_ok P (λ name, name ≠ EmptyString) d →
  table_ok P (λ name, name ≠ EmptyString) (names_text nlp p content d).
Proof.
  intros Hp Hd. unfold names_text.
  destruct (Z.pos (max_length nlp) <? _); [|by apply record_persons_ok].
  revert d Hd. induction (chunks (max_length nlp) content) as [|c cs IH];
    intros d Hd; [done|].
  cbn [fold_left]. apply IH. by apply record_persons_ok.
Qed.

Lemma included_intro (st : store) (s e p : Z) (content : string) :
  p ∈ py_range s (e + 1) → page_text st p = Some content →
  p ∈ included_pages st s e.
Proof.
  intros Hp Ht. unfold included_pages. apply list_elem_of_In, filter_In.
  split; [by apply list_elem_of_In|]. unfold is_excluded. by rewrite Ht.
Qed.

(** X13.  The tables of occurrences are well formed.  No word and no
    name has two entries; every entry counts at least one occurrence,
    lists only pages that the pass took, and never more pages than
    occurrences.  Every word is longer than two characters and no name
    is empty. *)
Theorem occurrence_tables_are_well_formed (st : store) (s e : Z) :
  table_ok (λ p, p ∈ included_pages st s e)
           (λ w, 2 < Z.of_nat (String.length w))
           (word_occurrences (count_loop st s e))
  ∧ ∀ nlp : nlp_model,
      table_ok (λ p, p ∈ included_pages st s e)
               (λ name, name ≠ EmptyString)
               (names_loop nlp st s e).
Proof.
  split.
  - unfold count_loop.
    assert (∀ l acc,
      (∀ p, p ∈ l → p ∈ py_range s (e + 1)) →
      table_ok (λ p, p ∈ included_pages st s e)
               (λ w, 2 < Z.of_nat (String.length w)) (word_occurrences acc) →
      table_ok (λ p, p ∈ included_pages st s e)
               (λ w, 2 < Z.of_nat (String.length w))
               (word_occurrences (fold_left (count_page st) l acc))) as H.
    { induction l as [|p l IH]; intros acc Hl Hacc; [done|].
      cbn [fold_left]. apply IH.
      { intros q Hq. by apply Hl, list_elem_of_further. }
      rewrite count_page_eq.
      destruct (page_text st p) as [content|] eqn:Hp; [|done].
      cbn [count_text word_occurrences]. apply record_occurrences_ok; [| |done].
      - apply (included_intro st s e p content); [|done].
        apply Hl, list_elem_of_here.
      - apply Forall_forall. intros w Hw. by apply page_words_elem in Hw as [_ ?]. }
    apply H; [done|]. split; [apply NoDup_nil_2 | apply Forall_nil_2].
  - intros nlp. unfold names_loop.
    assert (∀ l d,
      (∀ p, p ∈ l → p ∈ py_range s (e + 1)) →
      table_ok (λ p, p ∈ included_pages st s e) (λ name, name ≠ EmptyString) d →
      table_ok (λ p, p ∈ included_pages st s e) (λ name, name ≠ EmptyString)
               (fold_left (names_page nlp st) l d)) as H.
    { induction l as [|p l IH]; intros d Hl Hd; [done|].
      cbn [fold_left]. apply IH.
      { intros q Hq. by apply Hl, list_elem_of_further. }
      rewrite names_page_eq.
      destruct (page_text st p) as [content|] eqn:Hp; [|done].
      apply names_text_ok; [|done].
      apply (included_intro st s e p content); [|done].
      apply Hl, list_elem_of_here. }
    apply H; [done|]. split; [apply NoDup_nil_2 | apply Forall_nil_2].
Qed.









(** ** Stripping *)

Lemma lstrip_head (l : list ascii) : space_at (head (lstrip l)) = false.
Proof.
  induction l as [|c l IH]; [done|]. simpl.
  destruct (py_isspace c) eqn:Hc; [done|]. simpl. done.
Qed.

Lemma lstrip_id (l : list ascii) : space_at (head l) = false → lstrip l = l.
Proof. destruct l as [|c l]; [done|]. simpl. by intros ->. Qed.

Lemma lstrip_split (l : list ascii) :
  ∃ sp, l = sp ++ lstrip l ∧ Forall (λ c, py_isspace c = true) sp.
Proof.
  induction l as [|c l (sp & Hl & Hsp)]; [by exists []|]. simpl.
  destruct (py_isspace c) eqn:Hc.
  - exists (c :: sp). split; [simpl; by rewrite <- Hl | by apply Forall_cons].
  - by exists [].
Qed.

Lemma head_rev {A : Type} (l : list A) : head (rev l) = last l.
Proof.
  induction l as [|x l _] using rev_ind; [done|].
  by rewrite rev_app_distr, last_snoc.
Qed.

Lemma last_rev {A : Type} (l : list A) : last (rev l) = head l.
Proof. by rewrite <- head_rev, rev_involutive. Qed.

Lemma chars_py_strip (s : string) :
  chars (py_strip s) = rev (lstrip (rev (lstrip (chars s)))).
Proof. unfold py_strip. apply chars_str. Qed.

Lemma py_strip_split (s : string) :
  ∃ l r, chars s = l ++ chars (py_strip s) ++ r
         ∧ Forall (λ c, py_isspace c = true) l
         ∧ Forall (λ c, py_isspace c = true) r.
Proof.
  rewrite chars_py_strip.
  destruct (lstrip_split (chars s)) as (l & Hl & Hsl).
  destruct (lstrip_split (rev (lstrip (chars s)))) as (r & Hr & Hsr).
  exists l, (rev r). split; [|split; [done|]].
  - rewrite Hl at 1. f_equal.
    rewrite <- (rev_involutive (lstrip (chars s))) at 1.
    rewrite Hr at 1. by rewrite rev_app_distr.
  - apply Forall_forall. intros c Hc%list_elem_of_In%in_rev%list_elem_of_In.
    rewrite Forall_forall in Hsr. by apply Hsr.
Qed.

Lemma py_strip_outer (s : string) :
  space_at (head (chars (py_strip s))) = false
  ∧ space_at (last (chars (py_strip s))) = false.
Proof.
  rewrite chars_py_strip. split; [|rewrite last_rev; apply lstrip_head].
  destruct (lstrip_split (rev (lstrip (chars s)))) as (r & Hr & _).
  pose proof (lstrip_head (chars s)) as Hh.
  rewrite <- (rev_involutive (lstrip (chars s))) in Hh.
  rewrite Hr, rev_app_distr in Hh.
  destruct (rev (lstrip (rev (lstrip (chars s))))); [done | exact Hh].
Qed.

Lemma py_strip_id (s : string) :
  space_at (head (chars s)) = false → space_at (last (chars s)) = false →
  py_strip s = s.
Proof.
  intros Hh Hl. unfold py_strip. rewrite (lstrip_id (chars s)) by done.
  rewrite lstrip_id by (by rewrite head_rev).
  by rewrite rev_involutive, str_chars.
Qed.

(** X15.  The text artifact of a newly processed page holds the text
    of the recognizer without the white space at its two ends and
    nothing else removed: it neither begins nor ends with white space. *)
Theorem stored_text_is_the_stripped_text (env : page_env) (page_num : Z)
    (st : store) (text : string) :
  already_done st (page_num + 1) = false →
  render env = Ok tt → ocr env = Ok text →
  ∃ t, text_files (process_page_task env page_num st).1 !! txt_name (page_num + 1)
       = Some (Text t)
    ∧ (∃ l r, chars text = l ++ chars t ++ r
              ∧ Forall (λ c, py_isspace c = true) l
              ∧ Forall (λ c, py_isspace c = true) r)
    ∧ space_at (head (chars t)) = false
    ∧ space_at (last (chars t)) = false
    ∧ py_strip t = t.
Proof.
  intros Hdone Hrender Hocr. exists (py_strip text).
  destruct (py_strip_outer text) as [Hh Hl].
  split; [|split; [apply py_strip_split|]].
  - rewrite process_page_task_unfold, Hdone. unfold fresh_outcome, apply_outcome.
    rewrite Hrender, Hocr. simpl. apply lookup_insert_eq.
  - split; [done|]. split; [done|]. by apply py_strip_id.
Qed.

Lemma stored_text_is_the_stripped_text_witness :
  already_done page2_pending (1 + 1) = false
  ∧ ∃ t, text_files (process_page_task (good_engines 1) 1 page2_pending).1
           !! txt_name (1 + 1) = Some (Text t)
    ∧ (∃ l r, chars "Some text " = l ++ chars t ++ r
              ∧ Forall (λ c, py_isspace c = true) l
              ∧ Forall (λ c, py_isspace c = true) r)
    ∧ space_at (head (chars t)) = false
    ∧ space_at (last (chars t)) = false
    ∧ py_strip t = t.
Proof.
  assert (already_done page2_pending (1 + 1) = false) as H
    by (vm_compute; reflexivity).
  split; [exact H|].
  exact (stored_text_is_the_stripped_text (good_engines 1) 1 page2_pending
           "Some text " H eq_refl eq_refl).
Defined.

(** ** The menu *)

Lemma parse_range_sound (total : Z) (r : string) (a b : Z) :
  parse_range total r = Some (a, b) → 1 ≤ a ∧ a ≤ b ∧ b ≤ total.
Proof.
  unfold parse_range.
  destruct (split_dash [] (chars r)) as [|x [|y [|z l]]]; try done.
  destruct (py_int x) as [n|]; [|done]. destruct (py_int y) as [m|]; [|done].
  destruct (_ && _) eqn:H; [|done]. intros [= <- <-].
  apply andb_true_iff in H as [[H1%Z.leb_le H2%Z.leb_le]%andb_true_iff H3%Z.leb_le].
  done.
Qed.

Lemma select_pages_range (total last : Z) (n : nat) :
  ∀ stdin, (length stdin ≤ n)%nat →
  match select_pages total last stdin with
  | Selected s e => 1 ≤ s ∧ e ≤ total ∧ (1 ≤ total → s ≤ e)
  | Exit status => status = 0 ∨ status = 1
  end.
Proof.
  induction n as [|n IH]; intros [|line rest] Hlen; simpl in Hlen;
    try lia; cbn [select_pages]; [by right | by right |].
  assert (∀ l, (length l ≤ length rest)%nat →
            match select_pages total last l with
            | Selected s e => 1 ≤ s ∧ e ≤ total ∧ (1 ≤ total → s ≤ e)
            | Exit status => status = 0 ∨ status = 1
            end) as Hrec by (intros l Hl; apply IH; lia).
  destruct (String.eqb _ "q"); [by left|].
  destruct (String.eqb _ "r").
  { destruct (0 <? last) eqn:H0; [|by apply Hrec].
    destruct (total <? last + 1) eqn:H1; [by left|].
    apply Z.ltb_lt in H0. apply Z.ltb_ge in H1. lia. }
  destruct (String.eqb _ "a"); [lia|].
  destruct (String.eqb _ "n").
  { destruct rest as [|line' rest']; [by right|].
    destruct (parse_range total (py_strip line')) as [[s e]|] eqn:Hp.
    - apply parse_range_sound in Hp. lia.
    - apply Hrec. simpl. lia. }
  destruct (py_in "-" _); [|by apply Hrec].
  destruct (parse_range total _) as [[s e]|] eqn:Hp; [|by apply Hrec].
  apply parse_range_sound in Hp. lia.
Qed.

(** X16.  Whatever is typed at the menu, the range it selects lies in
    the document: it starts at page 1 or later, ends at the last page
    or earlier and, the document having a page, is not empty; and the
    menu ends the program with status 0 or 1 only. *)
Theorem selected_range_lies_in_the_document (total last : Z)
    (stdin : list string) :
  match select_pages total last stdin with
  | Selected s e => 1 ≤ s ∧ e ≤ total ∧ (1 ≤ total → s ≤ e)
  | Exit status => status = 0 ∨ status = 1
  end.
Proof. by apply (select_pages_range total last (length stdin)). Qed.

Lemma py_str_int_pos (p : positive) :
  py_str_int (Z.pos p) = NilEmpty.string_of_uint (Pos.to_uint p)
  ∧ Pos.to_uint p ≠ Nil.
Proof.
  pose proof (DecimalPos.Unsigned.to_uint_nonnil p) as Hnil. split; [|done].
  unfold py_str_int. simpl. unfold Pos.to_int.
  unfold NilZero.string_of_int, NilZero.string_of_uint.
  by destruct (Pos.to_uint p).
Qed.

Lemma py_str_int_digits (a : Z) :
  1 ≤ a →
  Forall (λ c, ascii_digit c = true) (chars (py_str_int a))
  ∧ chars (py_str_int a) ≠ [].
Proof.
  intros Ha. destruct a as [|p|p]; try lia.
  destruct (py_str_int_pos p) as [-> Hnil].
  destruct (chars_string_of_uint (Pos.to_uint p)) as [H1 H2]. split; [done|].
  intros H. rewrite H in H2. simpl in H2. by destruct (Pos.to_uint p).
Qed.

Lemma strip_int_digits (l : list ascii) :
  Forall (λ c, ascii_digit c = true) l →
  rev (lstrip_int (rev (lstrip_int l))) = l.
Proof.
  intros Hall. destruct l as [|c l]; [done|].
  assert (ascii_digit c = true) as Hc by (by apply Forall_cons in Hall as [? _]).
  rewrite lstrip_int_digit by done.
  destruct (rev (c :: l)) as [|c' l'] eqn:Hrev.
  - apply (f_equal (@length ascii)) in Hrev. rewrite length_rev in Hrev. done.
  - rewrite lstrip_int_digit; [by rewrite <- Hrev, rev_involutive|].
    rewrite Forall_forall in Hall. apply Hall.
    apply list_elem_of_In, in_rev. rewrite Hrev. by left.
Qed.

Lemma py_int_py_str_int (a : Z) : 1 ≤ a → py_int (py_str_int a) = Ok a.
Proof.
  intros Ha. destruct (py_str_int_digits a Ha) as [Hall Hne].
  unfold py_int. rewrite strip_int_digits by done.
  destruct (chars (py_str_int a)) as [|c l] eqn:Hchars; [done|].
  assert (ascii_digit c = true) as Hc by (by apply Forall_cons in Hall as [? _]).
  destruct (digit_facts c Hc) as (_ & -> & -> & _).
  unfold digits_value. rewrite digits_ok_all by (done || by left).
  rewrite filter_digits_all by done. rewrite <- Hchars, str_chars.
  destruct a as [|p|p]; try lia.
  destruct (py_str_int_pos p) as [-> _]. rewrite NilEmpty.usu.
  change (N.of_uint (Pos.to_uint p)) with (Pos.of_uint (Pos.to_uint p)).
  by rewrite DecimalPos.Unsigned.of_to.
Qed.

Lemma split_dash_digits (l : list ascii) :
  Forall (λ c, ascii_digit c = true) l → ∀ cur,
  split_dash cur l = [str (rev cur ++ l)].
Proof.
  induction 1 as [|c l Hc Hl IH]; intros cur; simpl.
  - by rewrite app_nil_r.
  - destruct (digit_facts c Hc) as (_ & -> & _). rewrite IH. simpl.
    by rewrite <- app_assoc.
Qed.

Lemma split_dash_range (l1 l2 : list ascii) :
  Forall (λ c, ascii_digit c = true) l1 →
  Forall (λ c, ascii_digit c = true) l2 → ∀ cur,
  split_dash cur (l1 ++ "-"%char :: l2) = [str (rev cur ++ l1); str l2].
Proof.
  intros H1 H2. induction H1 as [|c l Hc Hl IH]; intros cur; simpl.
  - rewrite app_nil_r. by rewrite split_dash_digits.
  - destruct (digit_facts c Hc) as (_ & -> & _). rewrite IH. simpl.
    by rewrite <- app_assoc.
Qed.

Lemma chars_range_text (a b : Z) :
  chars (range_text a b) = chars (py_str_int a) ++ "-"%char :: chars (py_str_int b).
Proof. unfold range_text. by rewrite !chars_app. Qed.

Lemma parse_range_range_text (total a b : Z) :
  1 ≤ a → a ≤ b → b ≤ total →
  parse_range total (range_text a b) = Some (a, b).
Proof.
  intros Ha Hab Hb. unfold parse_range. rewrite chars_range_text.
  destruct (py_str_int_digits a Ha) as [HA _].
  destruct (py_str_int_digits b) as [HB _]; [lia|].
  rewrite split_dash_range by done. simpl. rewrite !str_chars.
  rewrite !py_int_py_str_int by lia.
  by rewrite !(proj2 (Z.leb_le _ _)) by lia.
Qed.

Lemma digit_plain (c : ascii) :
  ascii_digit c = true → py_isspace c = false ∧ py_lower_char c = c.
Proof.
  destruct c as [[] [] [] [] [] [] [] []]; vm_compute; intros H;
    try discriminate H; done.
Qed.

Lemma py_in_dash (pre post : string) : py_in "-" (pre +:+ "-" +:+ post) = true.
Proof.
  induction pre as [|c pre IH].
  - rewrite append_nil, append_cons, append_nil. by destruct post.
  - rewrite append_cons. cbn [py_in]. rewrite IH. apply orb_true_r.
Qed.

Lemma range_text_plain (a b : Z) :
  1 ≤ a → 1 ≤ b →
  py_lower (py_strip (range_text a b)) = range_text a b
  ∧ py_strip (range_text a b) = range_text a b
  ∧ py_in "-" (range_text a b) = true
  ∧ (3 ≤ String.length (range_text a b))%nat.
Proof.
  intros Ha Hb.
  destruct (py_str_int_digits a Ha) as [HA HAne].
  destruct (py_str_int_digits b Hb) as [HB HBne].
  assert (py_strip (range_text a b) = range_text a b) as Hstrip.
  { apply py_strip_id; rewrite chars_range_text.
    - destruct (chars (py_str_int a)) as [|c l]; [done|]. simpl.
      apply Forall_cons in HA as [Hc _]. by destruct (digit_plain c Hc).
    - destruct (chars (py_str_int b)) as [|c l] using rev_ind; [done|].
      rewrite app_comm_cons, app_assoc, last_snoc. simpl.
      apply Forall_app in HB as [_ [Hc _]%Forall_cons].
      by destruct (digit_plain c Hc). }
  rewrite Hstrip. split; [|split; [done|split]].
  - unfold py_lower. rewrite chars_range_text, map_app. cbn [map].
    assert (∀ l, Forall (λ c, ascii_digit c = true) l → map py_lower_char l = l)
      as Hmap.
    { induction 1 as [|c l Hc Hl IH]; [done|]. simpl.
      rewrite IH. by destruct (digit_plain c Hc) as [_ ->]. }
    rewrite !Hmap by done. change (py_lower_char "-") with "-"%char.
    by rewrite <- chars_range_text, str_chars.
  - apply py_in_dash.
  - rewrite string_length_chars, chars_range_text, length_app. simpl.
    destruct (chars (py_str_int a)); [done|].
    destruct (chars (py_str_int b)); [done|]. simpl. lia.
Qed.

(** X17.  A range typed as two page numbers with a dash between them
    is read back as these numbers when it lies in the document, and
    starts the run on it, typed at the first prompt or after the answer
    [n]. *)
Theorem typed_range_is_selected (total last a b : Z) (rest : list string) :
  1 ≤ a → a ≤ b → b ≤ total →
  parse_range total (range_text a b) = Some (a, b)
  ∧ select_pages total last (range_text a b :: rest) = Selected a b
  ∧ select_pages total last ("n" :: range_text a b :: rest) = Selected a b.
Proof.
  intros Ha Hab Hb.
  pose proof (parse_range_range_text total a b Ha Hab Hb) as Hparse.
  destruct (range_text_plain a b) as (Hlow & Hstrip & Hin & Hlen); [lia..|].
  split; [done|]. split.
  - cbn [select_pages]. rewrite Hlow.
    assert (∀ m : string, String.length m = 1%nat →
              String.eqb (range_text a b) m = false) as Hneq.
    { intros m Hm. apply String.eqb_neq. intros H. rewrite H in Hlen. lia. }
    rewrite !Hneq by done. by rewrite Hin, Hparse.
  - cbn [select_pages].
    change (py_lower (py_strip "n")) with "n". simpl String.eqb. cbv iota.
    by rewrite Hstrip, Hparse.
Qed.

Lemma typed_range_is_selected_witness :
  1 ≤ 2 ∧ 2 ≤ 5 ∧ 5 ≤ 10
  ∧ range_text 2 5 = "2-5"
  ∧ parse_range 10 (range_text 2 5) = Some (2, 5)
  ∧ select_pages 10 0 [range_text 2 5] = Selected 2 5
  ∧ select_pages 10 0 ["n"; range_text 2 5] = Selected 2 5.
Proof.
  assert (1 ≤ 2) as H1 by lia. assert (2 ≤ 5) as H2 by lia.
  assert (5 ≤ 10) as H3 by lia.
  split; [exact H1|]. split; [exact H2|]. split; [exact H3|].
  split; [reflexivity|].
  exact (typed_range_is_selected 10 0 2 5 [] H1 H2 H3).
Defined.

(** ** The resume query after a run *)

Lemma png_page_name (txt : gmap string txt_file) (p n : Z) :
  0 ≤ p → png_page txt (png_name p) = Ok (Some n) → n = p.
Proof.
  intros Hp. unfold png_page, png_name.
  destruct (fmt04d_no_dot p Hp) as [Hdot Hne].
  destruct (png_name_parts (fmt04d p) Hdot Hne) as [-> ->].
  rewrite py_isdigit_fmt04d by done. simpl.
  case_bool_decide; [|done]. rewrite py_int_fmt04d by done. by intros [= <-].
Qed.

Lemma get_last_same (st st' : store) :
  png_images st' = png_images st →
  (∀ f, f ∈ png_images st →
        png_page (text_files st') f = png_page (text_files st) f) →
  get_last_processed_page (on_disk st') = get_last_processed_page (on_disk st).
Proof.
  intros Himg Hpage. unfold get_last_processed_page. simpl. rewrite Himg.
  assert (∀ acc,
    fold_left (λ acc f, scan_png (text_files st') f acc)
              (elements (png_images st)) acc
    = fold_left (λ acc f, scan_png (text_files st) f acc)
                (elements (png_images st)) acc) as H.
  { intros acc. apply fold_left_ext_in. intros a f Hf.
    rewrite !scan_png_eq, Hpage; [done|]. by apply elem_of_elements. }
  by rewrite H.
Qed.

Lemma mkdirs_resume_point (o : out_dir) :
  get_last_processed_page (on_disk (mkdirs o)) = get_last_processed_page o.
Proof.
  destruct o as [[png|] [txt|]]; unfold get_last_processed_page, mkdirs; simpl.
  - done.
  - assert (∀ l S, fold_left (λ acc f, scan_png ∅ f acc) l (Ok S) = Ok S) as H.
    { induction l as [|f l IH]; intros S; [done|]. cbn [fold_left].
      rewrite scan_png_eq. unfold png_page. rewrite lookup_empty.
      rewrite (bool_decide_eq_false_2 (is_Some None)) by (by intros [? ?]).
      destruct (_ && _); apply IH. }
    rewrite H. by rewrite bool_decide_eq_true_2.
  - by rewrite elements_empty.
  - by rewrite elements_empty.
Qed.

Lemma task_png_own (pages : Z → page_env) (st : store) (q : Z) :
  png_exists (task_store pages st q) (png_name (q + 1))
  = png_exists st (png_name (q + 1)) || renders (pages q).
Proof.
  unfold task_store. rewrite process_page_task_unfold.
  destruct (already_done st (q + 1)) eqn:Hdone.
  - simpl. unfold already_done in Hdone.
    apply andb_true_iff in Hdone as [-> _]. done.
  - unfold fresh_outcome, apply_outcome, renders, png_exists.
    destruct (render (pages q)) as [[]|e]; [destruct (ocr (pages q)) as [text|e]|];
      simpl.
    + rewrite orb_true_r. apply bool_decide_eq_true_2.
      apply elem_of_union. left. by apply elem_of_singleton.
    + rewrite orb_true_r. apply bool_decide_eq_true_2.
      apply elem_of_union. left. by apply elem_of_singleton.
    + rewrite orb_false_r. by rewrite (left_id_L ∅ (∪)).
Qed.

Lemma task_resume_point (pages : Z → page_env) (st : store) (q k0 : Z) :
  0 ≤ q →
  get_last_processed_page (on_disk st) = Ok k0 →
  get_last_processed_page (on_disk (task_store pages st q))
  = Ok (if png_exists st (png_name (q + 1)) || renders (pages q)
        then Z.max k0 (q + 1) else k0).
Proof.
  intros Hq Hk0. rewrite <- task_png_own.
  pose proof (task_store_writes_txt pages st q) as Htxt.
  destruct (get_last_processed_page_ok st k0 Hk0) as (Hok & Hle & Hwit).
  unfold task_store in *. rewrite process_page_task_unfold in *.
  destruct (already_done st (q + 1)) eqn:Hdone.
  - simpl in *. unfold already_done in Hdone.
    apply andb_true_iff in Hdone as [Hpng Htx]. rewrite Hpng.
    unfold png_exists in Hpng. apply bool_decide_eq_true in Hpng.
    assert (q + 1 ≤ k0) as Hb.
    { apply (Hle (png_name (q + 1))); [done|]. apply png_page_own; [lia | done]. }
    rewrite Hk0. f_equal. lia.
  - cbn [fst] in *.
    assert (∀ f, f ≠ png_name (q + 1) →
              png_page (text_files (apply_outcome (q + 1)
                          (fresh_outcome (pages q) (q + 1)) st)) f
              = png_page (text_files st) f) as Hother.
    { intros f Hf. unfold apply_outcome. simpl. by apply png_page_other. }
    assert (∀ f, f ∈ png_images (apply_outcome (q + 1)
                        (fresh_outcome (pages q) (q + 1)) st) →
              f = png_name (q + 1) ∨ f ∈ png_images st) as Hin.
    { intros f [H%fresh_outcome_png|H]%elem_of_union; [by left | by right]. }
    destruct (png_exists _ _) eqn:Hpng.
    + unfold png_exists in Hpng. apply bool_decide_eq_true in Hpng.
      apply get_last_processed_page_intro.
      * intros f Hf. destruct (decide (f = png_name (q + 1))) as [->|Hne].
        -- exists (Some (q + 1)). apply png_page_own; [lia | done].
        -- rewrite Hother by done. apply Hok.
           by destruct (Hin f Hf) as [?|?].
      * destruct (decide (k0 ≤ q + 1)) as [Hk|Hk].
        -- exists (png_name (q + 1)). split; [done|].
           rewrite Z.max_r by done. apply png_page_own; [lia | done].
        -- destruct Hwit as (f & Hf & Hfk); [lia..|].
           assert (f ≠ png_name (q + 1)) as Hne.
           { intros ->. apply png_page_name in Hfk; lia. }
           exists f. split; [apply elem_of_union; by right|].
           rewrite Z.max_l by lia. by rewrite Hother.
      * intros f n Hf Hn. destruct (decide (f = png_name (q + 1))) as [->|Hne].
        -- apply png_page_name in Hn; lia.
        -- rewrite Hother in Hn by done.
           assert (n ≤ k0); [|lia]. apply (Hle f); [|done].
           by destruct (Hin f Hf) as [?|?].
    + unfold png_exists in Hpng. apply bool_decide_eq_false in Hpng.
      rewrite <- Hk0. apply get_last_same.
      * apply set_eq. intros f. split; [|intros H; apply elem_of_union; by right].
        intros Hf. destruct (Hin f Hf) as [->|?]; done.
      * intros f Hf. apply Hother. intros ->. apply Hpng.
        apply elem_of_union. by right.
Qed.

Lemma pool_resume_point (pages : Z → page_env) (l : list Z) :
  NoDup l → (∀ q, q ∈ l → 0 ≤ q) → ∀ st k0,
  get_last_processed_page (on_disk st) = Ok k0 →
  ∃ k, get_last_processed_page (on_disk (fold_left (task_store pages) l st)) = Ok k
    ∧ k0 ≤ k
    ∧ (∀ q, q ∈ l → imaged st pages (q + 1) = true → q + 1 ≤ k)
    ∧ (k = k0 ∨ ∃ q, q ∈ l ∧ k = q + 1 ∧ imaged st pages (q + 1) = true).
Proof.
  unfold imaged.
  induction 1 as [|q l Hq Hnd IH]; intros Hpos st k0 Hk0.
  - exists k0. split; [done|]. split; [lia|]. split; [|by left].
    intros q Hq. by apply elem_of_nil in Hq.
  - cbn [fold_left].
    pose proof (task_resume_point pages st q k0
                  (Hpos q (list_elem_of_here _ _)) Hk0) as Hk1.
    destruct (IH (λ q' H, Hpos q' (list_elem_of_further _ _ _ H)) _ _ Hk1)
      as (k & Hk & Hge & Hbound & Hmem).
    assert (∀ q', q' ∈ l →
              png_exists (task_store pages st q) (png_name (q' + 1))
              = png_exists st (png_name (q' + 1))) as Hframe.
    { intros q' Hq'. apply task_frame_png_exists. by intros ->. }
    exists k. split; [done|].
    replace (q + 1 - 1) with q in * by lia.
    split; [destruct (_ || _) in Hge; lia|]. split.
    + intros q' [->|Hq']%elem_of_cons Him.
      * replace (q + 1 - 1) with q in Him by lia. rewrite Him in Hge. lia.
      * apply Hbound; [done|]. by rewrite Hframe.
    + destruct Hmem as [->|(q' & Hq' & -> & Him)].
      * destruct (_ || _) eqn:Him; [|by left].
        destruct (decide (k0 ≤ q + 1)).
        -- right. exists q. split; [apply list_elem_of_here|].
           replace (q + 1 - 1) with q by lia. split; [lia | done].
        -- left. lia.
      * right. exists q'. split; [by apply list_elem_of_further|].
        split; [done|]. by rewrite <- Hframe.
Qed.

Lemma process_pdf_resume_point (env : run_env) (s e : Z) (o : out_dir)
    (k0 : Z) :
  pool_error env = None → 1 ≤ s →
  get_last_processed_page o = Ok k0 →
  ∃ k, get_last_processed_page (on_disk (process_pdf env s e o).1) = Ok k
    ∧ k0 ≤ k
    ∧ (∀ p, s ≤ p ≤ e → imaged (mkdirs o) (page_envs env) p = true → p ≤ k)
    ∧ (k = k0 ∨ (s ≤ k ≤ e ∧ imaged (mkdirs o) (page_envs env) k = true)).
Proof.
  intros Hpool Hs Hk0. rewrite (process_pdf_store env s e o Hpool).
  rewrite <- mkdirs_resume_point in Hk0.
  destruct (pool_resume_point (page_envs env) (submitted s e)
              (submitted_NoDup s e)) with (st := mkdirs o) (k0 := k0)
    as (k & Hk & Hge & Hbound & Hmem); [|done|].
  { intros q Hq%submitted_elem. lia. }
  exists k. split; [done|]. split; [done|]. split.
  - intros p Hp Him. specialize (Hbound (p - 1)).
    replace (p - 1 + 1) with p in Hbound by lia.
    apply Hbound; [|done]. apply submitted_elem. lia.
  - destruct Hmem as [->|(q & Hq%submitted_elem & -> & Him)]; [by left|].
    right. by split.
Qed.

(** X18.  The resume query after a run.  If the query answered [k0]
    before a run over pages [s] to [e], it answers after the run the
    largest of [k0] and the pages of the range whose image is in the
    directory (it was there before, or the page was rendered): the
    answer never decreases, bounds every such page, and is [k0] or one
    of these pages. *)
Theorem resume_point_after_a_run (env : run_env) (s e : Z) (o : out_dir)
    (k0 : Z) :
  pool_error env = None → 1 ≤ s →
  get_last_processed_page o = Ok k0 →
  ∃ k, get_last_processed_page (on_disk (process_pdf env s e o).1) = Ok k
    ∧ k0 ≤ k
    ∧ (∀ p, s ≤ p ≤ e → imaged (mkdirs o) (page_envs env) p = true → p ≤ k)
    ∧ (k = k0 ∨ (s ≤ k ≤ e ∧ imaged (mkdirs o) (page_envs env) k = true)).
Proof. apply process_pdf_resume_point. Qed.

Lemma resume_point_after_a_run_witness :
  pool_error (run unreadable_scan) = None ∧ 1 ≤ 2
  ∧ get_last_processed_page page1_done = Ok 1
  ∧ get_last_processed_page
      (on_disk (process_pdf (run unreadable_scan) 2 3 page1_done).1) = Ok 3
  ∧ ∃ k, get_last_processed_page
           (on_disk (process_pdf (run unreadable_scan) 2 3 page1_done).1) = Ok k
      ∧ 1 ≤ k
      ∧ (∀ p, 2 ≤ p ≤ 3 →
           imaged (mkdirs page1_done) (page_envs (run unreadable_scan)) p = true →
           p ≤ k)
      ∧ (k = 1 ∨ (2 ≤ k ≤ 3
                  ∧ imaged (mkdirs page1_done) (page_envs (run unreadable_scan)) k
                    = true)).
Proof.
  assert (1 ≤ 2) as H by lia.
  assert (get_last_processed_page page1_done = Ok 1) as Hk
    by (vm_compute; reflexivity).
  split; [reflexivity|]. split; [exact H|]. split; [exact Hk|].
  split; [vm_compute; reflexivity|].
  exact (resume_point_after_a_run (run unreadable_scan) 2 3 page1_done 1
           eq_refl H Hk).
Defined.

(** X19.  Resuming.  Let the query answer [k0] before a run over
    pages 1 to [m] that leaves the image of page [m].  After the run
    the query answers the larger of [k0] and [m]: so the answer [r] at
    the menu starts the next run at the page after it, at page [m + 1]
    when [k0] is not beyond [m], or ends the program with status 0 when
    the document has no such page.  A page below [m] whose rendering
    failed is still incomplete, and the resumed run does not come back
    to it. *)
Theorem resume_starts_after_the_last_image (env : run_env) (o : out_dir)
    (k0 m : Z) :
  pool_error env = None →
  get_last_processed_page o = Ok k0 → 1 ≤ m →
  imaged (mkdirs o) (page_envs env) m = true →
  get_last_processed_page (on_disk (process_pdf env 1 m o).1) = Ok (Z.max k0 m)
  ∧ (∀ total rest,
       select_pages total (Z.max k0 m) ("r" :: rest)
       = if total <? Z.max k0 m + 1 then Exit 0
         else Selected (Z.max k0 m + 1) total)
  ∧ (∀ p, 1 ≤ p < m → imaged (mkdirs o) (page_envs env) p = false →
       already_done (process_pdf env 1 m o).1 p = false
       ∧ ∀ total rest s e,
           select_pages total (Z.max k0 m) ("r" :: rest) = Selected s e → p < s).
Proof.
  intros Hpool Hk0 Hm Him.
  assert (∀ total rest,
            select_pages total (Z.max k0 m) ("r" :: rest)
            = if total <? Z.max k0 m + 1 then Exit 0
              else Selected (Z.max k0 m + 1) total) as Hr.
  { intros total rest. cbn [select_pages].
    change (py_lower (py_strip "r")) with "r". simpl String.eqb. cbv iota.
    by rewrite (proj2 (Z.ltb_lt 0 (Z.max k0 m))) by lia. }
  split; [|split; [done|]].
  - destruct (process_pdf_resume_point env 1 m o k0 Hpool) as (k & Hk & Hge & Hb & Hmem);
      [lia | done |].
    assert (m ≤ k) by (apply Hb; [lia | done]).
    assert (k = Z.max k0 m) as -> by (destruct Hmem as [->|[? _]]; lia). done.
  - intros p Hp Hno. split.
    + rewrite process_pdf_done by done.
      rewrite bool_decide_eq_true_2 by lia. exact Hno.
    + intros total rest s e. rewrite Hr.
      destruct (total <? Z.max k0 m + 1); [done|].
      intros [= <- <-]. lia.
Qed.

Lemma resume_starts_after_the_last_image_witness :
  pool_error good_run = None
  ∧ get_last_processed_page page1_done = Ok 1 ∧ 1 ≤ 3
  ∧ imaged (mkdirs page1_done) (page_envs good_run) 3 = true
  ∧ get_last_processed_page (on_disk (process_pdf good_run 1 3 page1_done).1) = Ok 3
  ∧ select_pages 5 3 ["r"] = Selected 4 5
  ∧ select_pages 3 3 ["r"] = Exit 0
  ∧ get_last_processed_page leftover_page9 = Ok 9
  ∧ get_last_processed_page (on_disk (process_pdf good_run 1 3 leftover_page9).1)
    = Ok 9
  ∧ select_pages 5 9 ["r"] = Exit 0.
Proof.
  assert (get_last_processed_page page1_done = Ok 1) as Hk
    by (vm_compute; reflexivity).
  assert (get_last_processed_page leftover_page9 = Ok 9) as Hk9
    by (vm_compute; reflexivity).
  assert (1 ≤ 3) as H13 by lia.
  assert (imaged (mkdirs page1_done) (page_envs good_run) 3 = true) as Him
    by (vm_compute; reflexivity).
  assert (imaged (mkdirs leftover_page9) (page_envs good_run) 3 = true) as Him9
    by (vm_compute; reflexivity).
  destruct (resume_starts_after_the_last_image good_run page1_done 1 3
              eq_refl Hk H13 Him) as (H1 & H2 & _).
  destruct (resume_starts_after_the_last_image good_run leftover_page9 9 3
              eq_refl Hk9 H13 Him9) as (H3 & H4 & _).
  split; [reflexivity|]. split; [exact Hk|]. split; [exact H13|].
  split; [exact Him|]. split; [exact H1|].
  split; [exact (H2 5 [])|]. split; [exact (H2 3 [])|].
  split; [exact Hk9|]. split; [exact H3 | exact (H4 5 [])].
Defined.

(** ** Output directories *)

Lemma suffix_at_ext (s ext : string) :
  s ≠ EmptyString → ext ≠ EmptyString →
  Forall (λ c, Ascii.eqb c "." = false) (chars ext) →
  suffix_at (s +:+ "." +:+ ext) = Some (String.length s).
Proof.
  intros Hs Hext Hdot. unfold suffix_at. rewrite chars_app.
  assert (chars ("." +:+ ext) = "."%char :: chars ext) as ->.
  { by rewrite append_cons, append_nil. }
  rewrite rfind_dot_last by done. simpl.
  rewrite string_length_append, <- string_length_chars.
  rewrite append_cons, append_nil. simpl.
  destruct s as [|c s]; [done|]. destruct ext as [|c' ext]; [done|]. simpl.
  destruct (_ <? _) eqn:H; [done|]. apply Z.ltb_ge in H. lia.
Qed.

Lemma py_stem_ext (s ext : string) :
  s ≠ EmptyString → ext ≠ EmptyString →
  Forall (λ c, Ascii.eqb c "." = false) (chars ext) →
  py_stem (s +:+ "." +:+ ext) = s.
Proof.
  intros Hs Hext Hdot. unfold py_stem. rewrite suffix_at_ext by done.
  apply substring_append_l.
Qed.

Lemma replace_spaces_idem (s : string) :
  replace_spaces (replace_spaces s) = replace_spaces s.
Proof.
  induction s as [|c s IH]; [done|]. simpl. rewrite IH.
  by destruct (Ascii.eqb c " ") eqn:Hc; [|rewrite Hc].
Qed.

Lemma replace_spaces_none (s : string) :
  Forall (λ c, c ≠ " "%char) (chars (replace_spaces s)).
Proof.
  induction s as [|c s IH]; [constructor|]. simpl. constructor; [|done].
  destruct (Ascii.eqb c " ") eqn:Hc; [done|]. by apply Ascii.eqb_neq.
Qed.

(** X20.  The output directory of a document is named after the stem
    of its file name with every space replaced by an underscore: the
    extension plays no part, no space is left in the name, and a file
    whose stem has underscores where another has spaces gets the same
    directory. *)
Theorem output_directory_ignores_extension_and_spaces (s ext ext' : string) :
  s ≠ EmptyString →
  ext ≠ EmptyString → Forall (λ c, Ascii.eqb c "." = false) (chars ext) →
  ext' ≠ EmptyString → Forall (λ c, Ascii.eqb c "." = false) (chars ext') →
  output_dir_name (s +:+ "." +:+ ext) = replace_spaces s +:+ "_processed"
  ∧ output_dir_name (s +:+ "." +:+ ext') = output_dir_name (s +:+ "." +:+ ext)
  ∧ output_dir_name (replace_spaces s +:+ "." +:+ ext)
    = output_dir_name (s +:+ "." +:+ ext)
  ∧ Forall (λ c, c ≠ " "%char) (chars (replace_spaces s)).
Proof.
  intros Hs Hext Hdot Hext' Hdot'. unfold output_dir_name.
  rewrite !py_stem_ext; try done.
  - split; [done|]. split; [done|]. split; [by rewrite replace_spaces_idem|].
    apply replace_spaces_none.
  - by destruct s.
Qed.

Lemma output_directory_ignores_extension_and_spaces_witness :
  output_dir_name "a report.pdf" = "a_report_processed"
  ∧ output_dir_name "a report.PDF" = output_dir_name "a report.pdf"
  ∧ output_dir_name "a_report.pdf" = output_dir_name "a report.pdf".
Proof.
  assert ("a report" ≠ EmptyString) as H1 by done.
  assert ("pdf" ≠ EmptyString) as H2 by done.
  assert ("PDF" ≠ EmptyString) as H3 by done.
  assert (Forall (λ c, Ascii.eqb c "." = false) (chars "pdf")) as H4
    by (repeat constructor).
  assert (Forall (λ c, Ascii.eqb c "." = false) (chars "PDF")) as H5
    by (repeat constructor).
  destruct (output_directory_ignores_extension_and_spaces "a report" "pdf" "PDF"
              H1 H2 H4 H3 H5) as (Ha & Hb & Hc & _).
  split; [exact Ha|]. split; [exact Hb | exact Hc].
Defined.

Lemma mkdirs_on_disk (st : store) : mkdirs (on_disk st) = st.
Proof. by destruct st. Qed.

Lemma mkdir_output_present (dir : string) (outs : gmap string out_dir)
    (o : out_dir) :
  outs !! dir = Some o → mkdir_output dir outs = outs ∧ read_output dir outs = o.
Proof. intros H. unfold mkdir_output, read_output. by rewrite H. Qed.

(** X21.  Two documents of a batch that share an output directory.
    When the first was processed with every page rendered and the
    second has no more pages than the first, processing the second
    leaves every image and every text artifact under the output
    directories as it was and succeeds: every page of it is taken for
    complete, none of it is rendered or recognized, and its run writes
    the reports of the shared directory anew, over its own pages, from
    the text of the first document. *)
Theorem second_document_of_a_directory_is_skipped (d1 d2 : document)
    (outs : gmap string out_dir) (n1 n2 : Z) :
  output_dir_name (doc_name d2) = output_dir_name (doc_name d1) →
  open_doc d1 = Ok n1 → pool_error (run d1) = None →
  (∀ p, 1 ≤ p ≤ n1 → renders (page_envs (run d1) (p - 1)) = true) →
  open_doc d2 = Ok n2 → pool_error (run d2) = None → 1 ≤ n2 → n2 ≤ n1 →
  process_single_pdf d2 (process_single_pdf d1 outs).1
  = ((process_single_pdf d1 outs).1, (true, None))
  ∧ tally_of (process_pdf (run d2) 1 n2
                (read_output (output_dir_name (doc_name d2))
                             (process_single_pdf d1 outs).1))
    = Some (Tally n2 0 [])
  ∧ reports_of (process_pdf (run d2) 1 n2
                  (read_output (output_dir_name (doc_name d2))
                               (process_single_pdf d1 outs).1))
    = Some (Reports
              (combine_text_files
                 (process_pdf (run d1) 1 n1
                    (read_output (output_dir_name (doc_name d1)) outs)).1 1 n2)
              (generate_word_count_csv
                 (process_pdf (run d1) 1 n1
                    (read_output (output_dir_name (doc_name d1)) outs)).1 1 n2)
              (generate_proper_names_csv (spacy (run d2))
                 (process_pdf (run d1) 1 n1
                    (read_output (output_dir_name (doc_name d1)) outs)).1 1 n2)).
Proof.
  intros Hdir Hopen1 Hpool1 Hrender Hopen2 Hpool2 Hn2 Hle.
  pose proof (process_single_pdf_own d1 outs n1 Hopen1) as Hown.
  rewrite <- Hdir in Hown. specialize (Hown ltac:(lia)).
  destruct (mkdir_output_present _ _ _ Hown) as [Hmk Hread].
  assert (∀ p, 1 ≤ p ≤ n2 →
            already_done (mkdirs (read_output (output_dir_name (doc_name d2))
                                    (process_single_pdf d1 outs).1)) p = true)
    as Hdone.
  { intros p Hp. rewrite Hread, mkdirs_on_disk, process_pdf_done by done.
    rewrite bool_decide_eq_true_2 by lia. rewrite Hrender by lia.
    apply orb_true_r. }
  destruct (process_pdf_complete_range (run d2) 1 n2 _ Hpool2 Hdone)
    as (Hst & Htally & Hreports).
  split; [|split].
  - unfold process_single_pdf at 1. rewrite Hopen2.
    rewrite (proj2 (Z.eqb_neq n2 0)) by lia. cbv zeta. rewrite Hmk.
    destruct (process_pdf (run d2) 1 n2 _) as [st r] eqn:Hrun.
    simpl in Hst. subst st.
    destruct (process_pdf_raises (run d2) 1 n2
                (read_output (output_dir_name (doc_name d2))
                   (process_single_pdf d1 outs).1)) as [_ Hok].
    destruct (Hok Hpool2) as [summary Hsum]. rewrite Hrun in Hsum.
    simpl in Hsum. subst r.
    rewrite Hread, mkdirs_on_disk.
    rewrite insert_id; [done|]. rewrite Hown. f_equal.
  - rewrite Htally. do 2 f_equal. lia.
  - rewrite Hreports, (proj2 (Z.leb_le 1 n2)) by done.
    by rewrite Hread, mkdirs_on_disk, Hdir.
Qed.

Lemma second_document_of_a_directory_is_skipped_witness :
  output_dir_name (doc_name report_copy) = output_dir_name (doc_name report_pdf)
  ∧ (∀ p, 1 ≤ p ≤ 2 → renders (page_envs (run report_pdf) (p - 1)) = true)
  ∧ process_single_pdf report_copy (process_single_pdf report_pdf ∅).1
    = ((process_single_pdf report_pdf ∅).1, (true, None))
  ∧ tally_of (process_pdf (run report_copy) 1 2
                (read_output (output_dir_name (doc_name report_copy))
                             (process_single_pdf report_pdf ∅).1))
    = Some (Tally 2 0 [])
  ∧ combined_output <$>
      reports_of (process_pdf (run report_copy) 1 2
                    (read_output (output_dir_name (doc_name report_copy))
                                 (process_single_pdf report_pdf ∅).1))
    = Some (combine_text_files
              (process_pdf (run report_pdf) 1 2
                 (read_output (output_dir_name (doc_name report_pdf)) ∅)).1 1 2).
Proof.
  assert (∀ p, 1 ≤ p ≤ 2 → renders (page_envs (run report_pdf) (p - 1)) = true)
    as Hrender by (intros p _; reflexivity).
  assert (1 ≤ 2) as H12 by lia. assert (2 ≤ 2) as H22 by lia.
  split; [reflexivity|]. split; [exact Hrender|].
  destruct (second_document_of_a_directory_is_skipped report_pdf report_copy ∅ 2 2
              eq_refl eq_refl eq_refl Hrender eq_refl eq_refl H12 H22)
    as (H1 & H2 & H3).
  split; [exact H1|]. split; [exact H2|]. by rewrite H3.
Defined.

(** ** The order of a batch *)

Lemma ascii_compare_trans (a b c : ascii) :
  Ascii.compare a b ≠ Gt → Ascii.compare b c ≠ Gt →
  Ascii.compare a c ≠ Gt
  ∧ (Ascii.compare a c = Eq → Ascii.compare a b = Eq ∧ Ascii.compare b c = Eq).
Proof.
  unfold Ascii.compare. rewrite !N.compare_gt_iff, !N.compare_eq_iff. lia.
Qed.

Lemma string_compare_trans (s1 : string) :
  ∀ s2 s3, String.compare s1 s2 ≠ Gt → String.compare s2 s3 ≠ Gt →
           String.compare s1 s3 ≠ Gt.
Proof.
  induction s1 as [|c1 s1 IH]; intros [|c2 s2] [|c3 s3]; simpl; try done.
  intros H12 H23.
  assert (Ascii.compare c1 c2 ≠ Gt) as Ha by (by destruct (Ascii.compare c1 c2)).
  assert (Ascii.compare c2 c3 ≠ Gt) as Hb by (by destruct (Ascii.compare c2 c3)).
  destruct (ascii_compare_trans c1 c2 c3 Ha Hb) as [Hc Heq].
  destruct (Ascii.compare c1 c3) eqn:H13; [|done..].
  destruct (Heq eq_refl) as [E12 E23]. rewrite E12 in H12. rewrite E23 in H23.
  by apply IH with s2.
Qed.

Lemma name_le_trans (a b c : string) :
  String.leb a b = true → String.leb b c = true → String.leb a c = true.
Proof.
  unfold String.leb. intros H1 H2.
  pose proof (string_compare_trans a b c) as H.
  destruct (String.compare a b), (String.compare b c); try done;
    by destruct (String.compare a c); try done; exfalso; apply H.
Qed.

Lemma insert_by_name_sorted (d : document) (l : list document) :
  StronglySorted name_order l → StronglySorted name_order (insert_by_name d l).
Proof.
  induction 1 as [|d' l Hl IH Hd']; simpl.
  - apply SSorted_cons; [apply SSorted_nil | apply Forall_nil_2].
  - destruct (String.leb (doc_name d') (doc_name d)) eqn:Hle.
    + apply SSorted_cons; [done|].
      rewrite insert_by_name_Permutation. by apply Forall_cons.
    + assert (String.leb (doc_name d) (doc_name d') = true) as Hge.
      { destruct (String.leb_total (doc_name d) (doc_name d')) as [H|H]; [done|].
        by rewrite H in Hle. }
      apply SSorted_cons; [by apply SSorted_cons|].
      apply Forall_cons. split; [done|].
      eapply Forall_impl; [exact Hd'|]. intros x Hx.
      by apply name_le_trans with (doc_name d').
Qed.

Lemma sorted_by_name_sorted (l : list document) :
  StronglySorted name_order (sorted_by_name l).
Proof.
  unfold sorted_by_name.
  assert (∀ acc, StronglySorted name_order acc →
            StronglySorted name_order
              (fold_left (λ acc d, insert_by_name d acc) l acc)) as H.
  { induction l as [|d l IH]; intros acc Hacc; [done|].
    cbn [fold_left]. by apply IH, insert_by_name_sorted. }
  apply H, SSorted_nil.
Qed.

Lemma StronglySorted_filter_gen {A : Type} (R : A → A → Prop) (f : A → bool)
    (l : list A) :
  StronglySorted R l → StronglySorted R (List.filter f l).
Proof.
  induction 1 as [|x l Hl IH Hx]; simpl; [constructor|].
  destruct (f x); [|done]. apply SSorted_cons; [done|].
  apply Forall_forall. intros y Hy%list_elem_of_In%filter_In.
  rewrite Forall_forall in Hx. apply Hx, list_elem_of_In. tauto.
Qed.

Lemma StronglySorted_map {A B : Type} (R : B → B → Prop) (f : A → B)
    (l : list A) :
  StronglySorted (λ a b, R (f a) (f b)) l → StronglySorted R (map f l).
Proof.
  induction 1 as [|x l Hl IH Hx]; simpl; [constructor|].
  apply SSorted_cons; [done|]. by apply Forall_map.
Qed.

(** X22.  A batch takes the PDF files of the directory in ascending
    order of their names, and lists the documents that succeeded and
    those that failed in that order. *)
Theorem batch_runs_in_name_order (files : list document) (s : batch_state) :
  StronglySorted name_order (pdf_files files)
  ∧ ∀ s' results,
      process_directory files s = (s', Some results) →
      StronglySorted name_le (successful results)
      ∧ StronglySorted name_le (map fst (failed results)).
Proof.
  assert (StronglySorted name_order (pdf_files files)) as Hsorted
    by apply sorted_by_name_sorted.
  split; [done|]. intros s' results Hrun.
  assert (pdf_files files ≠ []) as Hne.
  { intros H. unfold process_directory in Hrun. by rewrite H in Hrun. }
  destruct (process_directory_results files s Hne) as (s1 & r1 & Heq & Hs & Hf & _).
  rewrite Heq in Hrun. injection Hrun as <- <-. rewrite Hs, Hf. split.
  - by apply StronglySorted_map, StronglySorted_filter_gen.
  - rewrite map_map. simpl.
    by apply StronglySorted_map, StronglySorted_filter_gen.
Qed.

(** ** What a batch leaves behind *)

Lemma process_single_pdf_dir (d : document) (outs : gmap string out_dir) :
  is_Some ((process_single_pdf d outs).1 !! output_dir_name (doc_name d)).
Proof.
  assert (is_Some (mkdir_output (output_dir_name (doc_name d)) outs
                     !! output_dir_name (doc_name d))) as Hmk.
  { unfold mkdir_output.
    destruct (outs !! output_dir_name (doc_name d)) eqn:H; [by rewrite H|].
    rewrite lookup_insert_eq. by eexists. }
  unfold process_single_pdf. destruct (open_doc d) as [n|e]; [|done].
  destruct (n =? 0); [done|]. cbv zeta.
  destruct (process_pdf _ _ _ _) as [st r].
  destruct r; simpl; rewrite lookup_insert_eq; by eexists.
Qed.

Lemma process_single_pdf_keeps_dirs (d : document) (outs : gmap string out_dir)
    (k : string) :
  is_Some (outs !! k) → is_Some ((process_single_pdf d outs).1 !! k).
Proof.
  intros H. destruct (decide (k = output_dir_name (doc_name d))) as [->|Hne].
  - apply process_single_pdf_dir.
  - by rewrite process_single_pdf_other.
Qed.

Lemma process_document_outputs (s : batch_state) (results : batch_results)
    (d : document) :
  outputs (process_document (s, results) d).1
  = (process_single_pdf d (outputs s)).1.
Proof. rewrite process_document_eq. by destruct (doc_ok d). Qed.

Lemma batch_fold_outputs (docs : list document) :
  ∀ acc,
  (∀ k, (∀ d, d ∈ docs → k ≠ output_dir_name (doc_name d)) →
        outputs (fold_left process_document docs acc).1 !! k
        = outputs acc.1 !! k)
  ∧ (∀ k, is_Some (outputs acc.1 !! k) →
          is_Some (outputs (fold_left process_document docs acc).1 !! k))
  ∧ (∀ d, d ∈ docs →
          is_Some (outputs (fold_left process_document docs acc).1
                     !! output_dir_name (doc_name d))).
Proof.
  induction docs as [|d docs IH]; intros [s results].
  - split; [done|]. split; [done|]. intros d Hd. by apply elem_of_nil in Hd.
  - cbn [fold_left].
    destruct (IH (process_document (s, results) d)) as (IH1 & IH2 & IH3).
    split; [|split].
    + intros k Hk. rewrite IH1.
      * rewrite process_document_outputs. apply process_single_pdf_other.
        apply Hk, list_elem_of_here.
      * intros d' Hd'. by apply Hk, list_elem_of_further.
    + intros k Hk. apply IH2. rewrite process_document_outputs.
      by apply process_single_pdf_keeps_dirs.
    + intros d' [->|Hd']%elem_of_cons; [|by apply IH3].
      apply IH2. rewrite process_document_outputs. apply process_single_pdf_dir.
Qed.

Lemma process_directory_state (files : list document) (s : batch_state) :
  (process_directory files s).1
  = (fold_left process_document (pdf_files files) (s, BatchResults [] [])).1.
Proof.
  destruct (pdf_files files) as [|d docs] eqn:Hdocs.
  - unfold process_directory. by rewrite Hdocs.
  - rewrite <- Hdocs, process_directory_eq; [done|]. by rewrite Hdocs.
Qed.

Lemma filter_none {A : Type} (f : A → bool) (l : list A) :
  (∀ x, x ∈ l → f x = false) → List.filter f l = [].
Proof.
  induction l as [|x l IH]; intros H; [done|]. simpl.
  rewrite (H x) by apply list_elem_of_here. apply IH.
  intros y Hy. by apply H, list_elem_of_further.
Qed.

(** X23.  What a batch leaves behind.  Every PDF of the directory has
    its output directory afterwards, also one that could not be opened;
    no output directory is removed, and one that no PDF of the batch is
    named for is left as it was.  The error log only grows, and stays
    as it was when no document fails.  Every PDF is reported once, as a
    success or as a failure. *)
Theorem batch_leaves_directories_and_log (files : list document)
    (s : batch_state) :
  (∀ d, d ∈ pdf_files files →
        is_Some (outputs (process_directory files s).1
                   !! output_dir_name (doc_name d)))
  ∧ (∀ k, is_Some (outputs s !! k) →
          is_Some (outputs (process_directory files s).1 !! k))
  ∧ (∀ k, (∀ d, d ∈ pdf_files files → k ≠ output_dir_name (doc_name d)) →
          outputs (process_directory files s).1 !! k = outputs s !! k)
  ∧ (∃ blocks, error_log (process_directory files s).1 = error_log s +:+ blocks)
  ∧ ((∀ d, d ∈ pdf_files files → doc_ok d = true) →
     error_log (process_directory files s).1 = error_log s)
  ∧ (∀ results, (process_directory files s).2 = Some results →
       (length (successful results) + length (failed results)
        = length (pdf_files files))%nat).
Proof.
  rewrite process_directory_state.
  destruct (batch_fold_outputs (pdf_files files) (s, BatchResults [] []))
    as (H1 & H2 & H3).
  destruct (batch_fold (pdf_files files) s (BatchResults [] []))
    as (Hs & Hf & Hlog).
  split; [done|]. split; [done|]. split; [done|].
  split; [by eexists|]. split.
  - intros Hall. rewrite Hlog.
    rewrite filter_none; [apply append_empty_r|].
    intros d Hd. by rewrite Hall.
  - intros results Hres.
    destruct (pdf_files files) as [|d docs] eqn:Hdocs.
    { unfold process_directory in Hres. by rewrite Hdocs in Hres. }
    rewrite <- Hdocs in *.
    rewrite process_directory_eq in Hres by (by rewrite Hdocs).
    injection Hres as <-. rewrite Hs, Hf. simpl. rewrite !length_map.
    apply filter_split_length.
Qed.

(** ** What a run leaves alone *)

Lemma pool_frame (pages : Z → page_env) (name : string) (l : list Z) :
  NoDup l → ∀ st,
  ((∀ q, q ∈ l → already_done st (q + 1) = false → name ≠ txt_name (q + 1)) →
   text_files (fold_left (task_store pages) l st) !! name = text_files st !! name)
  ∧ ((∀ q, q ∈ l → already_done st (q + 1) = false → name ≠ png_name (q + 1)) →
     (name ∈ png_images (fold_left (task_store pages) l st)
      ↔ name ∈ png_images st))
  ∧ (name ∈ png_images st →
     name ∈ png_images (fold_left (task_store pages) l st))
  ∧ (is_Some (text_files st !! name) →
     is_Some (text_files (fold_left (task_store pages) l st) !! name)).
Proof.
  induction 1 as [|q l Hq Hnd IH]; intros st; [done|].
  cbn [fold_left]. destruct (IH (task_store pages st q)) as (IH1 & IH2 & IH3 & IH4).
  destruct (process_page_task_frame (pages q) q st name) as (F1 & F2 & F3 & F4).
  fold (task_store pages st q) in F1, F2, F3, F4.
  assert (∀ q', q' ∈ l →
            already_done (task_store pages st q) (q' + 1) = already_done st (q' + 1))
    as Hframe.
  { intros q' Hq'. apply task_frame_done. by intros ->. }
  assert (already_done st (q + 1) = true → task_store pages st q = st) as Hskip.
  { intros Hd. unfold task_store. by rewrite process_page_task_unfold, Hd. }
  split; [|split; [|split]].
  - intros Hname. rewrite IH1.
    + destruct (already_done st (q + 1)) eqn:Hd; [by rewrite Hskip|].
      apply F1, Hname; [apply list_elem_of_here | done].
    + intros q' Hq' Hd. apply Hname; [by apply list_elem_of_further|].
      by rewrite <- Hframe.
  - intros Hname. rewrite IH2.
    + destruct (already_done st (q + 1)) eqn:Hd; [by rewrite Hskip|].
      apply F2, Hname; [apply list_elem_of_here | done].
    + intros q' Hq' Hd. apply Hname; [by apply list_elem_of_further|].
      by rewrite <- Hframe.
  - intros H. by apply IH3, F3.
  - intros H. by apply IH4, F4.
Qed.

(** X24.  What a run leaves alone.  A run removes no file.  It changes
    no text artifact and adds no image other than those of the pages of
    its range that were not complete when it started: the artifacts of
    a complete page and of every page outside the range are as they
    were, whatever the engines do and also when the pool fails. *)
Theorem run_leaves_other_pages_alone (env : run_env) (s e : Z) (o : out_dir)
    (name : string) :
  ((∀ p, s ≤ p ≤ e → already_done (mkdirs o) p = false → name ≠ txt_name p) →
   text_files (process_pdf env s e o).1 !! name = text_files (mkdirs o) !! name)
  ∧ ((∀ p, s ≤ p ≤ e → already_done (mkdirs o) p = false → name ≠ png_name p) →
     (name ∈ png_images (process_pdf env s e o).1 ↔ name ∈ png_images (mkdirs o)))
  ∧ (name ∈ png_images (mkdirs o) → name ∈ png_images (process_pdf env s e o).1)
  ∧ (is_Some (text_files (mkdirs o) !! name) →
     is_Some (text_files (process_pdf env s e o).1 !! name)).
Proof.
  rewrite process_pdf_store_any. destruct (pool_error env); [done|].
  destruct (pool_frame (page_envs env) name (submitted s e) (submitted_NoDup s e)
              (mkdirs o)) as (H1 & H2 & H3 & H4).
  split; [|split; [|by split]].
  - intros Hname. apply H1. intros q Hq%submitted_elem Hd. by apply Hname.
  - intros Hname. apply H2. intros q Hq%submitted_elem Hd. by apply Hname.
Qed.

(** ** Long pages *)




(** ** One file at the command line *)

(** X26.  Run on one file, the program writes nothing to the error
    log, removes no output directory and changes none but the one named
    for the file, however it ends. *)
Theorem single_file_mode_touches_one_directory (w : cli_env) (d : document) :
  path w = RegularFile d →
  error_log (setup_and_run w).2 = error_log (disk w)
  ∧ (∀ k, k ≠ output_dir_name (doc_name d) →
          outputs (setup_and_run w).2 !! k = outputs (disk w) !! k)
  ∧ (∀ k, is_Some (outputs (disk w) !! k) →
          is_Some (outputs (setup_and_run w).2 !! k)).
Proof.
  intros Hpath. unfold setup_and_run. rewrite Hpath.
  assert (∀ k, is_Some (outputs (disk w) !! k) →
            is_Some (mkdir_output (output_dir_name (doc_name d))
                       (outputs (disk w)) !! k)) as Hkeep.
  { intros k Hk. destruct (decide (k = output_dir_name (doc_name d))) as [->|Hne].
    - unfold mkdir_output. destruct (outputs (disk w) !! _) eqn:H; [by rewrite H|].
      by destruct Hk.
    - by rewrite mkdir_output_other. }
  destruct (negb _); [done|].
  destruct (open_doc d) as [n|e]; cbn [snd error_log outputs].
  2: { split; [done|]. split; [|done]. intros k Hk. by apply mkdir_output_other. }
  destruct (get_last_processed_page _) as [last|e]; cbn [snd error_log outputs].
  2: { split; [done|]. split; [|done]. intros k Hk. by apply mkdir_output_other. }
  destruct (select_pages _ _ _) as [status|s e]; cbn [snd error_log outputs].
  { split; [done|]. split; [|done]. intros k Hk. by apply mkdir_output_other. }
  destruct (process_pdf _ _ _ _) as [st r]. cbn [snd error_log outputs].
  split; [done|]. split.
  - intros k Hk. rewrite lookup_insert_ne by done. by apply mkdir_output_other.
  - intros k Hk. destruct (decide (k = output_dir_name (doc_name d))) as [->|Hne].
    + rewrite lookup_insert_eq. by eexists.
    + rewrite lookup_insert_ne by done. by apply Hkeep.
Qed.

Lemma single_file_mode_touches_one_directory_witness :
  path failing_pages_run = RegularFile unreadable_scan
  ∧ error_log (setup_and_run failing_pages_run).2 = error_log (disk failing_pages_run)
  ∧ is_Some (outputs (setup_and_run failing_pages_run).2 !! "scan_processed").
Proof.
  destruct (single_file_mode_touches_one_directory failing_pages_run
              unreadable_scan eq_refl) as (H1 & _ & _).
  split; [reflexivity|]. split; [exact H1|].
  vm_compute. by eexists.
Defined.

(** ** The resume query, its edge cases *)

Lemma scan_fold_raise_inv (txt : gmap string txt_file) (l : list string)
    (e : py_exception) :
  ∀ S0, fold_left (λ acc f, scan_png txt f acc) l (Ok S0) = Raise e →
  ∃ f, f ∈ l ∧ png_page txt f = Raise e.
Proof.
  induction l as [|f l IH]; intros S0; [done|]. cbn [fold_left].
  rewrite scan_png_eq. destruct (png_page txt f) as [[n|]|e'] eqn:Hf.
  - intros (g & Hg & He)%IH. exists g. split; [by apply list_elem_of_further | done].
  - intros (g & Hg & He)%IH. exists g. split; [by apply list_elem_of_further | done].
  - rewrite scan_fold_Raise. intros [= ->]. exists f.
    split; [apply list_elem_of_here | done].
Qed.

Lemma get_last_cases (st : store) (k : Z) :
  get_last_processed_page (on_disk st) = Ok k →
  k = 0 ∨ ∃ f, f ∈ png_images st ∧ png_page (text_files st) f = Ok (Some k).
Proof.
  unfold get_last_processed_page. simpl.
  destruct (fold_left _ _ _) as [S|e] eqn:Hfold; [|done].
  apply scan_fold_spec in Hfold as [_ Hin].
  case_bool_decide as Hempty; intros [= <-]; [by left|]. right.
  destruct (elements S) as [|p ps] eqn:Hel.
  { apply elements_empty_inv in Hel. by apply leibniz_equiv in Hel. }
  simpl. destruct (fold_max_spec ps p) as [Hmax _]. rewrite <- Hel in Hmax.
  apply elem_of_elements, Hin in Hmax as [Hmax|(f & Hf%elem_of_elements & Hk)].
  - by apply not_elem_of_empty in Hmax.
  - by exists f.
Qed.

Lemma png_page_cases (txt : gmap string txt_file) (f : string)
    (r : result (option Z)) :
  png_page txt f = r →
  r = Ok None
  ∨ (String.eqb (py_suffix f) ".png" = true ∧ py_isdigit (py_stem f) = true
     ∧ is_Some (txt !! (py_stem f +:+ ".txt"))
     ∧ match r with
       | Ok (Some n) => py_int (py_stem f) = Ok n
       | Ok None => False
       | Raise e => py_int (py_stem f) = Raise e
       end).
Proof.
  unfold png_page. destruct (String.eqb _ _); [|by left].
  destruct (py_isdigit _); [|by left]. simpl.
  case_bool_decide as Htxt; [|by left].
  destruct (py_int _) as [n|e]; intros <-; by right.
Qed.

Lemma isdigit_char_plain (c : ascii) :
  py_isdigit_char c = true → Ascii.eqb c "-" = false.
Proof.
  destruct c as [[] [] [] [] [] [] [] []]; vm_compute; intros H;
    try discriminate H; done.
Qed.

Lemma lstrip_int_Forall (P : ascii → Prop) (l : list ascii) :
  Forall P l → Forall P (lstrip_int l).
Proof.
  induction 1 as [|c l Hc Hl IH]; simpl; [constructor|].
  destruct (int_space c); [done | by constructor].
Qed.

Lemma py_int_isdigit_nonneg (s : string) (n : Z) :
  py_isdigit s = true → py_int s = Ok n → 0 ≤ n.
Proof.
  unfold py_isdigit, py_int. intros [_ Hall]%andb_true_iff.
  rewrite forallb_forall in Hall.
  assert (Forall (λ c, py_isdigit_char c = true)
            (rev (lstrip_int (rev (lstrip_int (chars s)))))) as Hl.
  { assert (∀ l, Forall (λ c, py_isdigit_char c = true) l →
                 Forall (λ c, py_isdigit_char c = true) (rev l)) as Hrev.
    { intros l Hl. apply Forall_forall.
      intros c Hc%list_elem_of_In%in_rev%list_elem_of_In.
      rewrite Forall_forall in Hl. by apply Hl. }
    apply Hrev, lstrip_int_Forall, Hrev, lstrip_int_Forall.
    apply Forall_forall. intros c Hc%list_elem_of_In. by apply Hall. }
  destruct (rev _) as [|c digits]; [done|].
  apply Forall_cons in Hl as [Hc _]. rewrite (isdigit_char_plain c Hc).
  assert (∀ d, digits_value s d = Ok n → 0 ≤ n) as Hval.
  { intros d. unfold digits_value. destruct (digits_ok _ _); [|done].
    destruct (NilEmpty.uint_of_string _); [|done]. intros [= <-]. lia. }
  destruct (Ascii.eqb c "+"); apply Hval.
Qed.

(** X27.  The edge cases of the resume query.  It answers 0 when one
    of the two directories is missing.  It raises exactly when the
    directory holds an image with the suffix [.png] and a stem that
    [isdigit] accepts, the text artifact of that stem exists, and
    [int] rejects the stem.  When it answers, the answer is not
    negative, and a positive answer is the number read from the stem of
    such an image. *)
Theorem resume_query_edge_cases (st : store) :
  (∀ o, png_dir o = None ∨ txt_dir o = None → get_last_processed_page o = Ok 0)
  ∧ ((∃ e, get_last_processed_page (on_disk st) = Raise e)
     ↔ ∃ f e, f ∈ png_images st
              ∧ String.eqb (py_suffix f) ".png" = true
              ∧ py_isdigit (py_stem f) = true
              ∧ is_Some (text_files st !! (py_stem f +:+ ".txt"))
              ∧ py_int (py_stem f) = Raise e)
  ∧ (∀ k, get_last_processed_page (on_disk st) = Ok k →
          0 ≤ k
          ∧ (k ≠ 0 →
             ∃ f, f ∈ png_images st
                  ∧ String.eqb (py_suffix f) ".png" = true
                  ∧ py_isdigit (py_stem f) = true
                  ∧ is_Some (text_files st !! (py_stem f +:+ ".txt"))
                  ∧ py_int (py_stem f) = Ok k)).
Proof.
  split; [|split].
  - intros [png txt] [H|H]; simpl in H; subst; unfold get_last_processed_page;
      simpl; [done | by destruct png].
  - split.
    + intros [e He]. unfold get_last_processed_page in He. simpl in He.
      destruct (fold_left _ _ _) as [S|e'] eqn:Hfold.
      { by case_bool_decide. }
      apply scan_fold_raise_inv in Hfold as (f & Hf%elem_of_elements & Hpage).
      destruct (png_page_cases _ _ _ Hpage) as [?|(H1 & H2 & H3 & H4)]; [done|].
      by exists f, e'.
    + intros (f & e & Hf & H1 & H2 & H3 & H4).
      destruct (get_last_processed_page (on_disk st)) as [k|e'] eqn:Hk;
        [|by exists e'].
      destruct (get_last_processed_page_ok st k Hk) as (Hok & _).
      destruct (Hok f Hf) as [o Ho]. unfold png_page in Ho.
      rewrite H1, H2 in Ho. simpl in Ho.
      rewrite bool_decide_eq_true_2 in Ho by done. by rewrite H4 in Ho.
  - intros k Hk. destruct (get_last_cases st k Hk) as [->|(f & Hf & Hpage)].
    + split; [lia | done].
    + destruct (png_page_cases _ _ _ Hpage) as [?|(H1 & H2 & H3 & H4)]; [done|].
      split; [by apply (py_int_isdigit_nonneg (py_stem f))|].
      intros _. by exists f.
Qed.

(** The query raises on a directory that holds the image [²001.png]
    and the text [²001.txt]. *)
Example resume_query_raises_on_superscript_stem :
  py_isdigit superscript_stem = true
  ∧ ∃ e, exc_type e = "ValueError"
         ∧ py_int superscript_stem = Raise e
         ∧ get_last_processed_page (on_disk superscript_store) = Raise e.
Proof.
  split; [vm_compute; reflexivity|].
  exists (value_error superscript_stem). vm_compute. done.
Qed.

(** ** Failure isolation in a batch *)

Lemma log_block_spec (timestamp name error : string) :
  log_block timestamp name (Some error) = spec_log_block timestamp name error.
Proof. reflexivity. Qed.

Lemma doc_block_spec (d : document) :
  doc_ok d = false →
  doc_block d
  = spec_log_block (logged_at d) (doc_name d) (default EmptyString (doc_error d)).
Proof.
  unfold doc_ok, doc_block. destruct (doc_error d) as [msg|]; [|done].
  intros _. apply log_block_spec.
Qed.

Lemma task_text_written (pages : Z → page_env) (st : store) (q : Z) :
  text_files (task_store pages st q) !! txt_name (q + 1)
  = if already_done st (q + 1) then text_files st !! txt_name (q + 1)
    else Some (Text (task_text (pages q))).
Proof.
  unfold task_store. rewrite process_page_task_unfold.
  destruct (already_done st (q + 1)); [done|].
  unfold apply_outcome, fresh_outcome, task_text. cbn [fst text_files].
  rewrite lookup_insert_eq.
  by destruct (render (pages q)) as [[]|e]; [destruct (ocr (pages q))|].
Qed.

Lemma pool_page_text (pages : Z → page_env) (l : list Z) (q : Z) :
  NoDup l → q ∈ l → ∀ st,
  text_files (fold_left (task_store pages) l st) !! txt_name (q + 1)
  = text_files (task_store pages st q) !! txt_name (q + 1).
Proof.
  induction 1 as [|q' l Hq' Hnd IH]; intros Hq st.
  { by apply elem_of_nil in Hq. }
  cbn [fold_left]. apply elem_of_cons in Hq as [->|Hq].
  - destruct (pool_frame pages (txt_name (q' + 1)) l Hnd (task_store pages st q'))
      as [H _].
    apply H. intros q'' Hq'' _ Heq%txt_name_inj.
    assert (q'' = q') as -> by lia. done.
  - rewrite IH by done.
    assert (q ≠ q') as Hne by (by intros ->).
    unfold task_store.
    rewrite (task_commute (pages q) (pages q') q q' st Hne).
    by rewrite task_frame_txt.
Qed.

Lemma process_pdf_page_text (env : run_env) (s e : Z) (o : out_dir) (p : Z) :
  pool_error env = None → s ≤ p ≤ e →
  text_files (process_pdf env s e o).1 !! txt_name p
  = if already_done (mkdirs o) p then text_files (mkdirs o) !! txt_name p
    else Some (Text (task_text (page_envs env (p - 1)))).
Proof.
  intros Hpool Hp. rewrite (process_pdf_store env s e o Hpool).
  pose proof (pool_page_text (page_envs env) (submitted s e) (p - 1)
                (submitted_NoDup s e)) as H.
  pose proof (task_text_written (page_envs env) (mkdirs o) (p - 1)) as Hw.
  replace (p - 1 + 1) with p in H, Hw by lia.
  rewrite H by (apply submitted_elem; lia). exact Hw.
Qed.

Lemma process_pdf_accounts (env : run_env) (s e : Z) (o : out_dir) :
  pool_error env = None →
  ∃ t, tally_of (process_pdf env s e o) = Some t
       ∧ success_count t + failure_count t = Z.max 0 (e - s + 1)
       ∧ reports_of (process_pdf env s e o)
         = if 0 <? success_count t
           then Some (Reports
                        (combine_text_files (process_pdf env s e o).1 s e)
                        (generate_word_count_csv (process_pdf env s e o).1 s e)
                        (generate_proper_names_csv (spacy env)
                           (process_pdf env s e o).1 s e))
           else None.
Proof.
  intros Hpool.
  destruct (process_pdf_counts env s e o Hpool) as (t & Ht & Hs & Hf).
  exists t. split; [done|]. split.
  - pose proof (page_states_partition (page_envs env) (mkdirs o) (submitted s e)) as H.
    assert (Z.of_nat (length (submitted s e)) = Z.max 0 (e - s + 1)) as Hlen.
    { unfold submitted, py_range. rewrite length_seqZ. lia. }
    lia.
  - rewrite (process_pdf_reports env s e o Hpool).
    rewrite (process_pdf_store env s e o Hpool). cbv zeta. by rewrite Hs.
Qed.

Lemma process_pdf_fully (d : document) (n : Z) (before : out_dir) :
  pool_error (run d) = None →
  fully_processed d n before
    (Some (on_disk (process_pdf (run d) 1 n before).1)).
Proof.
  intros Hpool. split; [done|]. split.
  - intros p Hp. unfold page_processed.
    rewrite process_pdf_page_text by done.
    pose proof (process_pdf_done (run d) 1 n before p Hpool) as Hdone.
    rewrite bool_decide_eq_true_2 in Hdone by lia.
    destruct (already_done (mkdirs before) p) eqn:Hbefore.
    + split; [done|]. unfold already_done in Hbefore.
      apply andb_true_iff in Hbefore as [Hpng _]. rewrite Hpng in Hdone.
      unfold already_done in Hdone. apply andb_true_iff in Hdone as [H _].
      by apply bool_decide_eq_true in H.
    + split; [done|]. intros Hr. rewrite Hr, orb_true_r in Hdone.
      unfold already_done in Hdone. apply andb_true_iff in Hdone as [H _].
      by apply bool_decide_eq_true in H.
  - destruct (process_pdf_accounts (run d) 1 n before Hpool) as (t & Ht & Hsum & Hrep).
    exists t. split; [done|]. split; [lia | done].
Qed.

Lemma process_single_pdf_corrupt (d : document) (outs : gmap string out_dir)
    (e : py_exception) :
  open_doc d = Raise e →
  (process_single_pdf d outs).1 = mkdir_output (output_dir_name (doc_name d)) outs.
Proof. intros H. unfold process_single_pdf. by rewrite H. Qed.

Lemma read_output_mkdir_any (k dir : string) (outs : gmap string out_dir) :
  read_output k (mkdir_output dir outs) = read_output k outs.
Proof.
  unfold read_output, mkdir_output. destruct (outs !! dir) eqn:Hdir; [done|].
  destruct (decide (k = dir)) as [->|Hne].
  - by rewrite lookup_insert_eq, Hdir.
  - by rewrite lookup_insert_ne.
Qed.

Lemma mkdir_output_keeps (k dir : string) (outs : gmap string out_dir)
    (o : out_dir) :
  outs !! k = Some o → mkdir_output dir outs !! k = Some o.
Proof.
  intros Hk. unfold mkdir_output. destruct (outs !! dir) eqn:Hdir; [done|].
  rewrite lookup_insert_ne; [done|]. intros ->. by rewrite Hk in Hdir.
Qed.

Lemma process_single_pdf_local (d : document) (outs outs' : gmap string out_dir) :
  outs !! output_dir_name (doc_name d) = outs' !! output_dir_name (doc_name d) →
  (process_single_pdf d outs).1 !! output_dir_name (doc_name d)
  = (process_single_pdf d outs').1 !! output_dir_name (doc_name d).
Proof.
  intros Heq.
  assert (mkdir_output (output_dir_name (doc_name d)) outs
            !! output_dir_name (doc_name d)
          = mkdir_output (output_dir_name (doc_name d)) outs'
              !! output_dir_name (doc_name d)) as Hmk.
  { unfold mkdir_output. rewrite <- Heq.
    destruct (outs !! output_dir_name (doc_name d)) eqn:H.
    - by rewrite H, <- Heq.
    - by rewrite !lookup_insert_eq. }
  assert (read_output (output_dir_name (doc_name d))
            (mkdir_output (output_dir_name (doc_name d)) outs)
          = read_output (output_dir_name (doc_name d))
              (mkdir_output (output_dir_name (doc_name d)) outs')) as Hread.
  { unfold read_output. by rewrite Hmk. }
  unfold process_single_pdf. destruct (open_doc d) as [n|e]; [|done].
  destruct (n =? 0); [done|]. cbv zeta. rewrite Hread.
  destruct (process_pdf _ _ _ _) as [st r].
  destruct r; simpl; by rewrite !lookup_insert_eq.
Qed.

Lemma batch_document_alone (pre post : list document) (d : document)
    (acc : batch_state * batch_results) :
  (∀ d', d' ∈ pre ++ post →
         output_dir_name (doc_name d') ≠ output_dir_name (doc_name d)) →
  outputs (fold_left process_document (pre ++ d :: post) acc).1
    !! output_dir_name (doc_name d)
  = (process_single_pdf d (outputs acc.1)).1 !! output_dir_name (doc_name d).
Proof.
  intros Hother. rewrite fold_left_app. cbn [fold_left].
  destruct (batch_fold_outputs post
              (process_document (fold_left process_document pre acc) d))
    as (Hpost & _).
  rewrite Hpost.
  2: { intros d' Hd' Heq. apply (Hother d'); [|done].
       apply elem_of_app. by right. }
  destruct (fold_left process_document pre acc) as [s1 r1] eqn:Hpre.
  rewrite process_document_outputs. apply process_single_pdf_local.
  destruct (batch_fold_outputs pre acc) as (Hp & _).
  rewrite Hpre in Hp. apply Hp.
  intros d' Hd' Heq. apply (Hother d'); [|done]. apply elem_of_app. by left.
Qed.

Lemma failing_blocks_spec (docs : list document) :
  concat_str (map doc_block (List.filter (λ d, negb (doc_ok d)) docs))
  = concat_str
      (map (λ d, spec_log_block (logged_at d) (doc_name d)
                   (default EmptyString (doc_error d)))
           (List.filter (λ d, negb (doc_ok d)) docs)).
Proof.
  induction docs as [|d docs IH]; [done|]. cbn [List.filter].
  destruct (doc_ok d) eqn:Hok; cbn [negb]; [done|].
  cbn [map concat_str fold_right]. fold (concat_str (map doc_block
    (List.filter (λ d, negb (doc_ok d)) docs))).
  rewrite IH. by rewrite doc_block_spec.
Qed.

(** C9 (the code departs from the claim).  A batch goes once through
    each file of the directory that has the name of a PDF, whatever
    happened to the files before it.  The documents whose pipeline
    fails (the document cannot be opened, has no page, or its run
    raises) are exactly the entries of the failed list, one entry each
    with its error, and for each of them one block is appended to the
    error log, in the same order: an empty line, a rule, the time stamp
    and the name, a rule, the error, a rule, an empty line.  The others
    are the successful ones, and a document that opens, whose run
    raises nothing and whose output directory no other document of the
    batch shares, is fully processed, whatever fails before or after
    it.  When the listing is three documents of which only the second
    cannot be opened, the first and the third are reported successful,
    and the failed list and the log hold exactly the entry of the
    second; the first and the third are fully processed when their
    output directories differ.  When they are the same directory, the
    claim fails: the third document, if it has no more pages than the
    first and the first was rendered, is reported successful although
    none of its pages is processed, and the directory holds the
    artifacts of the first. *)
Theorem batch_isolates_document_failures :
  (∀ files : list document, pdf_files files ≡ₚ List.filter is_pdf_name files)
  ∧ (∀ (files : list document) (s : batch_state),
     pdf_files files ≠ [] →
     ∃ s' results,
       process_directory files s = (s', Some results)
       ∧ successful results = map doc_name (List.filter doc_ok (pdf_files files))
       ∧ failed results
         = map (λ d, (doc_name d, doc_error d))
               (List.filter (λ d, negb (doc_ok d)) (pdf_files files))
       ∧ error_log s'
         = error_log s
           +:+ concat_str
                 (map (λ d, spec_log_block (logged_at d) (doc_name d)
                              (default EmptyString (doc_error d)))
                      (List.filter (λ d, negb (doc_ok d)) (pdf_files files))))
  ∧ (∀ (files : list document) (s : batch_state) (pre post : list document)
       (d : document) (n : Z),
       pdf_files files = pre ++ d :: post →
       (∀ d', d' ∈ pre ++ post →
              output_dir_name (doc_name d') ≠ output_dir_name (doc_name d)) →
       open_doc d = Ok n → n ≠ 0 → pool_error (run d) = None →
       fully_processed d n
         (read_output (output_dir_name (doc_name d)) (outputs s))
         (outputs (process_directory files s).1 !! output_dir_name (doc_name d)))
  ∧ (∀ (files : list document) (s : batch_state) (d1 d2 d3 : document)
       (e : py_exception) (n1 n3 : Z),
       pdf_files files = [d1; d2; d3] →
       open_doc d2 = Raise e →
       open_doc d1 = Ok n1 → n1 ≠ 0 → pool_error (run d1) = None →
       open_doc d3 = Ok n3 → n3 ≠ 0 → pool_error (run d3) = None →
       ∃ s' results,
         process_directory files s = (s', Some results)
         ∧ successful results = [doc_name d1; doc_name d3]
         ∧ failed results = [(doc_name d2, Some (exc_repr e))]
         ∧ error_log s'
           = error_log s
             +:+ spec_log_block (logged_at d2) (doc_name d2) (exc_repr e)
         ∧ (output_dir_name (doc_name d3) ≠ output_dir_name (doc_name d1) →
            fully_processed d1 n1
              (read_output (output_dir_name (doc_name d1)) (outputs s))
              (outputs s' !! output_dir_name (doc_name d1))
            ∧ fully_processed d3 n3
                (read_output (output_dir_name (doc_name d3)) (outputs s))
                (outputs s' !! output_dir_name (doc_name d3)))
         ∧ (output_dir_name (doc_name d3) = output_dir_name (doc_name d1) →
            (∀ p, 1 ≤ p ≤ n1 → renders (page_envs (run d1) (p - 1)) = true) →
            n3 ≤ n1 →
            let st1 :=
              (process_pdf (run d1) 1 n1
                 (read_output (output_dir_name (doc_name d1)) (outputs s))).1 in
            outputs s' !! output_dir_name (doc_name d1) = Some (on_disk st1)
            ∧ (process_pdf (run d3) 1 n3 (on_disk st1)).1 = st1
            ∧ tally_of (process_pdf (run d3) 1 n3 (on_disk st1))
              = Some (Tally (Z.max 0 n3) 0 [])
            ∧ reports_of (process_pdf (run d3) 1 n3 (on_disk st1))
              = if 1 <=? n3
                then Some (Reports
                             (combine_text_files st1 1 n3)
                             (generate_word_count_csv st1 1 n3)
                             (generate_proper_names_csv (spacy (run d3)) st1 1 n3))
                else None)).
Proof.
  split; [|split; [|split]].
  - apply pdf_files_Permutation.
  - intros files s Hne.
    destruct (process_directory_results files s Hne)
      as (s' & results & Hrun & Hs & Hf & Hlog).
    exists s', results. split; [done|]. split; [done|]. split; [done|].
    by rewrite Hlog, failing_blocks_spec.
  - intros files s pre post d n Hfiles Hother Hopen Hn Hpool.
    rewrite process_directory_state, Hfiles.
    rewrite (batch_document_alone pre post d _ Hother). cbn [fst].
    rewrite (process_single_pdf_own d _ n Hopen Hn).
    by apply process_pdf_fully.
  - intros files s d1 d2 d3 e n1 n3 Hfiles Hopen2 Hopen1 Hn1 Hpool1
      Hopen3 Hn3 Hpool3.
    rewrite process_directory_eq by (by rewrite Hfiles).
    eexists _, _. split; [reflexivity|]. rewrite Hfiles.
    destruct (doc_ok_healthy d1 n1 Hopen1 Hn1 Hpool1) as [He1 Hok1].
    destruct (doc_ok_healthy d3 n3 Hopen3 Hn3 Hpool3) as [He3 Hok3].
    destruct (doc_ok_corrupt d2 e Hopen2) as [He2 Hok2].
    cbn [fold_left].
    rewrite process_document_eq, Hok1.
    rewrite process_document_eq, Hok2.
    rewrite process_document_eq, Hok3.
    cbn [outputs error_log successful failed app fst snd].
    unfold doc_block. rewrite He2.
    split; [done|]. split; [done|]. split; [done|].
    rewrite (process_single_pdf_corrupt d2 _ e Hopen2).
    pose proof (process_single_pdf_own d1 (outputs s) n1 Hopen1 Hn1) as Hown1.
    pose proof (mkdir_output_keeps _ (output_dir_name (doc_name d2)) _ _ Hown1)
      as Hkept.
    split.
    + intros Hne. split.
      * rewrite process_single_pdf_other by done. rewrite Hkept.
        by apply process_pdf_fully.
      * rewrite (process_single_pdf_own d3 _ n3 Hopen3 Hn3).
        rewrite read_output_mkdir_any.
        assert (read_output (output_dir_name (doc_name d3))
                  (process_single_pdf d1 (outputs s)).1
                = read_output (output_dir_name (doc_name d3)) (outputs s)) as ->.
        { unfold read_output. by rewrite process_single_pdf_other. }
        by apply process_pdf_fully.
    + intros Heq Hrender Hle. cbv zeta.
      assert (∀ p, 1 ≤ p ≤ n3 →
                already_done
                  (mkdirs (on_disk (process_pdf (run d1) 1 n1
                     (read_output (output_dir_name (doc_name d1)) (outputs s))).1))
                  p = true) as Hdone.
      { intros p Hp. rewrite mkdirs_on_disk, process_pdf_done by done.
        rewrite bool_decide_eq_true_2 by lia. rewrite Hrender by lia.
        apply orb_true_r. }
      destruct (process_pdf_complete_range (run d3) 1 n3 _ Hpool3 Hdone)
        as (Hst & Htally & Hreports).
      rewrite mkdirs_on_disk in Hst, Hreports.
      replace (n3 - 1 + 1) with n3 in Htally by lia.
      split; [|split; [done|split; done]].
      pose proof (process_single_pdf_own d3
                    (mkdir_output (output_dir_name (doc_name d2))
                       (process_single_pdf d1 (outputs s)).1) n3 Hopen3 Hn3)
        as Hown3.
      rewrite Heq in Hown3. rewrite Hown3, read_output_mkdir_any.
      assert (read_output (output_dir_name (doc_name d1))
                (process_single_pdf d1 (outputs s)).1
              = on_disk (process_pdf (run d1) 1 n1
                  (read_output (output_dir_name (doc_name d1)) (outputs s))).1)
        as ->.
      { unfold read_output. by rewrite Hown1. }
      by rewrite Hst.
Qed.

Lemma batch_isolates_document_failures_witness :
  pdf_files [third_doc; corrupt_doc; first_doc] = [first_doc; corrupt_doc; third_doc]
  ∧ output_dir_name (doc_name third_doc) = output_dir_name (doc_name first_doc)
  ∧ ∃ s' results,
      process_directory [third_doc; corrupt_doc; first_doc] nothing_yet
      = (s', Some results)
      ∧ successful results = ["a b.pdf"; "a_b.pdf"]
      ∧ failed results
        = [("a c.pdf", Some "FileDataError: cannot open broken document")]
      ∧ error_log s'
        = EmptyString
          +:+ spec_log_block "2024-02-01 09:01:00" "a c.pdf"
                "FileDataError: cannot open broken document"
      ∧ ∃ st1,
          outputs s' !! "a_b_processed" = Some (on_disk st1)
          ∧ text_files st1 !! "0001.txt" = Some (Text "First document")
          ∧ (process_pdf (run third_doc) 1 1 (on_disk st1)).1 = st1
          ∧ tally_of (process_pdf (run third_doc) 1 1 (on_disk st1))
            = Some (Tally 1 0 []).
Proof.
  split; [vm_compute; reflexivity|]. split; [reflexivity|].
  assert (1 ≠ 0) as H1 by lia. assert (1 ≤ 1) as Hle by lia.
  assert (∀ p, 1 ≤ p ≤ 1 → renders (page_envs (run first_doc) (p - 1)) = true)
    as Hrender by (intros p _; reflexivity).
  destruct (proj2 (proj2 (proj2 batch_isolates_document_failures))
              [third_doc; corrupt_doc; first_doc] nothing_yet
              first_doc corrupt_doc third_doc
              (PyExc "FileDataError" "cannot open broken document") 1 1
              eq_refl eq_refl eq_refl H1 eq_refl eq_refl H1 eq_refl)
    as (s' & results & Hrun & Hs & Hf & Hlog & _ & Hshared).
  destruct (Hshared eq_refl Hrender Hle) as (Hdir & Hst & Htally & _).
  exists s', results. split; [exact Hrun|]. split; [exact Hs|].
  split; [exact Hf|]. split; [exact Hlog|].
  eexists. split; [exact Hdir|]. split; [vm_compute; reflexivity|].
  split; [exact Hst | exact Htally].
Defined.
